(** * CatMart Go API: order transaction and catalog query services

    A shallow embedding of [internal/service] of the Go REST API
    ([OrderService.CreateOrder], [OrderService.GetUserOrders],
    [OrderService.getOrderItems], [ProductService.GetProducts],
    [ProductService.GetProduct]) together with the part of
    [ProductHandler.GetProduct] that maps service errors to HTTP statuses.

    The services are straight-line sequences of SQL statements sent through
    [database/sql].  The relational store is modelled as three tables (lists
    of rows, in insertion order); every statement is one round trip to the
    store, which the environment may fail (connection loss, cancelled
    context, constraint violation) and before which other sessions may
    commit their own changes ([BeginTx(ctx, nil)] asks for the driver's
    default isolation level, READ COMMITTED on PostgreSQL, so every statement
    of a transaction sees what was committed before that statement).

    Money is [float64] in the Go code; it is IEEE-754 binary64 here as well
    (Rocq's primitive floats), every operation rounded on its own, as in
    Go wherever the compiler does not fuse [x*y + z] into one operation (the
    default on amd64).  What
    the store keeps of a [float64] handed to it depends on the type of the
    column, which the sources do not give: it is a parameter of the
    environment. *)

From Stdlib Require Import ZArith NArith List String Ascii Bool Lia.
From Stdlib Require Import Sorting.Sorted Sorting.Permutation.
From Stdlib Require Import Floats.PrimFloat Numbers.Cyclic.Int63.Uint63.
From Stdlib Require Import Floats.SpecFloat Floats.FloatOps Floats.FloatAxioms.
Import ListNotations.

Local Open Scope string_scope.
Local Open Scope list_scope.
Local Open Scope Z_scope.

(* ================================================================= *)
(** ** Base types *)

(** [uuid.UUID] is a 16-byte array; it is represented by its 128-bit value. *)
Definition UUID : Type := N.

(** [time.Time], as a number of time units since the epoch. *)
Definition Time : Type := Z.

(** Go's [float64]. *)
Definition float64 : Type := PrimFloat.float.

(** The conversion [float64(n)] of a Go [int] (64 bits, signed), rounding to
    nearest even.  Primitive integers carry 63 bits, which covers every
    magnitude except that of the minimal value [-2^63], a power of two. *)
Definition float64_of_int (n : Z) : float64 :=
  if n =? - 2 ^ 63 then
    PrimFloat.opp (PrimFloat.mul (PrimFloat.of_uint63 (Uint63.of_Z (2 ^ 62))) PrimFloat.two)
  else if n <? 0 then PrimFloat.opp (PrimFloat.of_uint63 (Uint63.of_Z (- n)))
  else PrimFloat.of_uint63 (Uint63.of_Z n).

(* ================================================================= *)
(** ** Domain records ([internal/domain]) *)

Module Product.
Record t : Type := mk {
  ID : UUID;
  Title : string;
  Price : float64;
  Category : string;
  Image : string;
  Description : string;
  StockQuantity : Z;
  CreatedAt : Time;
  UpdatedAt : Time
}.
(** The zero value of the struct ([var product domain.Product]). *)
Definition zero : t := mk 0%N "" PrimFloat.zero "" "" "" 0 0 0.
End Product.

Module ProductFilter.
Record t : Type := mk {
  Query : string;
  Category : string;
  Limit : Z;
  Offset : Z
}.
End ProductFilter.

Module OrderItem.
Record t : Type := mk {
  ID : UUID;
  OrderID : UUID;
  ProductID : UUID;
  Quantity : Z;
  Price : float64;
  Product : option Product.t;
  CreatedAt : Time
}.
End OrderItem.

Module Order.
Record t : Type := mk {
  ID : UUID;
  UserID : UUID;
  TotalAmount : float64;
  Status : string;
  Items : list OrderItem.t;
  CreatedAt : Time;
  UpdatedAt : Time
}.
End Order.

Module OrderItemRequest.
Record t : Type := mk {
  ProductID : UUID;
  Qty : Z
}.
End OrderItemRequest.

Module CreateOrderRequest.
Record t : Type := mk {
  Items : list OrderItemRequest.t
}.
End CreateOrderRequest.

Module CreateOrderResponse.
Record t : Type := mk {
  OrderID : UUID;
  Total : float64
}.
End CreateOrderResponse.

(* ================================================================= *)
(** ** The relational store *)

(** A row of table [orders]:
    [(id, user_id, total_amount, status, created_at, updated_at)]. *)
Module OrderRow.
Record t : Type := mk {
  id : UUID;
  user_id : UUID;
  total_amount : float64;
  status : string;
  created_at : Time;
  updated_at : Time
}.
End OrderRow.

(** A row of table [order_items]:
    [(id, order_id, product_id, quantity, price, created_at)]. *)
Module OrderItemRow.
Record t : Type := mk {
  id : UUID;
  order_id : UUID;
  product_id : UUID;
  quantity : Z;
  price : float64;
  created_at : Time
}.
End OrderItemRow.

(** The three tables the two services touch.  A row of [products] has
    exactly the columns of [domain.Product].  A column holds the Go value
    that [Scan] yields for it. *)
Record Store : Type := mkStore {
  products : list Product.t;
  orders : list OrderRow.t;
  order_items : list OrderItemRow.t
}.

(** What a money column ([products.price], [orders.total_amount],
    [order_items.price]) makes of the [float64] handed to an [INSERT]: the
    [float64] that [Scan] reads back.  The DDL of the tables is not among
    the sources.  The technical guide gives these columns as DECIMAL(10,2),
    which keeps two decimals; a [double precision] column would keep the
    value as it is.  All that is assumed of a column is that it keeps
    zero. *)
Record Column : Type := mkColumn {
  keep :> float64 -> float64;
  keep_zero : keep PrimFloat.zero = PrimFloat.zero
}.

(** A [double precision] column. *)
Definition double_precision : Column := mkColumn (fun v => v) eq_refl.

(** A column of two decimals, for the examples: the multiple of one
    hundredth nearest to the value handed (for magnitudes below [2^52]
    hundredths; the halves go to the even neighbour), read back as the
    nearest [float64].  PostgreSQL's DECIMAL(10,2) keeps two decimals as
    well; it rounds the halves away from zero, on the decimal text of the
    value, and refuses magnitudes from [10^8] on. *)
Definition hundredths (v : float64) : float64 :=
  let c := PrimFloat.mul v 100%float in
  let r :=
    if PrimFloat.ltb c PrimFloat.zero
    then PrimFloat.add (PrimFloat.sub c 0x1p52%float) 0x1p52%float
    else PrimFloat.sub (PrimFloat.add c 0x1p52%float) 0x1p52%float in
  PrimFloat.div r 100%float.

Definition two_decimals : Column := mkColumn hundredths eq_refl.

(** Errors a service call can return. *)
Inductive StoreFault : Type :=
| ConnLost               (* the driver lost its connection *)
| CtxCanceled            (* ctx.Err(): the context passed to the call is done *)
| ConstraintViolation.   (* the store refused a write *)

Inductive error : Type :=
| ErrNoRows                    (* sql.ErrNoRows: QueryRow(...).Scan found no row *)
| ErrStore (f : StoreFault)    (* any other failure of a round trip to the store *)
| ErrNew (msg : string).       (* errors.New(msg) *)

(** What the program does not control: the outcome of each round trip, the
    changes other sessions commit just before it, the values drawn by
    [uuid.New()], the clock read by [time.Now()] and the type of the money
    columns of the store. *)
Record Env : Type := mkEnv {
  fault : nat -> option StoreFault;
  concurrent : nat -> Store -> Store;
  uuids : nat -> UUID;
  clock : Time;
  numeric : Column
}.

(** No round trip fails. *)
Definition reliable (env : Env) : Prop := forall n, fault env n = None.

(** No other session commits anything during the call. *)
Definition quiet (env : Env) : Prop := forall n st, concurrent env n st = st.

(** A write a transaction has issued and not yet committed, with the values
    handed to [Exec]. *)
Inductive Write : Type :=
| InsertOrder (r : OrderRow.t)
| InsertOrderItem (r : OrderItemRow.t).

(** The rows the store makes of the values handed to an [INSERT]. *)
Definition order_row (col : Column) (r : OrderRow.t) : OrderRow.t :=
  OrderRow.mk (OrderRow.id r) (OrderRow.user_id r) (col (OrderRow.total_amount r))
    (OrderRow.status r) (OrderRow.created_at r) (OrderRow.updated_at r).

Definition order_item_row (col : Column) (r : OrderItemRow.t) : OrderItemRow.t :=
  OrderItemRow.mk (OrderItemRow.id r) (OrderItemRow.order_id r) (OrderItemRow.product_id r)
    (OrderItemRow.quantity r) (col (OrderItemRow.price r)) (OrderItemRow.created_at r).

Definition apply_write (col : Column) (st : Store) (w : Write) : Store :=
  match w with
  | InsertOrder r =>
      mkStore (products st) (orders st ++ [order_row col r]) (order_items st)
  | InsertOrderItem r =>
      mkStore (products st) (orders st) (order_items st ++ [order_item_row col r])
  end.

(** A session with the store: the committed data, the number of round trips
    made and of UUIDs drawn so far, and the pending writes of the open
    transaction ([None] when no transaction is open). *)
Record Session : Type := mkSession {
  committed : Store;
  trips : nat;
  minted : nat;
  tx : option (list Write)
}.

Definition connect (st : Store) : Session := mkSession st 0 0 None.

(* ================================================================= *)
(** ** The monad of service code: state and errors *)

Definition M (A : Type) : Type := Session -> (error + A) * Session.

Definition ret {A : Type} (a : A) : M A := fun s => (inr a, s).

Definition bind {A B : Type} (m : M A) (k : A -> M B) : M B :=
  fun s =>
    match m s with
    | (inl e, s') => (inl e, s')
    | (inr a, s') => k a s'
    end.

Declare Scope go_scope.
Delimit Scope go_scope with go.
Notation "x <- m ;; k" := (bind m (fun x => k))
  (at level 100, m at next level, right associativity) : go_scope.
Notation "m ;;; k" := (bind m (fun _ => k))
  (at level 100, right associativity) : go_scope.
Local Open Scope go_scope.

(** [for _, x := range xs { acc = body(acc, x) }], leaving at the first error. *)
Fixpoint for_range {A B : Type} (xs : list B) (acc : A) (body : A -> B -> M A) : M A :=
  match xs with
  | [] => ret acc
  | x :: xs' => acc' <- body acc x ;; for_range xs' acc' body
  end.

(** One round trip: the other sessions' commits land, then the statement
    either fails in the store layer or is evaluated on the committed data. *)
Definition round_trip {A : Type} (env : Env) (stmt : Store -> error + A) : M A :=
  fun s =>
    let st := concurrent env (trips s) (committed s) in
    let s' := mkSession st (S (trips s)) (minted s) (tx s) in
    match fault env (trips s) with
    | Some f => (inl (ErrStore f), s')
    | None => (stmt st, s')
    end.

(** [uuid.New()]. *)
Definition uuid_New (env : Env) : M UUID :=
  fun s => (inr (uuids env (minted s)),
            mkSession (committed s) (trips s) (S (minted s)) (tx s)).

(** [time.Now()]. *)
Definition time_Now (env : Env) : M Time := ret (clock env).

(** [s.db.BeginTx(ctx, nil)]. *)
Definition BeginTx (env : Env) : M unit :=
  round_trip env (fun _ => inr tt) ;;;
  fun s => (inr tt, mkSession (committed s) (trips s) (minted s) (Some [])).

(** [tx.ExecContext(ctx, "INSERT ...", ...)]: the row joins the pending
    writes of the transaction. *)
Definition tx_Exec (env : Env) (w : Write) : M unit :=
  round_trip env (fun _ => inr tt) ;;;
  fun s =>
    match tx s with
    | Some log => (inr tt, mkSession (committed s) (trips s) (minted s) (Some (log ++ [w])))
    | None => (inl (ErrNew "sql: transaction has already been committed or rolled back"), s)
    end.

(** [tx.Commit()]: on success the pending writes become committed data. *)
Definition tx_Commit (env : Env) : M unit :=
  round_trip env (fun _ => inr tt) ;;;
  fun s =>
    match tx s with
    | Some log =>
        (inr tt,
         mkSession (fold_left (apply_write (numeric env)) log (committed s)) (trips s)
           (minted s) None)
    | None => (inl (ErrNew "sql: transaction has already been committed or rolled back"), s)
    end.

(** [tx.Rollback()]: discards the pending writes of an open transaction;
    does nothing once the transaction is done.  Its error is ignored by the
    caller. *)
Definition tx_Rollback (env : Env) : Session -> Session :=
  fun s =>
    match tx s with
    | Some _ =>
        mkSession (concurrent env (trips s) (committed s)) (S (trips s)) (minted s) None
    | None => s
    end.

(** [defer tx.Rollback()]: runs when the function returns, on every path. *)
Definition defer_Rollback {A : Type} (env : Env) (body : M A) : M A :=
  fun s => let (r, s') := body s in (r, tx_Rollback env s').

(** [SELECT price FROM products WHERE id = $1], scanned into a [float64]. *)
Definition select_price (pid : UUID) (st : Store) : error + float64 :=
  match find (fun p => N.eqb (Product.ID p) pid) (products st) with
  | Some p => inr (Product.Price p)
  | None => inl ErrNoRows
  end.

(* ================================================================= *)
(** ** OrderService.CreateOrder *)

Definition CreateOrder (env : Env) (userID : UUID) (req : CreateOrderRequest.t)
  : M CreateOrderResponse.t :=
  fun s0 =>
    match BeginTx env s0 with
    | (inl err, s) => (inl err, s)
    | (inr _, s) =>
      defer_Rollback env (
        (* Create order *)
        orderID <- uuid_New env ;;
        (* Calculate total amount by fetching product prices *)
        totalAmount <-
          for_range (CreateOrderRequest.Items req) PrimFloat.zero
            (fun totalAmount item =>
               price <- round_trip env (select_price (OrderItemRequest.ProductID item)) ;;
               ret (PrimFloat.add totalAmount
                      (PrimFloat.mul price (float64_of_int (OrderItemRequest.Qty item))))) ;;
        (* Insert order *)
        now <- time_Now env ;;
        tx_Exec env (InsertOrder
          (OrderRow.mk orderID userID totalAmount "pending" now now)) ;;;
        (* Insert order items *)
        for_range (CreateOrderRequest.Items req) tt
          (fun _ item =>
             price <- round_trip env (select_price (OrderItemRequest.ProductID item)) ;;
             itemID <- uuid_New env ;;
             tx_Exec env (InsertOrderItem
               (OrderItemRow.mk itemID orderID (OrderItemRequest.ProductID item)
                  (OrderItemRequest.Qty item) price now))) ;;;
        tx_Commit env ;;;
        ret (CreateOrderResponse.mk orderID totalAmount)) s
    end.

(* ================================================================= *)
(** ** OrderService.GetUserOrders and OrderService.getOrderItems *)

(** [ORDER BY key DESC].  The store is free to return rows of equal key in
    any order; the model keeps them in table order (a stable insertion
    sort). *)
Fixpoint insert_desc {A : Type} (key : A -> Z) (x : A) (l : list A) : list A :=
  match l with
  | [] => [x]
  | y :: l' => if key y <=? key x then x :: l else y :: insert_desc key x l'
  end.

Definition order_by_desc {A : Type} (key : A -> Z) (l : list A) : list A :=
  fold_right (insert_desc key) [] l.

(** [SELECT o.id, o.user_id, o.total_amount, o.status, o.created_at,
    o.updated_at FROM orders o WHERE o.user_id = $1
    ORDER BY o.created_at DESC]. *)
Definition select_orders (userID : UUID) (st : Store) : list OrderRow.t :=
  order_by_desc OrderRow.created_at
    (filter (fun o => N.eqb (OrderRow.user_id o) userID) (orders st)).

(** [SELECT oi.id, oi.order_id, oi.product_id, oi.quantity, oi.price,
    oi.created_at, p.title, p.category, p.image, p.description
    FROM order_items oi JOIN products p ON oi.product_id = p.id
    WHERE oi.order_id = $1]: every pair of an item of the order and a
    product row with the item's product id.  The statement has no
    [ORDER BY], so the order of the rows is the store's choice; the model
    returns them in table order, and the theorems about the items of an
    order speak of membership and permutations, not of positions (the
    examples, which run the model, show table order). *)
Definition select_order_items (orderID : UUID) (st : Store)
  : list (OrderItemRow.t * Product.t) :=
  flat_map
    (fun oi =>
       map (fun p => (oi, p))
         (filter (fun p => N.eqb (OrderItemRow.product_id oi) (Product.ID p)) (products st)))
    (filter (fun oi => N.eqb (OrderItemRow.order_id oi) orderID) (order_items st)).

(** The body of the [rows.Next()] loop of [getOrderItems]: scan the joined
    row, then [product.ID = item.ProductID], [product.Price = item.Price],
    [item.Product = &product]. *)
Definition scan_order_item (row : OrderItemRow.t * Product.t) : OrderItem.t :=
  let (oi, p) := row in
  let product :=
    Product.mk (OrderItemRow.product_id oi) (Product.Title p) (OrderItemRow.price oi)
      (Product.Category p) (Product.Image p) (Product.Description p)
      (Product.StockQuantity Product.zero) (Product.CreatedAt Product.zero)
      (Product.UpdatedAt Product.zero) in
  OrderItem.mk (OrderItemRow.id oi) (OrderItemRow.order_id oi) (OrderItemRow.product_id oi)
    (OrderItemRow.quantity oi) (OrderItemRow.price oi) (Some product)
    (OrderItemRow.created_at oi).

Definition getOrderItems (env : Env) (orderID : UUID) : M (list OrderItem.t) :=
  rows <- round_trip env (fun st => inr (select_order_items orderID st)) ;;
  for_range rows [] (fun items row => ret (items ++ [scan_order_item row])).

Definition GetUserOrders (env : Env) (userID : UUID) : M (list Order.t) :=
  rows <- round_trip env (fun st => inr (select_orders userID st)) ;;
  for_range rows []
    (fun orders row =>
       (* Fetch order items *)
       items <- getOrderItems env (OrderRow.id row) ;;
       ret (orders ++
              [Order.mk (OrderRow.id row) (OrderRow.user_id row) (OrderRow.total_amount row)
                 (OrderRow.status row) items (OrderRow.created_at row)
                 (OrderRow.updated_at row)])).

(* ================================================================= *)
(** ** PostgreSQL's LIKE and ILIKE *)

Definition chars (s : string) : list ascii := list_ascii_of_string s.

(** [LIKE] with the default escape character: [%] matches any run of
    characters, [_] exactly one, a backslash makes the next pattern character
    literal.  A pattern that ends in a lone backslash is an error in
    PostgreSQL; it matches nothing here, and no pattern of [GetProducts] ends
    that way since each ends in the [%] the code appends. *)
Fixpoint like (pat : list ascii) (txt : list ascii) {struct pat} : bool :=
  match pat with
  | [] => match txt with [] => true | _ :: _ => false end
  | p :: pat' =>
      if Ascii.eqb p "%" then
        (fix any (t : list ascii) : bool :=
           like pat' t || match t with [] => false | _ :: t' => any t' end) txt
      else if Ascii.eqb p "_" then
        match txt with [] => false | _ :: txt' => like pat' txt' end
      else if Ascii.eqb p "\" then
        match pat', txt with
        | c :: pat'', c' :: txt' => Ascii.eqb c c' && like pat'' txt'
        | _, _ => false
        end
      else
        match txt with
        | c' :: txt' => Ascii.eqb p c' && like pat' txt'
        | [] => false
        end
  end.

(** Case folding, for the letters A to Z. *)
Definition lower_ascii (c : ascii) : ascii :=
  let n := nat_of_ascii c in
  if (Nat.leb 65 n && Nat.leb n 90)%bool then ascii_of_nat (n + 32) else c.

Definition lower (s : list ascii) : list ascii := map lower_ascii s.

(** [txt ILIKE pat]: [LIKE] on the case-folded pattern and text. *)
Definition ilike (txt pat : string) : bool :=
  like (lower (chars pat)) (lower (chars txt)).

(* ================================================================= *)
(** ** ProductService.GetProducts and ProductService.GetProduct *)

(** The clauses [GetProducts] can put in its [WHERE], each with its argument:
    ["(title ILIKE $n OR description ILIKE $n)"] and ["category = $n"]. *)
Inductive Clause : Type :=
| TitleOrDescriptionILike (arg : string)
| CategoryEq (arg : string).

Definition clause_holds (p : Product.t) (c : Clause) : bool :=
  match c with
  | TitleOrDescriptionILike arg => ilike (Product.Title p) arg || ilike (Product.Description p) arg
  | CategoryEq arg => String.eqb (Product.Category p) arg
  end.

(** The statement [GetProducts] assembles: the clauses joined by [AND], then
    [ORDER BY created_at DESC], then [LIMIT] and [OFFSET] when present. *)
Record ProductQuery : Type := mkProductQuery {
  whereClauses : list Clause;
  limit : option Z;
  offset : option Z
}.

Definition select_products (q : ProductQuery) (st : Store) : list Product.t :=
  let matching := filter (fun p => forallb (clause_holds p) (whereClauses q)) (products st) in
  let sorted := order_by_desc Product.CreatedAt matching in
  let skipped := match offset q with Some n => skipn (Z.to_nat n) sorted | None => sorted end in
  match limit q with Some n => firstn (Z.to_nat n) skipped | None => skipped end.

Definition build_query (filter : ProductFilter.t) : ProductQuery :=
  let whereClauses := [] in
  let whereClauses :=
    if negb (String.eqb (ProductFilter.Query filter) "") then
      whereClauses ++
        [TitleOrDescriptionILike
           (String.append "%" (String.append (ProductFilter.Query filter) "%"))]
    else whereClauses in
  let whereClauses :=
    if negb (String.eqb (ProductFilter.Category filter) "") then
      whereClauses ++ [CategoryEq (ProductFilter.Category filter)]
    else whereClauses in
  mkProductQuery whereClauses
    (if ProductFilter.Limit filter >? 0 then Some (ProductFilter.Limit filter) else None)
    (if ProductFilter.Offset filter >? 0 then Some (ProductFilter.Offset filter) else None).

Definition GetProducts (env : Env) (filter : ProductFilter.t) : M (list Product.t) :=
  rows <- round_trip env (fun st => inr (select_products (build_query filter) st)) ;;
  for_range rows [] (fun products product => ret (products ++ [product])).

(** [SELECT id, title, price, category, image, description, stock_quantity,
    created_at, updated_at FROM products WHERE id = $1]. *)
Definition select_product (id : UUID) (st : Store) : error + Product.t :=
  match find (fun p => N.eqb (Product.ID p) id) (products st) with
  | Some p => inr p
  | None => inl ErrNoRows
  end.

Definition GetProduct (env : Env) (id : UUID) : M Product.t :=
  fun s =>
    match round_trip env (select_product id) s with
    | (inl _, s') => (inl (ErrNew "product not found"), s')
    | (inr product, s') => (inr product, s')
    end.

(** [ProductHandler.GetProduct] once the path parameter has been parsed
    ([id = None] when [uuid.Parse] fails): the HTTP status it answers with. *)
Definition ProductHandler_GetProduct (env : Env) (id : option UUID) (s : Session) : Z :=
  match id with
  | None => 400
  | Some id =>
      match fst (GetProduct env id s) with
      | inl (ErrNew msg) => if String.eqb msg "product not found" then 404 else 500
      | inl _ => 500
      | inr _ => 200
      end
  end.

(* ================================================================= *)
(** ** Vocabulary of the specification *)

(** The product row an identifier denotes. *)
Definition lookup_product (st : Store) (id : UUID) : option Product.t :=
  find (fun p => N.eqb (Product.ID p) id) (products st).

(** The unit price of a product as the store has it. *)
Definition unit_price (st : Store) (id : UUID) : option float64 :=
  option_map Product.Price (lookup_product st id).

(** A valid item list: every product exists, every quantity is at least 1. *)
Definition valid_items (st : Store) (items : list OrderItemRequest.t) : Prop :=
  Forall (fun it => unit_price st (OrderItemRequest.ProductID it) <> None
                    /\ 1 <= OrderItemRequest.Qty it) items.

(** The sum of price times quantity over a list of lines, accumulated from
    zero in list order with binary64 operations. *)
Definition add_line (acc : float64) (line : float64 * Z) : float64 :=
  PrimFloat.add acc (PrimFloat.mul (fst line) (float64_of_int (snd line))).

Definition sum_lines (lines : list (float64 * Z)) : float64 :=
  fold_left add_line lines PrimFloat.zero.

(** The lines of a request, priced item by item. *)
Definition lines_of (prices : list float64) (items : list OrderItemRequest.t)
  : list (float64 * Z) :=
  combine prices (map OrderItemRequest.Qty items).

(** The [order_items] rows of an order: one per line, with identifiers drawn
    from [ids] starting at index [k]. *)
Fixpoint item_rows (ids : nat -> UUID) (k : nat) (orderID : UUID) (now : Time)
  (prices : list float64) (items : list OrderItemRequest.t) : list OrderItemRow.t :=
  match prices, items with
  | pr :: prices', it :: items' =>
      OrderItemRow.mk (ids k) orderID (OrderItemRequest.ProductID it)
        (OrderItemRequest.Qty it) pr now
      :: item_rows ids (S k) orderID now prices' items'
  | _, _ => []
  end.

(** A change of prices: every product row gets the price [f] gives it, all
    its other columns and all other tables stay as they are. *)
Definition with_price (f : Product.t -> float64) (p : Product.t) : Product.t :=
  Product.mk (Product.ID p) (Product.Title p) (f p) (Product.Category p) (Product.Image p)
    (Product.Description p) (Product.StockQuantity p) (Product.CreatedAt p)
    (Product.UpdatedAt p).

Definition reprice (f : Product.t -> float64) (st : Store) : Store :=
  mkStore (map (with_price f) (products st)) (orders st) (order_items st).

(** An environment in which nothing fails and nobody else writes, on a store
    whose money columns keep what they are handed. *)
Definition calm (ids : nat -> UUID) (now : Time) : Env :=
  mkEnv (fun _ => None) (fun _ st => st) ids now double_precision.

(** What [GetUserOrders] reads off a store when nothing interferes: the
    items of an order, an order with its items, the orders of a user. *)
Definition order_items_of (st : Store) (orderID : UUID) : list OrderItem.t :=
  map scan_order_item (select_order_items orderID st).

Definition order_of (st : Store) (row : OrderRow.t) : Order.t :=
  Order.mk (OrderRow.id row) (OrderRow.user_id row) (OrderRow.total_amount row)
    (OrderRow.status row) (order_items_of st (OrderRow.id row)) (OrderRow.created_at row)
    (OrderRow.updated_at row).

Definition user_orders (st : Store) (userID : UUID) : list Order.t :=
  map (order_of st) (select_orders userID st).

(** Most recent first. *)
Definition newest_first {A : Type} (key : A -> Time) (l : list A) : Prop :=
  StronglySorted (fun a b => key b <= key a) l.

(** Literal substring search, and its case-insensitive form. *)
Fixpoint prefixb (q s : list ascii) : bool :=
  match q, s with
  | [], _ => true
  | c :: q', c' :: s' => Ascii.eqb c c' && prefixb q' s'
  | _ :: _, [] => false
  end.

Fixpoint infixb (q s : list ascii) : bool :=
  prefixb q s || match s with [] => false | _ :: s' => infixb q s' end.

Definition contains_ci (q txt : string) : bool :=
  infixb (lower (chars q)) (lower (chars txt)).




(** The products a filter selects, most recent first, before paging. *)
Definition selected (filter : ProductFilter.t) (st : Store) : list Product.t :=
  order_by_desc Product.CreatedAt
    (List.filter (fun p => forallb (clause_holds p) (whereClauses (build_query filter)))
       (products st)).

(** Money as the specification wants it: amounts in hundredths, added and
    multiplied exactly; [float64_of_cents] is the binary64 number nearest to
    such an amount (what scanning the decimal text yields). *)
Definition decimal_total (lines : list (Z * Z)) : Z :=
  fold_left (fun acc line => acc + fst line * snd line) lines 0.

Definition float64_of_cents (c : Z) : float64 :=
  PrimFloat.div (float64_of_int c) (float64_of_int 100).

(** [UPDATE products SET price = $2 WHERE id = $1], committed by another
    session. *)
Definition set_price (id : UUID) (v : float64) (st : Store) : Store :=
  reprice (fun p => if N.eqb (Product.ID p) id then v else Product.Price p) st.

(** [UPDATE products SET title = $2 WHERE id = $1]. *)
Definition set_title (id : UUID) (title : string) (st : Store) : Store :=
  mkStore
    (map (fun p =>
            if N.eqb (Product.ID p) id then
              Product.mk (Product.ID p) title (Product.Price p) (Product.Category p)
                (Product.Image p) (Product.Description p) (Product.StockQuantity p)
                (Product.CreatedAt p) (Product.UpdatedAt p)
            else p)
       (products st))
    (orders st) (order_items st).

(** An environment in which another session commits [change] just before
    round trip [n] of the call, and nothing else happens. *)
Definition interleaved (n : nat) (change : Store -> Store) (ids : nat -> UUID) (now : Time)
  : Env :=
  mkEnv (fun _ => None) (fun k st => if Nat.eqb k n then change st else st) ids now
    double_precision.

(** An environment in which round trip [n] fails with [f]. *)
Definition failing (n : nat) (f : StoreFault) (ids : nat -> UUID) (now : Time) : Env :=
  mkEnv (fun k => if Nat.eqb k n then Some f else None) (fun _ st => st) ids now
    double_precision.

(** The product titles an order shows, item by item. *)
Definition titles_of (o : Order.t) : list (option string) :=
  map (fun i => option_map Product.Title (OrderItem.Product i)) (Order.Items o).

(** The value a call returned, if it succeeded. *)
Definition returned {A : Type} (r : (error + A) * Session) : option A :=
  match fst r with
  | inr a => Some a
  | inl _ => None
  end.

(** A session on other committed data. *)
Definition on_store (st : Store) (s : Session) : Session :=
  mkSession st (trips s) (minted s) (tx s).

(** ** Sample data *)

Definition salmon_treats : Product.t :=
  Product.mk 1%N "Salmon Treats" 10%float "food" "salmon.png" "Crunchy snacks" 40 100 100.

Definition feather_wand : Product.t :=
  Product.mk 2%N "Feather Wand" 5%float "toys" "wand.png" "Interactive teaser" 15 200 200.

Definition catalog : Store := mkStore [salmon_treats; feather_wand] [] [].

Definition sample_ids (n : nat) : UUID := N.of_nat (1000 + n).

Definition alice : UUID := 7%N.

(** The session after alice bought two Salmon Treats and one Feather Wand. *)
Definition after_purchase : Session :=
  snd (CreateOrder (calm sample_ids 500) alice
         (CreateOrderRequest.mk [OrderItemRequest.mk 1%N 2; OrderItemRequest.mk 2%N 1])
         (connect catalog)).

(* ================================================================= *)
(** ** Further vocabulary *)

(** A change of stock levels: every product row gets the stock [f] gives
    it, everything else stays. *)
Definition restock (f : Product.t -> Z) (st : Store) : Store :=
  mkStore
    (map (fun p =>
            Product.mk (Product.ID p) (Product.Title p) (Product.Price p)
              (Product.Category p) (Product.Image p) (Product.Description p) (f p)
              (Product.CreatedAt p) (Product.UpdatedAt p))
       (products st))
    (orders st) (order_items st).

(** What an order shows of each of its lines: product, quantity, price. *)
Definition lines_shown (o : Order.t) : list (UUID * Z * float64) :=
  map (fun i => (OrderItem.ProductID i, OrderItem.Quantity i, OrderItem.Price i))
    (Order.Items o).

(** What a request asks for, line by line, at given prices. *)
Definition lines_asked (items : list OrderItemRequest.t) (prices : list float64)
  : list (UUID * Z * float64) :=
  map (fun l => (OrderItemRequest.ProductID (fst l), OrderItemRequest.Qty (fst l), snd l))
    (combine items prices).

(* ================================================================= *)
(** ** The web client: cart and session stores, checkout *)

(** [store/cart.ts], [store/auth.ts] and the handlers of the cart page.  A
    JavaScript [number] is a binary64 float; identifiers are strings,
    compared with [===]. *)
Module Cart.

(** [interface CartItem]. *)
Module CartItem.
Record t : Type := mk {
  id : string;
  title : string;
  price : float64;
  quantity : float64;
  image : string
}.
End CartItem.

(** [Omit<CartItem, 'quantity'>], the argument of [addItem]. *)
Module CartProduct.
Record t : Type := mk {
  id : string;
  title : string;
  price : float64;
  image : string
}.
End CartProduct.

(** The data of [CartStore]. *)
Record State : Type := mkState {
  items : list CartItem.t;
  total : float64
}.

(** The state the store is created with. *)
Definition initial : State := mkState [] PrimFloat.zero.

Definition addItem (product : CartProduct.t) (state : State) : State :=
  let existingItem :=
    find (fun item => String.eqb (CartItem.id item) (CartProduct.id product)) (items state) in
  match existingItem with
  | Some _ =>
      mkState
        (map (fun item =>
                if String.eqb (CartItem.id item) (CartProduct.id product)
                then CartItem.mk (CartItem.id item) (CartItem.title item) (CartItem.price item)
                       (PrimFloat.add (CartItem.quantity item) PrimFloat.one)
                       (CartItem.image item)
                else item)
           (items state))
        (total state)
  | None =>
      mkState
        (items state ++
           [CartItem.mk (CartProduct.id product) (CartProduct.title product)
              (CartProduct.price product) PrimFloat.one (CartProduct.image product)])
        (total state)
  end.

Definition removeItem (id : string) (state : State) : State :=
  mkState (List.filter (fun item => negb (String.eqb (CartItem.id item) id)) (items state))
    (total state).

Definition updateQuantity (id : string) (quantity : float64) (state : State) : State :=
  if PrimFloat.leb quantity PrimFloat.zero then
    mkState (List.filter (fun item => negb (String.eqb (CartItem.id item) id)) (items state))
      (total state)
  else
    mkState
      (map (fun item =>
              if String.eqb (CartItem.id item) id
              then CartItem.mk (CartItem.id item) (CartItem.title item) (CartItem.price item)
                     quantity (CartItem.image item)
              else item)
         (items state))
      (total state).

Definition clearCart (state : State) : State := mkState [] PrimFloat.zero.

(** [items.reduce((total, item) => total + item.price * item.quantity, 0)]. *)
Definition getTotal (state : State) : float64 :=
  fold_left
    (fun total item =>
       PrimFloat.add total (PrimFloat.mul (CartItem.price item) (CartItem.quantity item)))
    (items state) PrimFloat.zero.

(** The calls a page can make on the store, and a run of them. *)
Inductive Action : Type :=
| AddItem (product : CartProduct.t)
| RemoveItem (id : string)
| UpdateQuantity (id : string) (quantity : float64)
| ClearCart.

Definition step (state : State) (a : Action) : State :=
  match a with
  | AddItem product => addItem product state
  | RemoveItem id => removeItem id state
  | UpdateQuantity id quantity => updateQuantity id quantity state
  | ClearCart => clearCart state
  end.

Definition run (actions : list Action) : State := fold_left step actions initial.

(** [handleQuantityChange] of the cart page, as the store call it makes. *)
Definition handleQuantityChange (id : string) (newQuantity : float64) (state : State)
  : State :=
  if PrimFloat.ltb newQuantity PrimFloat.one then removeItem id state
  else updateQuantity id newQuantity state.

(** [interface User] and the data of [AuthState]. *)
Record User : Type := mkUser {
  user_id : string;
  email : string;
  created_at : string
}.

Record AuthState : Type := mkAuth {
  user : option User;
  token : option string;
  isAuthenticated : bool
}.

Definition auth_initial : AuthState := mkAuth None None false.

Definition login (tok : string) (u : User) (state : AuthState) : AuthState :=
  mkAuth (Some u) (Some tok) true.

Definition logout (state : AuthState) : AuthState := mkAuth None None false.

(** JavaScript truthiness of [user] and of [token]: [null] and the empty
    string are falsy. *)
Definition truthy_user (u : option User) : bool :=
  match u with Some _ => true | None => false end.

Definition truthy_string (t : option string) : bool :=
  match t with Some t => negb (String.eqb t "") | None => false end.

(** What [handleCheckout] does before it waits for the server: it sends the
    user to log in, or says that the cart is empty, or posts an order made
    of one [{productId, qty}] per cart line with the token. *)
Inductive Checkout : Type :=
| PleaseLogin
| CartIsEmpty
| PostOrder (orderData : list (string * float64)) (token : string).

Definition handleCheckout (auth : AuthState) (state : State) : Checkout :=
  if negb (truthy_user (user auth)) || negb (truthy_string (token auth)) then PleaseLogin
  else if Nat.eqb (List.length (items state)) 0 then CartIsEmpty
  else
    match token auth with
    | Some tok =>
        PostOrder (map (fun item => (CartItem.id item, CartItem.quantity item)) (items state))
          tok
    | None => PleaseLogin
    end.

End Cart.

(** The product identifiers of the lines of a cart. *)
Definition cart_ids (state : Cart.State) : list string :=
  map Cart.CartItem.id (Cart.items state).

(** The calls a page can make on the session store, and a run of them. *)
Inductive AuthAction : Type :=
| Login (tok : string) (u : Cart.User)
| Logout.

Definition auth_step (state : Cart.AuthState) (a : AuthAction) : Cart.AuthState :=
  match a with
  | Login tok u => Cart.login tok u state
  | Logout => Cart.logout state
  end.

Definition auth_run (actions : list AuthAction) : Cart.AuthState :=
  fold_left auth_step actions Cart.auth_initial.

(* ================================================================= *)
(** ** AuthService: registration and login *)

(** [AuthService.RegisterUser] and [AuthService.LoginUser] talk to table
    [users] only, outside any transaction.  [bcrypt] and the JWT signature
    are libraries: they are parameters of the world the service runs in. *)
Module Auth.

(** [domain.User]; its declaration is not among the sources, these are the
    fields the service reads and writes. *)
Record User : Type := mkUser {
  ID : UUID;
  Email : string;
  PasswordHash : string;
  CreatedAt : Time;
  UpdatedAt : Time
}.

(** [domain.CreateUserRequest] and [domain.LoginRequest]: an email and a
    password. *)
Record Credentials : Type := mkCredentials {
  req_Email : string;
  req_Password : string
}.

(** The claims [LoginUser] signs: [user_id], [email], [exp]. *)
Record Claims : Type := mkClaims {
  user_id : UUID;
  email : string;
  exp : Z
}.

(** [domain.AuthResponse]. *)
Record AuthResponse : Type := mkAuthResponse {
  Token : string;
  AuthUser : User
}.

(** What the service does not control.  Times are Unix seconds. *)
Record World : Type := mkWorld {
  fault : nat -> option StoreFault;            (* outcome of the n-th round trip *)
  others : nat -> list User -> list User;      (* committed by others before it *)
  uuids : nat -> UUID;                         (* k-th uuid.New() *)
  now : nat -> Time;                           (* k-th time.Now() *)
  GenerateFromPassword : nat -> string -> error + string;  (* k-th call, own salt *)
  CompareHashAndPassword : string -> string -> bool;       (* true: nil error *)
  SignedString : string -> Claims -> error + string        (* HS256 with the secret *)
}.

Record Session : Type := mkSession {
  users : list User;
  trips : nat;
  minted : nat;
  ticks : nat;
  salted : nat
}.

Definition connect (us : list User) : Session := mkSession us 0 0 0 0.

(** One statement on [s.db], committed at once. *)
Definition trip {A : Type} (w : World) (stmt : list User -> (error + A) * list User)
  (s : Session) : (error + A) * Session :=
  let us := others w (trips s) (users s) in
  match fault w (trips s) with
  | Some f => (inl (ErrStore f), mkSession us (S (trips s)) (minted s) (ticks s) (salted s))
  | None =>
      let (r, us') := stmt us in
      (r, mkSession us' (S (trips s)) (minted s) (ticks s) (salted s))
  end.

(** [SELECT EXISTS(SELECT 1 FROM users WHERE email = $1)]. *)
Definition select_exists (email : string) (us : list User) : (error + bool) * list User :=
  (inr (existsb (fun u => String.eqb (Email u) email) us), us).

(** [SELECT id, email, password_hash, created_at, updated_at FROM users
    WHERE email = $1], scanned into a [User]. *)
Definition select_user (email : string) (us : list User) : (error + User) * list User :=
  (match find (fun u => String.eqb (Email u) email) us with
   | Some u => inr u
   | None => inl ErrNoRows
   end, us).

(** [INSERT INTO users (id, email, password_hash, created_at, updated_at)]. *)
Definition insert_user (u : User) (us : list User) : (error + unit) * list User :=
  (inr tt, us ++ [u]).

Definition RegisterUser (w : World) (req : Credentials) (s : Session)
  : (error + User) * Session :=
  (* Check if user already exists *)
  match trip w (select_exists (req_Email req)) s with
  | (inl err, s1) => (inl err, s1)
  | (inr exists_, s1) =>
      if exists_ then (inl (ErrNew "user already exists"), s1)
      else
        (* Hash password *)
        let s2 := mkSession (users s1) (trips s1) (minted s1) (ticks s1) (S (salted s1)) in
        match GenerateFromPassword w (salted s1) (req_Password req) with
        | inl err => (inl err, s2)
        | inr hashedPassword =>
            (* Create user *)
            let user := mkUser (uuids w (minted s2)) (req_Email req) hashedPassword
                          (now w (ticks s2)) (now w (S (ticks s2))) in
            let s3 := mkSession (users s2) (trips s2) (S (minted s2)) (S (S (ticks s2)))
                        (salted s2) in
            match trip w (insert_user user) s3 with
            | (inl err, s4) => (inl err, s4)
            | (inr _, s4) => (inr user, s4)
            end
        end
  end.

Definition LoginUser (w : World) (jwtSecret : string) (req : Credentials) (s : Session)
  : (error + AuthResponse) * Session :=
  match trip w (select_user (req_Email req)) s with
  | (inl _, s1) => (inl (ErrNew "invalid credentials"), s1)
  | (inr user, s1) =>
      (* Verify password *)
      if negb (CompareHashAndPassword w (PasswordHash user) (req_Password req))
      then (inl (ErrNew "invalid credentials"), s1)
      else
        (* Generate JWT token: 7 days *)
        let claims := mkClaims (ID user) (Email user) (now w (ticks s1) + 3600 * 24 * 7) in
        let s2 := mkSession (users s1) (trips s1) (minted s1) (S (ticks s1)) (salted s1) in
        match SignedString w jwtSecret claims with
        | inl err => (inl err, s2)
        | inr tokenString => (inr (mkAuthResponse tokenString user), s2)
        end
  end.

(** The HTTP status of [AuthHandler.Register] and [AuthHandler.Login] once
    the body has been bound ([None] when [ShouldBindJSON] fails). *)
Definition Register_status (w : World) (req : option Credentials) (s : Session) : Z :=
  match req with
  | None => 400
  | Some req =>
      match fst (RegisterUser w req s) with
      | inl (ErrNew msg) => if String.eqb msg "user already exists" then 409 else 500
      | inl _ => 500
      | inr _ => 201
      end
  end.

Definition Login_status (w : World) (jwtSecret : string) (req : option Credentials)
  (s : Session) : Z :=
  match req with
  | None => 400
  | Some req =>
      match fst (LoginUser w jwtSecret req s) with
      | inl (ErrNew msg) => if String.eqb msg "invalid credentials" then 401 else 500
      | inl _ => 500
      | inr _ => 200
      end
  end.

(** No round trip fails; nobody else writes. *)
Definition reliable (w : World) : Prop := forall n, fault w n = None.
Definition quiet (w : World) : Prop := forall n us, others w n us = us.

(** A world for examples: nothing fails, nobody else writes, and stand-ins
    for the cryptography (a hash that only tags the password, a token that
    only joins secret and email). *)
Definition toy : World :=
  mkWorld (fun _ => None) (fun _ us => us) (fun n => N.of_nat (500 + n))
    (fun n => 1000 + Z.of_nat n)
    (fun _ pw => inr (String.append "hash:" pw))
    (fun h pw => String.eqb h (String.append "hash:" pw))
    (fun secret c => inr (String.append secret (String.append "." (email c)))).

End Auth.

(* ================================================================= *)
(** ** db.SeedProducts *)

Module Seed.

(** [db.Product], the product structure for seeding. *)
Record Product : Type := mk {
  Title : string;
  Price : float64;
  Category : string;
  Image : string;
  Description : string;
  StockQuantity : Z
}.

(** What the process finds around it: the files it can read, the outcome of
    [json.Unmarshal] into a [[]Product], and the columns the [INSERT] leaves
    to the store ([id], [created_at], [updated_at]) for the statement sent
    as the n-th round trip. *)
Record Host : Type := mkHost {
  ReadFile : string -> error + string;
  Unmarshal : string -> error + list Product;
  defaults : nat -> UUID * Time * Time
}.

(** The errors [SeedProducts] returns, each wrapping its cause with [%w]. *)
Inductive Failure : Type :=
| CheckExisting (err : error)                 (* failed to check existing products *)
| ReadSeedFile (err : error)                  (* failed to read seed file from any location *)
| UnmarshalSeed (err : error)                 (* failed to unmarshal seed data *)
| InsertProduct (title : string) (err : error).   (* failed to insert product <title> *)

Definition seedPaths : list string :=
  ["/app/seed/seed_products.json";
   "./seed/seed_products.json";
   "../../infra/seed/seed_products.json"].

(** [for _, path := range seedPaths { seedData, err = ioutil.ReadFile(path);
    if err == nil { break } }], from the current [seedData] and [err]. *)
Fixpoint read_seed (host : Host) (paths : list string) (seedData : string)
  (err : option error) : string * option error :=
  match paths with
  | [] => (seedData, err)
  | path :: paths' =>
      match ReadFile host path with
      | inr data => (data, None)
      | inl e => read_seed host paths' "" (Some e)
      end
  end.

(** [SELECT COUNT( * ) FROM products]. *)
Definition select_count (st : Store) : error + Z :=
  inr (Z.of_nat (List.length (products st))).

(** The row the store makes of an inserted product. *)
Definition row (col : Column) (host : Host) (n : nat) (product : Product) : Product.t :=
  let '(id, created_at, updated_at) := defaults host n in
  Product.mk id (Title product) (col (Price product)) (Category product) (Image product)
    (Description product) (StockQuantity product) created_at updated_at.

(** [db.Exec("INSERT INTO products (title, price, category, image,
    description, stock_quantity) VALUES ...")], outside any transaction: the
    row is committed when the statement returns. *)
Definition db_Exec (env : Env) (host : Host) (product : Product) : M unit :=
  fun s =>
    let st := concurrent env (trips s) (committed s) in
    match fault env (trips s) with
    | Some f => (inl (ErrStore f), mkSession st (S (trips s)) (minted s) (tx s))
    | None =>
        (inr tt,
         mkSession
           (mkStore (products st ++ [row (numeric env) host (trips s) product]) (orders st)
              (order_items st))
           (S (trips s)) (minted s) (tx s))
    end.

(** [for _, product := range products { db.Exec(...) }], returning at the
    first error. *)
Fixpoint insert_all (env : Env) (host : Host) (products : list Product) (s : Session)
  : option Failure * Session :=
  match products with
  | [] => (None, s)
  | product :: products' =>
      match db_Exec env host product s with
      | (inl err, s') => (Some (InsertProduct (Title product) err), s')
      | (inr _, s') => insert_all env host products' s'
      end
  end.

(** The result is the returned [error]: [None] for [nil]. *)
Definition SeedProducts (env : Env) (host : Host) (s : Session) : option Failure * Session :=
  (* Check if products already exist *)
  match round_trip env select_count s with
  | (inl err, s1) => (Some (CheckExisting err), s1)
  | (inr count, s1) =>
      if count >? 0 then (None, s1)
      else
        match read_seed host seedPaths "" None with
        | (_, Some err) => (Some (ReadSeedFile err), s1)
        | (seedData, None) =>
            match Unmarshal host seedData with
            | inl err => (Some (UnmarshalSeed err), s1)
            | inr products => insert_all env host products s1
            end
        end
  end.

(** The rows of the products sent from round trip [n] on. *)
Fixpoint rows (col : Column) (host : Host) (n : nat) (products : list Product)
  : list Product.t :=
  match products with
  | [] => []
  | product :: products' => row col host n product :: rows col host (S n) products'
  end.

(** A host for examples: one seed file, at the second path, whose content
    stands for two products. *)
Definition demo : Host :=
  mkHost
    (fun path => if String.eqb path "./seed/seed_products.json" then inr "[...]"
                 else inl (ErrNew "no such file or directory"))
    (fun data => if String.eqb data "[...]"
                 then inr [mk "Salmon Treats" 10%float "food" "s.png" "Tasty" 5;
                           mk "Feather Wand" 5%float "toys" "w.png" "Fun" 3]
                 else inl (ErrNew "unexpected end of JSON input"))
    (fun n => (N.of_nat (900 + n), 100, 100)).

End Seed.

(* ================================================================= *)
(** ** IEEE-754 arithmetic, and stores of other column types *)

(** The sum of the specification in IEEE-754 binary64 arithmetic, as the
    standard library specifies it: the conversion of an integer, and the sum
    of price times quantity accumulated from zero in list order, each product
    and each partial sum rounded to nearest, ties to even. *)
Definition ieee_of_int (n : Z) : spec_float := binary_normalize prec emax n 0 false.

Definition ieee_add_line (acc : spec_float) (line : float64 * Z) : spec_float :=
  SF64add acc (SF64mul (Prim2SF (fst line)) (ieee_of_int (snd line))).

Definition ieee_sum (lines : list (float64 * Z)) : spec_float :=
  fold_left ieee_add_line lines (S754_zero false).

(** A quantity that fits Go's [int]. *)
Definition is_int (n : Z) : Prop := - 2 ^ 63 <= n < 2 ^ 63.

(** The same environment on a store whose money columns are of type [col]. *)
Definition with_column (col : Column) (env : Env) : Env :=
  mkEnv (fault env) (concurrent env) (uuids env) (clock env) col.

(** The calm sample environment on a store that keeps two decimals. *)
Definition decimal_store : Env := with_column two_decimals (calm sample_ids 500).

(** The prices of the catalog are values of the money column: handed back to
    it, they are kept as they are. *)
Definition catalog_prices_kept (env : Env) (st : Store) : Prop :=
  Forall (fun p => numeric env (Product.Price p) = Product.Price p) (products st).

(* ================================================================= *)
(** * Properties *)

(** ** Round trips *)

Lemma round_trip_calm (env : Env) (A : Type) (stmt : Store -> error + A) (s : Session) :
  reliable env -> quiet env ->
  round_trip env stmt s
  = (stmt (committed s), mkSession (committed s) (S (trips s)) (minted s) (tx s)).
Proof.
  intros Hr Hq. unfold round_trip. now rewrite Hr, Hq.
Qed.

Lemma round_trip_quiet (env : Env) (A : Type) (stmt : Store -> error + A) (s : Session) :
  quiet env ->
  round_trip env stmt s
  = (match fault env (trips s) with
     | Some f => inl (ErrStore f)
     | None => stmt (committed s)
     end,
     mkSession (committed s) (S (trips s)) (minted s) (tx s)).
Proof.
  intro Hq. unfold round_trip. rewrite Hq. now destruct (fault env (trips s)).
Qed.

(** One statement of a service function, in an environment known to be
    calm, or only quiet. *)
Ltac calm_trip :=
  rewrite round_trip_calm by assumption; cbn [committed trips minted tx].

Ltac quiet_trip :=
  rewrite round_trip_quiet by assumption; cbn [committed trips minted tx].

Lemma calm_reliable (ids : nat -> UUID) (now : Time) : reliable (calm ids now).
Proof. intro n. reflexivity. Qed.

Lemma calm_quiet (ids : nat -> UUID) (now : Time) : quiet (calm ids now).
Proof. intros n st. reflexivity. Qed.

Lemma select_price_found (st : Store) (pid : UUID) (pr : float64) :
  unit_price st pid = Some pr -> select_price pid st = inr pr.
Proof.
  unfold unit_price, lookup_product, select_price.
  destruct (find _ (products st)); simpl; congruence.
Qed.

Lemma select_price_missing (st : Store) (pid : UUID) :
  unit_price st pid = None -> select_price pid st = inl ErrNoRows.
Proof.
  unfold unit_price, lookup_product, select_price.
  destruct (find _ (products st)); simpl; congruence.
Qed.

(** Every valid item list can be priced, in one way only. *)
Lemma valid_items_priced (st : Store) (items : list OrderItemRequest.t) :
  valid_items st items ->
  exists prices,
    Forall2 (fun it pr => unit_price st (OrderItemRequest.ProductID it) = Some pr) items prices.
Proof.
  induction 1 as [|it items [Hp _] _ [prices IH]].
  - exists []. constructor.
  - destruct (unit_price st (OrderItemRequest.ProductID it)) as [pr|] eqn:E; [|congruence].
    exists (pr :: prices). now constructor.
Qed.

(** ** The two passes of [CreateOrder] over the items *)

Section Passes.
Variable env : Env.
Hypothesis Hreliable : reliable env.
Hypothesis Hquiet : quiet env.

(** The first loop: one price query per item, the total accumulated. *)
Lemma price_pass (st : Store) (items : list OrderItemRequest.t) (prices : list float64) :
  Forall2 (fun it pr => unit_price st (OrderItemRequest.ProductID it) = Some pr) items prices ->
  forall (acc : float64) (t m : nat) (log : option (list Write)),
    for_range items acc
      (fun totalAmount item =>
         price <- round_trip env (select_price (OrderItemRequest.ProductID item)) ;;
         ret (PrimFloat.add totalAmount
                (PrimFloat.mul price (float64_of_int (OrderItemRequest.Qty item)))))
      (mkSession st t m log)
    = (inr (fold_left add_line (lines_of prices items) acc),
       mkSession st (List.length items + t) m log).
Proof.
  induction 1 as [|it pr items prices Hpr _ IH]; intros acc t m log.
  - reflexivity.
  - cbn [for_range]. unfold bind at 1. unfold bind at 1.
    calm_trip.
    rewrite (select_price_found _ _ _ Hpr). unfold ret at 1.
    rewrite IH. f_equal. f_equal. cbn [List.length]. lia.
Qed.

(** The first loop stops at the first identifier that denotes no product,
    with the error of the failed scan; nothing has been written. *)
Lemma price_pass_missing (st : Store) (items : list OrderItemRequest.t) :
  Exists (fun it => unit_price st (OrderItemRequest.ProductID it) = None) items ->
  forall (acc : float64) (t m : nat) (log : option (list Write)),
  exists t',
    for_range items acc
      (fun totalAmount item =>
         price <- round_trip env (select_price (OrderItemRequest.ProductID item)) ;;
         ret (PrimFloat.add totalAmount
                (PrimFloat.mul price (float64_of_int (OrderItemRequest.Qty item)))))
      (mkSession st t m log)
    = (inl ErrNoRows, mkSession st t' m log).
Proof.
  induction items as [|it items IH]; intros Hex acc t m log.
  - inversion Hex.
  - cbn [for_range]. unfold bind at 1. unfold bind at 1.
    calm_trip.
    destruct (unit_price st (OrderItemRequest.ProductID it)) as [pr|] eqn:E.
    + rewrite (select_price_found _ _ _ E). unfold ret at 1.
      apply IH. inversion Hex; subst; [congruence | assumption].
    + rewrite (select_price_missing _ _ E). now exists (S t).
Qed.

(** The second loop: per item one price query, one identifier, one insert. *)
Lemma item_pass (st : Store) (orderID : UUID) (now : Time)
  (items : list OrderItemRequest.t) (prices : list float64) :
  Forall2 (fun it pr => unit_price st (OrderItemRequest.ProductID it) = Some pr) items prices ->
  forall (t m : nat) (log : list Write),
    for_range items tt
      (fun _ item =>
         price <- round_trip env (select_price (OrderItemRequest.ProductID item)) ;;
         itemID <- uuid_New env ;;
         tx_Exec env (InsertOrderItem
           (OrderItemRow.mk itemID orderID (OrderItemRequest.ProductID item)
              (OrderItemRequest.Qty item) price now)))
      (mkSession st t m (Some log))
    = (inr tt,
       mkSession st (2 * List.length items + t) (List.length items + m)
         (Some (log ++ map InsertOrderItem
                        (item_rows (uuids env) m orderID now prices items)))).
Proof.
  induction 1 as [|it pr items prices Hpr _ IH]; intros t m log.
  - cbn. now rewrite app_nil_r.
  - cbn [for_range]. unfold bind at 1. unfold bind at 1.
    calm_trip.
    rewrite (select_price_found _ _ _ Hpr).
    unfold bind at 1. unfold uuid_New at 1. cbn [committed trips minted tx].
    unfold tx_Exec at 1. unfold bind at 1.
    calm_trip.
    rewrite IH. cbn [List.length item_rows map]. rewrite <- app_assoc. cbn [app].
    f_equal. f_equal; lia.
Qed.

End Passes.

(** ** What a successful [CreateOrder] does *)

Lemma commit_item_rows (col : Column) (rows : list OrderItemRow.t) (st : Store) :
  fold_left (apply_write col) (map InsertOrderItem rows) st
  = mkStore (products st) (orders st) (order_items st ++ map (order_item_row col) rows).
Proof.
  revert st. induction rows as [|r rows IH]; intro st; cbn [map fold_left].
  - rewrite app_nil_r. now destruct st.
  - rewrite IH. cbn. now rewrite <- app_assoc.
Qed.

(** The rows the store makes of the item rows handed to it carry what the
    column keeps of each price. *)
Lemma stored_item_rows (col : Column) (ids : nat -> UUID) (orderID : UUID) (now : Time)
  (prices : list float64) (items : list OrderItemRequest.t) (k : nat) :
  map (order_item_row col) (item_rows ids k orderID now prices items)
  = item_rows ids k orderID now (map col prices) items.
Proof.
  revert k items. induction prices as [|pr prices IH]; intros k [|it items]; cbn;
    try reflexivity.
  unfold order_item_row at 1. cbn. f_equal. apply IH.
Qed.

(** In a calm environment, on an item list that can be priced, [CreateOrder]
    commits one [orders] row and one [order_items] row per item and answers
    with the order identifier and the accumulated total. *)
Lemma CreateOrder_ok (env : Env) (userID : UUID) (req : CreateOrderRequest.t)
  (s : Session) (prices : list float64) :
  reliable env -> quiet env ->
  Forall2 (fun it pr => unit_price (committed s) (OrderItemRequest.ProductID it) = Some pr)
    (CreateOrderRequest.Items req) prices ->
  CreateOrder env userID req s
  = (inr (CreateOrderResponse.mk (uuids env (minted s))
            (sum_lines (lines_of prices (CreateOrderRequest.Items req)))),
     mkSession
       (mkStore (products (committed s))
          (orders (committed s) ++
             [OrderRow.mk (uuids env (minted s)) userID
                (numeric env (sum_lines (lines_of prices (CreateOrderRequest.Items req))))
                "pending" (clock env) (clock env)])
          (order_items (committed s) ++
             item_rows (uuids env) (S (minted s)) (uuids env (minted s)) (clock env)
               (map (numeric env) prices) (CreateOrderRequest.Items req)))
       (3 * List.length (CreateOrderRequest.Items req) + 3 + trips s)
       (S (List.length (CreateOrderRequest.Items req) + minted s))
       None).
Proof.
  intros Hr Hq Hprices. destruct s as [st t m log]. cbn [committed trips minted tx] in *.
  unfold CreateOrder, BeginTx. unfold bind at 1.
  calm_trip.
  unfold defer_Rollback. unfold bind at 1. unfold uuid_New at 1.
  cbn [committed trips minted tx].
  unfold bind at 1. rewrite (price_pass env Hr Hq st _ _ Hprices).
  unfold bind at 1. unfold time_Now, ret at 1.
  unfold bind at 1. unfold tx_Exec at 1. unfold bind at 1.
  calm_trip. cbn [app].
  unfold bind at 1. rewrite (item_pass env Hr Hq st _ _ _ _ Hprices).
  unfold bind at 1. unfold tx_Commit. unfold bind at 1.
  calm_trip. cbn [app fold_left].
  rewrite commit_item_rows, stored_item_rows. unfold ret, tx_Rollback. cbn.
  f_equal. f_equal; lia.
Qed.

Lemma item_rows_lines (ids : nat -> UUID) (orderID : UUID) (now : Time)
  (items : list OrderItemRequest.t) (prices : list float64)
  (P : OrderItemRequest.t -> float64 -> Prop) :
  Forall2 P items prices ->
  forall k : nat,
    map (fun r => (OrderItemRow.price r, OrderItemRow.quantity r))
      (item_rows ids k orderID now prices items)
    = lines_of prices items.
Proof.
  induction 1 as [|it pr items prices _ _ IH]; intro k; cbn; [reflexivity|].
  f_equal. apply IH.
Qed.

Lemma Forall2_kept (A : Type) (P : A -> float64 -> Prop) (col : Column)
  (items : list A) (prices : list float64) :
  Forall2 P items prices -> Forall2 (fun _ _ => True) items (map col prices).
Proof.
  induction 1; cbn; constructor; auto.
Qed.

Lemma item_rows_prices (ids : nat -> UUID) (orderID : UUID) (now : Time)
  (items : list OrderItemRequest.t) (prices : list float64)
  (P : OrderItemRequest.t -> float64 -> Prop) :
  Forall2 P items prices ->
  forall k : nat,
    map OrderItemRow.price (item_rows ids k orderID now prices items) = prices.
Proof.
  induction 1 as [|it pr items prices _ _ IH]; intro k; cbn; [reflexivity|].
  f_equal. apply IH.
Qed.

(** When no other session writes during the call, the second read of each
    price finds what the first read found: the item rows are handed the
    prices the total was computed from.  When the column keeps these prices
    as they are, the total returned is the sum of the committed lines. *)
Lemma CreateOrder_total_is_sum_of_items
  (env : Env) (userID : UUID) (req : CreateOrderRequest.t) (s : Session)
  (prices : list float64) :
  reliable env -> quiet env ->
  Forall2 (fun it pr => unit_price (committed s) (OrderItemRequest.ProductID it) = Some pr)
    (CreateOrderRequest.Items req) prices ->
  exists (resp : CreateOrderResponse.t) (rows : list OrderItemRow.t) (s' : Session),
    CreateOrder env userID req s = (inr resp, s')
    /\ order_items (committed s') = order_items (committed s) ++ rows
    /\ map OrderItemRow.price rows = map (numeric env) prices
    /\ (map (numeric env) prices = prices ->
        sum_lines (map (fun r => (OrderItemRow.price r, OrderItemRow.quantity r)) rows)
        = CreateOrderResponse.Total resp).
Proof.
  intros Hr Hq Hprices. eexists. eexists. eexists.
  split; [apply (CreateOrder_ok env userID req s prices Hr Hq Hprices)|].
  cbn [committed order_items CreateOrderResponse.Total]. split; [reflexivity|].
  split.
  - apply (item_rows_prices _ _ _ _ _ _ (Forall2_kept _ _ (numeric env) _ _ Hprices)).
  - intro Hkept. rewrite Hkept. now rewrite (item_rows_lines _ _ _ _ _ _ Hprices).
Qed.

(** ** Failures of [CreateOrder] are atomic *)

Section Failures.
Variable env : Env.
Hypothesis Hquiet : quiet env.

(** Whatever fails in the first loop, nothing is written, and the error of
    a missing row can only come from a missing product. *)
Lemma price_pass_any (st : Store) (items : list OrderItemRequest.t) :
  forall (acc : float64) (t m : nat) (log : option (list Write)),
  exists (r : error + float64) (t' : nat),
    for_range items acc
      (fun totalAmount item =>
         price <- round_trip env (select_price (OrderItemRequest.ProductID item)) ;;
         ret (PrimFloat.add totalAmount
                (PrimFloat.mul price (float64_of_int (OrderItemRequest.Qty item)))))
      (mkSession st t m log)
    = (r, mkSession st t' m log)
    /\ (r = inl ErrNoRows ->
        Exists (fun it => unit_price st (OrderItemRequest.ProductID it) = None) items).
Proof.
  induction items as [|it items IH]; intros acc t m log.
  - exists (inr acc), t. split; [reflexivity | discriminate].
  - cbn [for_range]. unfold bind at 1. unfold bind at 1.
    quiet_trip.
    destruct (fault env t) as [f|].
    + exists (inl (ErrStore f)), (S t). split; [reflexivity | discriminate].
    + destruct (unit_price st (OrderItemRequest.ProductID it)) as [pr|] eqn:E.
      * rewrite (select_price_found _ _ _ E). unfold ret at 1.
        destruct (IH (PrimFloat.add acc
                        (PrimFloat.mul pr (float64_of_int (OrderItemRequest.Qty it))))
                     (S t) m log) as (r & t' & Hrun & Hmiss).
        exists r, t'. split; [exact Hrun|]. intro Hr. apply Exists_cons_tl. now apply Hmiss.
      * rewrite (select_price_missing _ _ E). exists (inl ErrNoRows), (S t).
        split; [reflexivity|]. intros _. now apply Exists_cons_hd.
Qed.

(** The same for the second loop, whose inserts stay pending. *)
Lemma item_pass_any (st : Store) (orderID : UUID) (now : Time)
  (items : list OrderItemRequest.t) :
  forall (t m : nat) (log : list Write),
  exists (r : error + unit) (t' m' : nat) (log' : list Write),
    for_range items tt
      (fun _ item =>
         price <- round_trip env (select_price (OrderItemRequest.ProductID item)) ;;
         itemID <- uuid_New env ;;
         tx_Exec env (InsertOrderItem
           (OrderItemRow.mk itemID orderID (OrderItemRequest.ProductID item)
              (OrderItemRequest.Qty item) price now)))
      (mkSession st t m (Some log))
    = (r, mkSession st t' m' (Some log'))
    /\ (r = inl ErrNoRows ->
        Exists (fun it => unit_price st (OrderItemRequest.ProductID it) = None) items).
Proof.
  induction items as [|it items IH]; intros t m log.
  - exists (inr tt), t, m, log. split; [reflexivity | discriminate].
  - cbn [for_range]. unfold bind at 1. unfold bind at 1.
    quiet_trip.
    destruct (fault env t) as [f|].
    + exists (inl (ErrStore f)), (S t), m, log. split; [reflexivity | discriminate].
    + destruct (unit_price st (OrderItemRequest.ProductID it)) as [pr|] eqn:E.
      * rewrite (select_price_found _ _ _ E).
        unfold bind at 1. unfold uuid_New at 1. cbn [committed trips minted tx].
        unfold tx_Exec at 1. unfold bind at 1.
        quiet_trip.
        destruct (fault env (S t)) as [f|].
        -- exists (inl (ErrStore f)), (S (S t)), (S m), log.
           split; [reflexivity | discriminate].
        -- destruct (IH (S (S t)) (S m)
                       (log ++ [InsertOrderItem
                                  (OrderItemRow.mk (uuids env m) orderID
                                     (OrderItemRequest.ProductID it)
                                     (OrderItemRequest.Qty it) pr now)]))
             as (r & t' & m' & log' & Hrun & Hmiss).
           exists r, t', m', log'. split; [exact Hrun|].
           intro Hr. apply Exists_cons_tl. now apply Hmiss.
      * rewrite (select_price_missing _ _ E). exists (inl ErrNoRows), (S t), m, log.
        split; [reflexivity|]. intros _. now apply Exists_cons_hd.
Qed.

(** When [CreateOrder] fails, for whatever reason, the committed store is
    what it was; and it fails with [ErrNoRows] only if an item names a
    product that does not exist. *)
Lemma CreateOrder_failure_is_atomic
  (userID : UUID) (req : CreateOrderRequest.t) (s s' : Session) (e : error) :
  CreateOrder env userID req s = (inl e, s') ->
  committed s' = committed s
  /\ (e = ErrNoRows ->
      Exists (fun it => unit_price (committed s) (OrderItemRequest.ProductID it) = None)
        (CreateOrderRequest.Items req)).
Proof.
  destruct s as [st t m log]. cbn [committed].
  unfold CreateOrder, BeginTx. unfold bind at 1.
  quiet_trip.
  destruct (fault env t) as [f|].
  { intro H. inversion H; subst. split; [reflexivity | discriminate]. }
  unfold defer_Rollback. unfold bind at 1. unfold uuid_New at 1.
  cbn [committed trips minted tx]. unfold bind at 1.
  destruct (price_pass_any st (CreateOrderRequest.Items req) PrimFloat.zero (S t) (S m)
              (Some [])) as (r1 & t1 & Hrun1 & Hmiss1).
  unfold float64 in *. rewrite Hrun1. destruct r1 as [e1|total].
  { unfold tx_Rollback. cbn [committed trips minted tx]. rewrite Hquiet.
    intro H. inversion H; subst. split; [reflexivity|]. intros ->. now apply Hmiss1. }
  unfold bind at 1. unfold time_Now, ret at 1.
  unfold bind at 1. unfold tx_Exec at 1. unfold bind at 1.
  quiet_trip. cbn [app].
  destruct (fault env t1) as [f|].
  { unfold tx_Rollback. cbn [committed trips minted tx]. rewrite Hquiet.
    intro H. inversion H; subst. split; [reflexivity | discriminate]. }
  unfold bind at 1.
  destruct (item_pass_any st (uuids env m) (clock env) (CreateOrderRequest.Items req)
              (S t1) (S m)
              [InsertOrder (OrderRow.mk (uuids env m) userID total "pending"
                              (clock env) (clock env))])
    as (r2 & t2 & m2 & log2 & Hrun2 & Hmiss2).
  unfold float64 in *. rewrite Hrun2. destruct r2 as [e2|[]].
  { unfold tx_Rollback. cbn [committed trips minted tx]. rewrite Hquiet.
    intro H. inversion H; subst. split; [reflexivity|]. intros ->. now apply Hmiss2. }
  unfold bind at 1. unfold tx_Commit. unfold bind at 1.
  quiet_trip.
  destruct (fault env t2) as [f|].
  { unfold tx_Rollback. cbn [committed trips minted tx]. rewrite Hquiet.
    intro H. inversion H; subst. split; [reflexivity | discriminate]. }
  unfold ret. cbn. discriminate.
Qed.

End Failures.

(** ** Sorting *)

Lemma insert_desc_perm (A : Type) (key : A -> Z) (x : A) (l : list A) :
  Permutation (insert_desc key x l) (x :: l).
Proof.
  induction l as [|y l IH]; cbn; [reflexivity|].
  destruct (key y <=? key x); [reflexivity|].
  rewrite IH. apply perm_swap.
Qed.

Lemma order_by_desc_perm (A : Type) (key : A -> Z) (l : list A) :
  Permutation (order_by_desc key l) l.
Proof.
  induction l as [|x l IH]; cbn; [reflexivity|].
  rewrite insert_desc_perm. now constructor.
Qed.

Lemma insert_desc_sorted (A : Type) (key : A -> Z) (x : A) (l : list A) :
  Sorted (fun a b => key b <= key a) l ->
  Sorted (fun a b => key b <= key a) (insert_desc key x l).
Proof.
  induction 1 as [|y l Hs IH Hhd]; cbn.
  - repeat constructor.
  - destruct (key y <=? key x) eqn:E.
    + apply Z.leb_le in E. repeat constructor; assumption.
    + apply Z.leb_gt in E. constructor; [assumption|].
      destruct Hhd as [|z l Hz]; cbn.
      * constructor. lia.
      * destruct (key z <=? key x); constructor; lia.
Qed.

Lemma order_by_desc_newest_first (A : Type) (key : A -> Z) (l : list A) :
  newest_first key (order_by_desc key l).
Proof.
  apply Sorted_StronglySorted; [intros a b c; lia|].
  induction l as [|x l IH]; cbn; [constructor|].
  now apply insert_desc_sorted.
Qed.

Lemma newest_first_map (A B : Type) (f : A -> B) (key : B -> Z) (l : list A) :
  newest_first (fun a => key (f a)) l -> newest_first key (map f l).
Proof.
  unfold newest_first. induction 1 as [|a l _ IH Hall]; cbn; constructor.
  - assumption.
  - rewrite Forall_map. assumption.
Qed.





(** ** Reads in a calm environment *)

Lemma collect_loop (A B : Type) (f : B -> A) (rows : list B) :
  forall (acc : list A) (s : Session),
    for_range rows acc (fun items row => ret (items ++ [f row])) s
    = (inr (acc ++ map f rows), s).
Proof.
  induction rows as [|r rows IH]; intros acc s; cbn [for_range map].
  - unfold ret. now rewrite app_nil_r.
  - unfold bind at 1. unfold ret at 1. rewrite IH. now rewrite <- app_assoc.
Qed.

Section Reads.
Variable env : Env.
Hypothesis Hreliable : reliable env.
Hypothesis Hquiet : quiet env.

Lemma getOrderItems_calm (orderID : UUID) (s : Session) :
  getOrderItems env orderID s
  = (inr (order_items_of (committed s) orderID),
     mkSession (committed s) (S (trips s)) (minted s) (tx s)).
Proof.
  unfold getOrderItems. unfold bind at 1. rewrite round_trip_calm by assumption.
  now rewrite collect_loop.
Qed.

Lemma orders_loop (st : Store) (rows : list OrderRow.t) :
  forall (acc : list Order.t) (t m : nat) (log : option (list Write)),
    for_range rows acc
      (fun orders row =>
         items <- getOrderItems env (OrderRow.id row) ;;
         ret (orders ++
                [Order.mk (OrderRow.id row) (OrderRow.user_id row) (OrderRow.total_amount row)
                   (OrderRow.status row) items (OrderRow.created_at row)
                   (OrderRow.updated_at row)]))
      (mkSession st t m log)
    = (inr (acc ++ map (order_of st) rows), mkSession st (List.length rows + t) m log).
Proof.
  induction rows as [|r rows IH]; intros acc t m log; cbn [for_range map].
  - unfold ret. now rewrite app_nil_r.
  - unfold bind at 1. unfold bind at 1. rewrite getOrderItems_calm.
    cbn [committed trips minted tx]. unfold ret at 1. rewrite IH.
    rewrite <- app_assoc. cbn [List.length app]. f_equal. f_equal. lia.
Qed.

(** [GetUserOrders] succeeds and returns what the committed store holds. *)
Lemma GetUserOrders_calm (userID : UUID) (s : Session) :
  GetUserOrders env userID s
  = (inr (user_orders (committed s) userID),
     mkSession (committed s)
       (List.length (select_orders userID (committed s)) + S (trips s)) (minted s) (tx s)).
Proof.
  unfold GetUserOrders. unfold bind at 1. rewrite round_trip_calm by assumption.
  now rewrite orders_loop.
Qed.

(** [GetProducts] succeeds and returns the rows of its statement. *)
Lemma GetProducts_calm (filter : ProductFilter.t) (s : Session) :
  GetProducts env filter s
  = (inr (select_products (build_query filter) (committed s)),
     mkSession (committed s) (S (trips s)) (minted s) (tx s)).
Proof.
  unfold GetProducts. unfold bind at 1. rewrite round_trip_calm by assumption.
  rewrite collect_loop. cbn [app]. now rewrite map_id.
Qed.

End Reads.

(** ** What [GetUserOrders] shows *)

Lemma in_select_orders (userID : UUID) (st : Store) (row : OrderRow.t) :
  In row (select_orders userID st)
  <-> In row (orders st) /\ OrderRow.user_id row = userID.
Proof.
  unfold select_orders. split.
  - intro H. apply (Permutation_in _ (order_by_desc_perm _ _ _)) in H.
    apply filter_In in H. destruct H as [H E]. split; [assumption|]. now apply N.eqb_eq.
  - intros [H E].
    apply (Permutation_in _ (Permutation_sym (order_by_desc_perm _ _ _))).
    apply filter_In. split; [assumption|]. now apply N.eqb_eq.
Qed.

Lemma in_order_items_of (st : Store) (orderID : UUID) (i : OrderItem.t) :
  In i (order_items_of st orderID)
  <-> exists (row : OrderItemRow.t) (p : Product.t),
        In row (order_items st) /\ In p (products st)
        /\ OrderItemRow.order_id row = orderID
        /\ Product.ID p = OrderItemRow.product_id row
        /\ i = scan_order_item (row, p).
Proof.
  unfold order_items_of, select_order_items. rewrite in_map_iff. split.
  - intros [[row p] [Hi Hin]]. apply in_flat_map in Hin. destruct Hin as [row' [Hrow Hp]].
    apply in_map_iff in Hp. destruct Hp as [p' [E Hp]]. inversion E; subst row' p'.
    apply filter_In in Hrow. destruct Hrow as [Hrow Ho].
    apply filter_In in Hp. destruct Hp as [Hp Hid].
    apply N.eqb_eq in Ho, Hid. exists row, p. now repeat split.
  - intros (row & p & Hrow & Hp & Ho & Hid & Hi). exists (row, p). split; [now symmetry|].
    apply in_flat_map. exists row. split.
    + apply filter_In. split; [assumption|]. now apply N.eqb_eq.
    + apply in_map. apply filter_In. split; [assumption|]. now apply N.eqb_eq.
Qed.

(** A change of prices does not reach what [GetUserOrders] reads: orders and
    their items carry their own amounts. *)
Lemma join_reprice (f : Product.t -> float64) (oi : OrderItemRow.t) (ps : list Product.t) :
  map scan_order_item
    (map (fun p => (oi, p))
       (List.filter (fun p => N.eqb (OrderItemRow.product_id oi) (Product.ID p))
          (map (with_price f) ps)))
  = map scan_order_item
      (map (fun p => (oi, p))
         (List.filter (fun p => N.eqb (OrderItemRow.product_id oi) (Product.ID p)) ps)).
Proof.
  induction ps as [|p ps IH]; cbn [map List.filter]; [reflexivity|].
  cbn [with_price Product.ID].
  destruct (N.eqb (OrderItemRow.product_id oi) (Product.ID p)); cbn [map]; now rewrite IH.
Qed.

Lemma select_order_items_reprice (f : Product.t -> float64) (orderID : UUID) (st : Store) :
  order_items_of (reprice f st) orderID = order_items_of st orderID.
Proof.
  unfold order_items_of, select_order_items. cbn [products order_items reprice].
  induction (List.filter _ (order_items st)) as [|oi ois IH]; cbn [flat_map]; [reflexivity|].
  now rewrite !map_app, IH, join_reprice.
Qed.

Lemma user_orders_reprice (f : Product.t -> float64) (userID : UUID) (st : Store) :
  user_orders (reprice f st) userID = user_orders st userID.
Proof.
  unfold user_orders. change (select_orders userID (reprice f st)) with (select_orders userID st).
  apply map_ext. intro row. unfold order_of. now rewrite select_order_items_reprice.
Qed.

(** ** LIKE patterns *)

Lemma like_percent_step (p t : list ascii) :
  like ("%"%char :: p) t
  = like p t || match t with [] => false | _ :: t' => like ("%"%char :: p) t' end.
Proof. destruct t; reflexivity. Qed.

(** A leading [%] lets the rest of the pattern start anywhere in the text. *)
Lemma like_percent (p t : list ascii) :
  like ("%"%char :: p) t = true
  <-> exists pre post, t = pre ++ post /\ like p post = true.
Proof.
  induction t as [|c t IH]; rewrite like_percent_step, orb_true_iff.
  - split.
    + intros [H|H]; [|discriminate]. now exists [], [].
    + intros (pre & post & E & H). left.
      destruct pre; [|discriminate]. cbn in E. now subst.
  - rewrite IH. split.
    + intros [H|(pre & post & E & H)].
      * now exists [], (c :: t).
      * exists (c :: pre), post. now subst.
    + intros (pre & post & E & H). destruct pre as [|c' pre]; cbn in E.
      * left. now subst.
      * right. inversion E; subst. now exists pre, post.
Qed.



Lemma like_any (t : list ascii) : like ["%"%char] t = true.
Proof.
  apply like_percent. exists t, []. split; [now rewrite app_nil_r | reflexivity].
Qed.

(** ** Substrings *)

Lemma prefixb_spec (q s : list ascii) :
  prefixb q s = true <-> exists post, s = q ++ post.
Proof.
  revert s. induction q as [|c q IH]; intro s; cbn [prefixb app].
  - split; [now exists s | reflexivity].
  - destruct s as [|c' s].
    + split; [discriminate | now intros [post E]].
    + rewrite andb_true_iff, Ascii.eqb_eq, IH. split.
      * intros [-> [post ->]]. now exists post.
      * intros [post E]. inversion E; subst. split; [reflexivity | now exists post].
Qed.

(** [infixb q s] holds exactly when [q] occurs in [s]. *)
Lemma infixb_spec (q s : list ascii) :
  infixb q s = true <-> exists pre post, s = pre ++ q ++ post.
Proof.
  induction s as [|c s IH]; cbn [infixb]; rewrite orb_true_iff, prefixb_spec.
  - split.
    + intros [[post E]|H]; [|discriminate]. now exists [], post.
    + intros (pre & post & E). left. destruct pre; [now exists post | discriminate].
  - rewrite IH. split.
    + intros [[post E]|(pre & post & E)].
      * now exists [], post.
      * exists (c :: pre), post. now subst.
    + intros (pre & post & E). destruct pre as [|c' pre]; cbn [app] in E.
      * left. now exists post.
      * right. inversion E; subst. now exists pre, post.
Qed.


(** ** Case folding *)





(** The search text ["%"] makes the pattern ["%%%"], which every text
    matches. *)
Lemma ilike_percent_text (txt : string) : ilike txt "%%%" = true.
Proof.
  unfold ilike. change (lower (chars "%%%")) with ["%"%char; "%"%char; "%"%char].
  apply like_percent. exists [], (lower (chars txt)). split; [reflexivity|].
  apply like_percent. exists [], (lower (chars txt)). split; [reflexivity|].
  apply like_any.
Qed.

(** ** The filter of [GetProducts] *)

(** The meaning of [contains_ci]: the case-folded search text occurs in the
    case-folded text. *)
Lemma contains_ci_spec (q txt : string) :
  contains_ci q txt = true
  <-> exists pre post, lower (chars txt) = pre ++ lower (chars q) ++ post.
Proof. apply infixb_spec. Qed.


Lemma in_selected (filter : ProductFilter.t) (st : Store) (p : Product.t) :
  In p (selected filter st)
  <-> In p (products st)
      /\ forallb (clause_holds p) (whereClauses (build_query filter)) = true.
Proof.
  unfold selected. split.
  - intro H. apply (Permutation_in _ (order_by_desc_perm _ _ _)) in H.
    now apply filter_In in H.
  - intro H. apply (Permutation_in _ (Permutation_sym (order_by_desc_perm _ _ _))).
    now apply filter_In.
Qed.

(** What [GetProducts] returns: the selected products, paged. *)
Lemma select_products_paged (filter : ProductFilter.t) (st : Store) :
  select_products (build_query filter) st
  = (if ProductFilter.Limit filter >? 0
     then firstn (Z.to_nat (ProductFilter.Limit filter)) else fun l => l)
      ((if ProductFilter.Offset filter >? 0
        then skipn (Z.to_nat (ProductFilter.Offset filter)) else fun l => l)
         (selected filter st)).
Proof.
  unfold select_products, selected.
  change (limit (build_query filter))
    with (if ProductFilter.Limit filter >? 0 then Some (ProductFilter.Limit filter) else None).
  change (offset (build_query filter))
    with (if ProductFilter.Offset filter >? 0 then Some (ProductFilter.Offset filter) else None).
  destruct (ProductFilter.Limit filter >? 0); destruct (ProductFilter.Offset filter >? 0);
    reflexivity.
Qed.


(** ** The arithmetic of the total is that of IEEE-754 *)

Lemma binary_round_opp (sx : bool) (m : positive) (e : Z) :
  SFopp (binary_round prec emax sx m e) = binary_round prec emax (negb sx) m e.
Proof.
  unfold binary_round, binary_round_aux.
  destruct (shl_align m e _) as [mz ez].
  destruct (shr_fexp prec emax (Z.pos mz) ez loc_Exact) as [mrs e1].
  destruct (shr_fexp prec emax _ e1 loc_Exact) as [mrs2 e2].
  destruct (shr_m mrs2); [reflexivity | | reflexivity].
  destruct (e2 <=? emax - prec); reflexivity.
Qed.

(** [float64(n)] is the IEEE-754 conversion of [n], for every Go [int]. *)
Lemma float64_of_int_ieee (n : Z) :
  is_int n -> Prim2SF (float64_of_int n) = ieee_of_int n.
Proof.
  intros [Hlo Hhi]. unfold float64_of_int, ieee_of_int.
  destruct (n =? - 2 ^ 63) eqn:Emin.
  - apply Z.eqb_eq in Emin. subst n. vm_compute. reflexivity.
  - apply Z.eqb_neq in Emin.
    assert (HwB : wB = 2 ^ 63) by reflexivity.
    destruct (n <? 0) eqn:Eneg.
    + apply Z.ltb_lt in Eneg.
      rewrite FloatAxioms.opp_spec, of_uint63_spec, Uint63.of_Z_spec.
      rewrite Z.mod_small by (rewrite HwB; lia).
      destruct n as [|p|p]; try lia. cbn [Z.opp binary_normalize].
      apply (binary_round_opp false).
    + apply Z.ltb_ge in Eneg.
      rewrite of_uint63_spec, Uint63.of_Z_spec.
      now rewrite Z.mod_small by (rewrite HwB; lia).
Qed.

Lemma fold_add_line_ieee (lines : list (float64 * Z)) :
  Forall (fun line => is_int (snd line)) lines ->
  forall acc : float64,
    Prim2SF (fold_left add_line lines acc) = fold_left ieee_add_line lines (Prim2SF acc).
Proof.
  induction 1 as [|line lines Hline _ IH]; intro acc; cbn [fold_left]; [reflexivity|].
  rewrite IH. f_equal. unfold add_line, ieee_add_line.
  rewrite FloatAxioms.add_spec, FloatAxioms.mul_spec.
  now rewrite (float64_of_int_ieee _ Hline).
Qed.

(** The accumulated total is the IEEE-754 sum of the lines. *)
Lemma sum_lines_ieee (lines : list (float64 * Z)) :
  Forall (fun line => is_int (snd line)) lines ->
  Prim2SF (sum_lines lines) = ieee_sum lines.
Proof.
  intro H. unfold sum_lines, ieee_sum. now rewrite (fold_add_line_ieee _ H).
Qed.

Lemma lines_of_int (prices : list float64) (items : list OrderItemRequest.t) :
  Forall (fun it => is_int (OrderItemRequest.Qty it)) items ->
  Forall (fun line => is_int (snd line)) (lines_of prices items).
Proof.
  intro H. revert prices. unfold lines_of.
  induction H as [|it items Hit _ IH]; intros [|pr prices]; cbn; constructor; auto.
Qed.

(** Prices read from a catalog whose prices the column keeps are kept. *)
Lemma priced_kept (env : Env) (st : Store) (items : list OrderItemRequest.t)
  (prices : list float64) :
  catalog_prices_kept env st ->
  Forall2 (fun it pr => unit_price st (OrderItemRequest.ProductID it) = Some pr) items prices ->
  map (numeric env) prices = prices.
Proof.
  intro Hkept. induction 1 as [|it pr items prices Hpr _ IH]; cbn; [reflexivity|].
  f_equal; [|exact IH].
  unfold unit_price, lookup_product in Hpr.
  destruct (find _ (products st)) as [p|] eqn:E; [|discriminate].
  cbn in Hpr. inversion Hpr; subst pr. apply find_some in E.
  unfold catalog_prices_kept in Hkept. rewrite Forall_forall in Hkept.
  apply Hkept. apply E.
Qed.

(* ================================================================= *)
(** * The statements of the specification *)

(** ** Order creation *)

(** C1, as stated, fails.  A valid item list, one Kibble at 0.10 and one
    Ribbon at 0.20: the sum of quantity times price is thirty hundredths,
    whose binary64 form is [0x1.3333333333333p-2]; [CreateOrder] returns
    [0x1.3333333333334p-2], printed 0.30000000000000004. *)
Lemma CreateOrder_total_is_not_the_exact_sum :
  valid_items
    (mkStore
       [Product.mk 1%N "Kibble" (float64_of_cents 10) "food" "" "" 9 100 100;
        Product.mk 2%N "Ribbon" (float64_of_cents 20) "toys" "" "" 9 100 100] [] [])
    [OrderItemRequest.mk 1%N 1; OrderItemRequest.mk 2%N 1]
  /\ fst (CreateOrder (calm sample_ids 500) alice
            (CreateOrderRequest.mk [OrderItemRequest.mk 1%N 1; OrderItemRequest.mk 2%N 1])
            (connect (mkStore
               [Product.mk 1%N "Kibble" (float64_of_cents 10) "food" "" "" 9 100 100;
                Product.mk 2%N "Ribbon" (float64_of_cents 20) "toys" "" "" 9 100 100]
               [] [])))
     = inr (CreateOrderResponse.mk 1000%N 0x1.3333333333334p-2%float)
  /\ decimal_total [(10, 1); (20, 1)] = 30
  /\ float64_of_cents 30 = 0x1.3333333333333p-2%float
  /\ PrimFloat.eqb 0x1.3333333333334p-2%float
       (float64_of_cents (decimal_total [(10, 1); (20, 1)]))
     = false.
Proof.
  split.
  - repeat constructor; cbn; try discriminate; lia.
  - repeat split; vm_compute; reflexivity.
Qed.

(** C1, amended.  For every valid item list (every product exists, every
    quantity is at least 1 and fits Go's [int]), when no round trip fails and
    no other session writes during the call, [CreateOrder] succeeds and the
    total it returns is the IEEE-754 binary64 sum, over the items in order
    and from zero, of the unit price the store holds at the call times the
    quantity converted to binary64, each product and each partial sum rounded
    to nearest.  The order does not depend on later price changes: after any
    change of prices the [orders] row still carries what the column kept of
    this total, and [GetUserOrders] still reports the order with it. *)
Theorem CreateOrder_total_at_call_time
  (env : Env) (userID : UUID) (req : CreateOrderRequest.t) (s : Session) :
  reliable env -> quiet env ->
  valid_items (committed s) (CreateOrderRequest.Items req) ->
  Forall (fun it => OrderItemRequest.Qty it < 2 ^ 63) (CreateOrderRequest.Items req) ->
  exists (prices : list float64) (total : float64) (s' : Session),
    Forall2 (fun it pr => unit_price (committed s) (OrderItemRequest.ProductID it) = Some pr)
      (CreateOrderRequest.Items req) prices
    /\ CreateOrder env userID req s
       = (inr (CreateOrderResponse.mk (uuids env (minted s)) total), s')
    /\ Prim2SF total = ieee_sum (lines_of prices (CreateOrderRequest.Items req))
    /\ forall f : Product.t -> float64,
         In (OrderRow.mk (uuids env (minted s)) userID (numeric env total)
               "pending" (clock env) (clock env))
            (orders (reprice f (committed s')))
         /\ exists (os : list Order.t) (o : Order.t),
              fst (GetUserOrders env userID
                     (mkSession (reprice f (committed s')) (trips s') (minted s') (tx s')))
              = inr os
              /\ In o os
              /\ Order.ID o = uuids env (minted s)
              /\ Order.TotalAmount o = numeric env total.
Proof.
  intros Hr Hq Hvalid Hint.
  destruct (valid_items_priced _ _ Hvalid) as [prices Hprices].
  exists prices. eexists. eexists. split; [exact Hprices|].
  split; [apply (CreateOrder_ok env userID req s prices Hr Hq Hprices)|].
  split.
  { apply sum_lines_ieee, lines_of_int.
    unfold valid_items in Hvalid. rewrite Forall_forall in *.
    intros it Hit. split; [|now apply Hint].
    destruct (Hvalid it Hit) as [_ Hq1]. lia. }
  intro f. cbn [committed trips minted tx reprice orders].
  assert (Hin : In (OrderRow.mk (uuids env (minted s)) userID
               (numeric env (sum_lines (lines_of prices (CreateOrderRequest.Items req))))
               "pending" (clock env) (clock env))
            (orders (committed s) ++
               [OrderRow.mk (uuids env (minted s)) userID
                  (numeric env (sum_lines (lines_of prices (CreateOrderRequest.Items req))))
                  "pending" (clock env) (clock env)])).
  { apply in_or_app. right. now left. }
  split; [exact Hin|].
  rewrite (GetUserOrders_calm env Hr Hq). cbn [fst committed].
  eexists. eexists. split; [reflexivity|]. split.
  - unfold user_orders. apply in_map. apply in_select_orders. cbn [orders].
    split; [exact Hin | reflexivity].
  - split; reflexivity.
Qed.

Lemma CreateOrder_total_at_call_time_witness :
  exists (prices : list float64) (total : float64) (s' : Session),
    Forall2 (fun it pr => unit_price catalog (OrderItemRequest.ProductID it) = Some pr)
      [OrderItemRequest.mk 1%N 2; OrderItemRequest.mk 2%N 1] prices
    /\ CreateOrder (calm sample_ids 500) alice
         (CreateOrderRequest.mk [OrderItemRequest.mk 1%N 2; OrderItemRequest.mk 2%N 1])
         (connect catalog)
       = (inr (CreateOrderResponse.mk 1000%N total), s')
    /\ Prim2SF total
       = ieee_sum (lines_of prices [OrderItemRequest.mk 1%N 2; OrderItemRequest.mk 2%N 1])
    /\ forall f : Product.t -> float64,
         In (OrderRow.mk 1000%N alice total "pending" 500 500)
            (orders (reprice f (committed s')))
         /\ exists (os : list Order.t) (o : Order.t),
              fst (GetUserOrders (calm sample_ids 500) alice
                     (mkSession (reprice f (committed s')) (trips s') (minted s') (tx s')))
              = inr os
              /\ In o os
              /\ Order.ID o = 1000%N
              /\ Order.TotalAmount o = total.
Proof.
  apply (CreateOrder_total_at_call_time (calm sample_ids 500) alice
           (CreateOrderRequest.mk [OrderItemRequest.mk 1%N 2; OrderItemRequest.mk 2%N 1])
           (connect catalog)).
  - apply calm_reliable.
  - apply calm_quiet.
  - repeat constructor; cbn; try discriminate; lia.
  - repeat constructor.
Defined.

(** The round trip of the specification: two Salmon Treats at 10.00 and one
    Feather Wand at 5.00 make a total of 25.00. *)
Example CreateOrder_round_trip_total :
  fst (CreateOrder (calm sample_ids 500) alice
         (CreateOrderRequest.mk [OrderItemRequest.mk 1%N 2; OrderItemRequest.mk 2%N 1])
         (connect catalog))
  = inr (CreateOrderResponse.mk 1000%N 25%float).
Proof. vm_compute. reflexivity. Qed.

Example GetUserOrders_round_trip_items :
  option_map
    (map (fun o => map (fun i => (OrderItem.Quantity i, OrderItem.Price i)) (Order.Items o)))
    (returned (GetUserOrders (calm sample_ids 500) alice after_purchase))
  = Some [[(2, 10%float); (1, 5%float)]].
Proof. vm_compute. reflexivity. Qed.

(** C2. [CreateOrder] reads every price twice: once in the loop that
    accumulates the total, once more in the loop that inserts the items.  A
    price change another session commits between the two reads (here at round
    trip 3: after BEGIN, the first SELECT and the INSERT of the order) gives
    an order whose item carries the re-read price 20 while its total was
    computed from the price 10 read first: the persisted total is not the sum
    of the persisted lines. *)
Theorem CreateOrder_item_price_is_reread :
  unit_price catalog 1%N = Some 10%float
  /\ fst (CreateOrder (interleaved 3 (set_price 1%N 20%float) sample_ids 500) alice
            (CreateOrderRequest.mk [OrderItemRequest.mk 1%N 1]) (connect catalog))
     = inr (CreateOrderResponse.mk 1000%N 10%float)
  /\ orders (committed (snd
       (CreateOrder (interleaved 3 (set_price 1%N 20%float) sample_ids 500) alice
          (CreateOrderRequest.mk [OrderItemRequest.mk 1%N 1]) (connect catalog))))
     = [OrderRow.mk 1000%N alice 10%float "pending" 500 500]
  /\ order_items (committed (snd
       (CreateOrder (interleaved 3 (set_price 1%N 20%float) sample_ids 500) alice
          (CreateOrderRequest.mk [OrderItemRequest.mk 1%N 1]) (connect catalog))))
     = [OrderItemRow.mk 1001%N 1000%N 1%N 1 20%float 500]
  /\ sum_lines [(20%float, 1)] = 20%float
  /\ PrimFloat.eqb 10%float 20%float = false.
Proof.
  repeat split; vm_compute; reflexivity.
Qed.

(** C3. For every item list in which at least one product identifier
    denotes no product, when no round trip fails and no other session writes
    during the call, [CreateOrder] fails with [ErrNoRows] (the error of the
    price lookup that found no row, returned as it is: the specification's
    ProductNotFound), the transaction is rolled back and the store is as it
    was: no [orders] row, no [order_items] row, and [GetUserOrders] answers
    for every user what it answered before. *)
Theorem CreateOrder_unknown_product_aborts
  (env : Env) (userID : UUID) (req : CreateOrderRequest.t) (s : Session) :
  reliable env -> quiet env ->
  Exists (fun it => unit_price (committed s) (OrderItemRequest.ProductID it) = None)
    (CreateOrderRequest.Items req) ->
  exists s' : Session,
    CreateOrder env userID req s = (inl ErrNoRows, s')
    /\ committed s' = committed s
    /\ tx s' = None
    /\ forall u : UUID, fst (GetUserOrders env u s') = fst (GetUserOrders env u s).
Proof.
  intros Hr Hq Hmissing. destruct s as [st t m log]. cbn [committed] in Hmissing.
  unfold CreateOrder, BeginTx. unfold bind at 1.
  calm_trip.
  unfold defer_Rollback. unfold bind at 1. unfold uuid_New at 1.
  cbn [committed trips minted tx].
  unfold bind at 1.
  destruct (price_pass_missing env Hr Hq st _ Hmissing PrimFloat.zero (S t) (S m) (Some []))
    as [t' Hloop].
  unfold float64 in *. rewrite Hloop.
  unfold tx_Rollback. cbn [committed trips minted tx]. rewrite Hq.
  eexists. split; [reflexivity|]. cbn [committed tx].
  repeat split. intro u. now rewrite !(GetUserOrders_calm env Hr Hq).
Qed.

Lemma CreateOrder_unknown_product_aborts_witness :
  exists s' : Session,
    CreateOrder (calm sample_ids 500) alice
      (CreateOrderRequest.mk [OrderItemRequest.mk 1%N 2; OrderItemRequest.mk 3%N 1])
      (connect catalog)
    = (inl ErrNoRows, s')
    /\ committed s' = catalog
    /\ tx s' = None
    /\ forall u : UUID,
         fst (GetUserOrders (calm sample_ids 500) u s')
         = fst (GetUserOrders (calm sample_ids 500) u (connect catalog)).
Proof.
  apply (CreateOrder_unknown_product_aborts (calm sample_ids 500) alice
           (CreateOrderRequest.mk [OrderItemRequest.mk 1%N 2; OrderItemRequest.mk 3%N 1])
           (connect catalog)).
  - apply calm_reliable.
  - apply calm_quiet.
  - apply Exists_cons_tl. apply Exists_cons_hd. reflexivity.
Defined.

(** A failure in the middle of the transaction: the insert of the first
    item is refused after the order row was written; the order row is rolled
    back with the rest. *)
Example CreateOrder_rolls_back_order_row :
  CreateOrder (failing 5 ConstraintViolation sample_ids 500) alice
    (CreateOrderRequest.mk [OrderItemRequest.mk 1%N 2; OrderItemRequest.mk 2%N 1])
    (connect catalog)
  = (inl (ErrStore ConstraintViolation), mkSession catalog 7 2 None).
Proof. vm_compute. reflexivity. Qed.

(** C4, as stated, fails.  A product priced 0.10 (the binary64 number nearest
    to ten hundredths) ordered three times: decimal arithmetic gives exactly
    thirty hundredths, whose binary64 form is [0x1.3333333333333p-2];
    [CreateOrder] returns [0x1.3333333333334p-2], printed
    0.30000000000000004, the rounding of a binary multiplication. *)
Lemma CreateOrder_total_not_decimal :
  fst (CreateOrder (calm sample_ids 500) alice
         (CreateOrderRequest.mk [OrderItemRequest.mk 1%N 3])
         (connect (mkStore
            [Product.mk 1%N "Catnip" (float64_of_cents 10) "food" "" "" 9 100 100] [] [])))
  = inr (CreateOrderResponse.mk 1000%N 0x1.3333333333334p-2%float)
  /\ decimal_total [(10, 3)] = 30
  /\ float64_of_cents 30 = 0x1.3333333333333p-2%float
  /\ PrimFloat.eqb 0x1.3333333333334p-2%float (float64_of_cents (decimal_total [(10, 3)]))
     = false.
Proof.
  repeat split; vm_compute; reflexivity.
Qed.

(** C4, amended.  The monetary arithmetic of [CreateOrder] is binary64
    floating point: on an item list whose products all exist and whose
    quantities fit Go's [int], when no round trip fails and no other session
    writes during the call, the returned total is the left-to-right
    accumulation, from zero, of [price * float64(qty)] with binary64 addition
    and multiplication on the binary64 prices read, which is the IEEE-754
    sum, every operation rounded to nearest.  This [float64] is the value
    handed to the [INSERT] of the order, and the prices read are the values
    handed to the [INSERT]s of the items; what the rows hold is what the
    column keeps of them. *)
Theorem CreateOrder_total_binary64
  (env : Env) (userID : UUID) (req : CreateOrderRequest.t) (s : Session)
  (prices : list float64) :
  reliable env -> quiet env ->
  Forall2 (fun it pr => unit_price (committed s) (OrderItemRequest.ProductID it) = Some pr)
    (CreateOrderRequest.Items req) prices ->
  Forall (fun it => is_int (OrderItemRequest.Qty it)) (CreateOrderRequest.Items req) ->
  exists (total : float64) (handed : list OrderItemRow.t) (s' : Session),
    total = fold_left
              (fun acc line =>
                 PrimFloat.add acc (PrimFloat.mul (fst line) (float64_of_int (snd line))))
              (combine prices (map OrderItemRequest.Qty (CreateOrderRequest.Items req)))
              PrimFloat.zero
    /\ Prim2SF total = ieee_sum (lines_of prices (CreateOrderRequest.Items req))
    /\ CreateOrder env userID req s
       = (inr (CreateOrderResponse.mk (uuids env (minted s)) total), s')
    /\ orders (committed s')
       = orders (committed s) ++
           [order_row (numeric env)
              (OrderRow.mk (uuids env (minted s)) userID total "pending" (clock env)
                 (clock env))]
    /\ order_items (committed s')
       = order_items (committed s) ++ map (order_item_row (numeric env)) handed
    /\ map OrderItemRow.price handed = prices.
Proof.
  intros Hr Hq Hprices Hint.
  exists (sum_lines (lines_of prices (CreateOrderRequest.Items req))).
  exists (item_rows (uuids env) (S (minted s)) (uuids env (minted s)) (clock env) prices
            (CreateOrderRequest.Items req)).
  eexists.
  split; [reflexivity|].
  split; [apply sum_lines_ieee, lines_of_int, Hint|].
  split; [apply (CreateOrder_ok env userID req s prices Hr Hq Hprices)|].
  cbn [committed orders order_items]. rewrite stored_item_rows.
  split; [reflexivity|]. split; [reflexivity|].
  apply (item_rows_prices _ _ _ _ _ _ Hprices).
Qed.

Lemma CreateOrder_total_binary64_witness :
  exists (total : float64) (handed : list OrderItemRow.t) (s' : Session),
    total = fold_left
              (fun acc line =>
                 PrimFloat.add acc (PrimFloat.mul (fst line) (float64_of_int (snd line))))
              (combine [10%float; 5%float] [2; 1])
              PrimFloat.zero
    /\ Prim2SF total
       = ieee_sum
           (lines_of [10%float; 5%float]
              [OrderItemRequest.mk 1%N 2; OrderItemRequest.mk 2%N 1])
    /\ CreateOrder (calm sample_ids 500) alice
         (CreateOrderRequest.mk [OrderItemRequest.mk 1%N 2; OrderItemRequest.mk 2%N 1])
         (connect catalog)
       = (inr (CreateOrderResponse.mk 1000%N total), s')
    /\ orders (committed s')
       = [] ++ [order_row double_precision
                  (OrderRow.mk 1000%N alice total "pending" 500 500)]
    /\ order_items (committed s') = [] ++ map (order_item_row double_precision) handed
    /\ map OrderItemRow.price handed = [10%float; 5%float].
Proof.
  apply (CreateOrder_total_binary64 (calm sample_ids 500) alice
           (CreateOrderRequest.mk [OrderItemRequest.mk 1%N 2; OrderItemRequest.mk 2%N 1])
           (connect catalog) [10%float; 5%float]).
  - apply calm_reliable.
  - apply calm_quiet.
  - repeat constructor.
  - repeat constructor; cbn; lia.
Defined.

(** On a store whose money columns keep two decimals, the order of the
    counterexample is answered with 0.30000000000000004 and then shown, by
    [GetUserOrders], with a total of 0.3. *)
Example CreateOrder_total_returned_and_total_shown :
  fst (CreateOrder decimal_store alice
         (CreateOrderRequest.mk [OrderItemRequest.mk 1%N 3])
         (connect (mkStore
            [Product.mk 1%N "Catnip" (float64_of_cents 10) "food" "" "" 9 100 100] [] [])))
  = inr (CreateOrderResponse.mk 1000%N 0x1.3333333333334p-2%float)
  /\ option_map (map Order.TotalAmount)
       (returned
          (GetUserOrders decimal_store alice
             (snd (CreateOrder decimal_store alice
                     (CreateOrderRequest.mk [OrderItemRequest.mk 1%N 3])
                     (connect (mkStore
                        [Product.mk 1%N "Catnip" (float64_of_cents 10) "food" "" "" 9 100 100]
                        [] []))))))
     = Some [0x1.3333333333333p-2%float].
Proof.
  split; vm_compute; reflexivity.
Qed.

(** ** Order history *)

(** C5, as stated, fails.  An order is placed while product 2 is titled
    "Feather Wand"; the product is then renamed; [GetUserOrders] shows the
    new title on the old order. *)
Lemma GetUserOrders_title_follows_product :
  option_map (map titles_of)
    (returned (GetUserOrders (calm sample_ids 500) alice after_purchase))
  = Some [[Some "Salmon Treats"; Some "Feather Wand"]]
  /\ option_map (map titles_of)
       (returned (GetUserOrders (calm sample_ids 500) alice
                    (on_store (set_title 2%N "Laser Pointer" (committed after_purchase))
                       after_purchase)))
     = Some [[Some "Salmon Treats"; Some "Laser Pointer"]].
Proof.
  split; vm_compute; reflexivity.
Qed.

(** C5, amended.  For every user, when no round trip fails and no other
    session writes during the call, [GetUserOrders] returns that user's
    orders, most recent first, each with the items obtained by joining its
    [order_items] rows with the [products] table: the price shown, on the
    item and on its product, is the unit price stored in the [order_items]
    row at purchase, and no later change of product prices alters the
    answer; title, category, image and description are those of the
    [products] row at the time of reading. *)
Theorem GetUserOrders_snapshot_price (env : Env) (userID : UUID) (s : Session) :
  reliable env -> quiet env ->
  exists (os : list Order.t) (s' : Session),
    GetUserOrders env userID s = (inr os, s')
    /\ newest_first Order.CreatedAt os
    /\ Permutation (map Order.ID os)
         (map OrderRow.id
            (List.filter (fun o => N.eqb (OrderRow.user_id o) userID) (orders (committed s))))
    /\ (forall o : Order.t, In o os -> Order.UserID o = userID)
    /\ (forall (o : Order.t) (i : OrderItem.t),
          In o os ->
          (In i (Order.Items o)
           <-> exists (row : OrderItemRow.t) (p : Product.t),
                 In row (order_items (committed s)) /\ In p (products (committed s))
                 /\ OrderItemRow.order_id row = Order.ID o
                 /\ Product.ID p = OrderItemRow.product_id row
                 /\ i = OrderItem.mk (OrderItemRow.id row) (OrderItemRow.order_id row)
                          (OrderItemRow.product_id row) (OrderItemRow.quantity row)
                          (OrderItemRow.price row)
                          (Some (Product.mk (OrderItemRow.product_id row) (Product.Title p)
                                   (OrderItemRow.price row) (Product.Category p)
                                   (Product.Image p) (Product.Description p) 0 0 0))
                          (OrderItemRow.created_at row)))
    /\ (forall f : Product.t -> float64,
          fst (GetUserOrders env userID (on_store (reprice f (committed s)) s)) = inr os).
Proof.
  intros Hr Hq. rewrite (GetUserOrders_calm env Hr Hq).
  eexists. eexists. split; [reflexivity|]. unfold user_orders.
  split; [|split; [|split; [|split]]].
  - apply newest_first_map. cbn [order_of Order.CreatedAt].
    apply (order_by_desc_newest_first _ OrderRow.created_at).
  - rewrite map_map. cbn [order_of Order.ID]. apply Permutation_map.
    apply order_by_desc_perm.
  - intros o Ho. apply in_map_iff in Ho. destruct Ho as [row [<- Hrow]].
    apply in_select_orders in Hrow. now destruct Hrow.
  - intros o i Ho. apply in_map_iff in Ho. destruct Ho as [row [<- _]].
    cbn [order_of Order.Items Order.ID]. apply in_order_items_of.
  - intro f. rewrite (GetUserOrders_calm env Hr Hq). cbn [fst on_store committed].
    now rewrite user_orders_reprice.
Qed.

Lemma GetUserOrders_snapshot_price_witness :
  exists (os : list Order.t) (s' : Session),
    GetUserOrders (calm sample_ids 500) alice after_purchase = (inr os, s')
    /\ newest_first Order.CreatedAt os
    /\ Permutation (map Order.ID os)
         (map OrderRow.id
            (List.filter (fun o => N.eqb (OrderRow.user_id o) alice)
               (orders (committed after_purchase))))
    /\ (forall o : Order.t, In o os -> Order.UserID o = alice)
    /\ (forall (o : Order.t) (i : OrderItem.t),
          In o os ->
          (In i (Order.Items o)
           <-> exists (row : OrderItemRow.t) (p : Product.t),
                 In row (order_items (committed after_purchase))
                 /\ In p (products (committed after_purchase))
                 /\ OrderItemRow.order_id row = Order.ID o
                 /\ Product.ID p = OrderItemRow.product_id row
                 /\ i = OrderItem.mk (OrderItemRow.id row) (OrderItemRow.order_id row)
                          (OrderItemRow.product_id row) (OrderItemRow.quantity row)
                          (OrderItemRow.price row)
                          (Some (Product.mk (OrderItemRow.product_id row) (Product.Title p)
                                   (OrderItemRow.price row) (Product.Category p)
                                   (Product.Image p) (Product.Description p) 0 0 0))
                          (OrderItemRow.created_at row)))
    /\ (forall f : Product.t -> float64,
          fst (GetUserOrders (calm sample_ids 500) alice
                 (on_store (reprice f (committed after_purchase)) after_purchase))
          = inr os).
Proof.
  apply (GetUserOrders_snapshot_price (calm sample_ids 500) alice after_purchase).
  - apply calm_reliable.
  - apply calm_quiet.
Defined.

(** ** Catalog queries *)




(** The filtering examples of the specification. *)
Example GetProducts_category_food :
  fst (GetProducts (calm sample_ids 500) (ProductFilter.mk "" "food" 0 0) (connect catalog))
  = inr [salmon_treats].
Proof. vm_compute. reflexivity. Qed.

Example GetProducts_q_wand :
  fst (GetProducts (calm sample_ids 500) (ProductFilter.mk "wand" "" 0 0) (connect catalog))
  = inr [feather_wand].
Proof. vm_compute. reflexivity. Qed.

Example GetProducts_q_nomatch :
  fst (GetProducts (calm sample_ids 500) (ProductFilter.mk "nomatch" "" 0 0) (connect catalog))
  = inr [].
Proof. vm_compute. reflexivity. Qed.



Example GetProducts_negative_paging_ignored :
  fst (GetProducts (calm sample_ids 500) (ProductFilter.mk "" "" (-1) (-3)) (connect catalog))
  = inr [feather_wand; salmon_treats].
Proof. vm_compute. reflexivity. Qed.

(** C8. [GetProduct] answers "product not found" whenever the query fails,
    whatever the failure: a context cancelled before the query is sent, while
    the product exists, is reported exactly as a missing product is.  No other error ever leaves
    [GetProduct], so the branch of [ProductHandler.GetProduct] that answers
    500 for other failures is never taken and the caller cannot tell the two
    apart. *)
Theorem GetProduct_failure_reported_as_not_found :
  lookup_product catalog 1%N = Some salmon_treats
  /\ fst (GetProduct (failing 0 CtxCanceled sample_ids 500) 1%N (connect catalog))
     = inl (ErrNew "product not found")
  /\ fst (GetProduct (calm sample_ids 500) 3%N (connect catalog))
     = inl (ErrNew "product not found")
  /\ ProductHandler_GetProduct (failing 0 CtxCanceled sample_ids 500) (Some 1%N) (connect catalog)
     = 404
  /\ (forall (env : Env) (id : UUID) (s : Session) (e : error),
        fst (GetProduct env id s) = inl e -> e = ErrNew "product not found")
  /\ (forall (env : Env) (id : option UUID) (s : Session),
        ProductHandler_GetProduct env id s = 400
        \/ ProductHandler_GetProduct env id s = 404
        \/ ProductHandler_GetProduct env id s = 200).
Proof.
  repeat split; try (vm_compute; reflexivity).
  - intros env id s e. unfold GetProduct.
    destruct (round_trip env (select_product id) s) as [[e'|p] s']; cbn; congruence.
  - intros env [id|] s; [|now left]. unfold ProductHandler_GetProduct, GetProduct.
    destruct (round_trip env (select_product id) s) as [[e'|p] s']; cbn; auto.
Qed.

(** ** The empty order *)

(** C9. For every user, when no round trip fails and no other session
    writes during the call, [CreateOrder] with an item list of zero entries
    succeeds: it commits one [orders] row with a total of zero and status
    ["pending"], adds no [order_items] row, and returns the generated order
    identifier with a zero total. *)
Theorem CreateOrder_empty_items (env : Env) (userID : UUID) (s : Session) :
  reliable env -> quiet env ->
  CreateOrder env userID (CreateOrderRequest.mk []) s
  = (inr (CreateOrderResponse.mk (uuids env (minted s)) PrimFloat.zero),
     mkSession
       (mkStore (products (committed s))
          (orders (committed s) ++
             [OrderRow.mk (uuids env (minted s)) userID PrimFloat.zero "pending"
                (clock env) (clock env)])
          (order_items (committed s)))
       (3 + trips s) (S (minted s)) None).
Proof.
  intros Hr Hq.
  rewrite (CreateOrder_ok env userID (CreateOrderRequest.mk []) s [] Hr Hq);
    [|constructor].
  cbn [CreateOrderRequest.Items lines_of combine map item_rows List.length].
  unfold sum_lines. cbn [fold_left]. now rewrite keep_zero, app_nil_r.
Qed.

Lemma CreateOrder_empty_items_witness :
  CreateOrder (calm sample_ids 500) alice (CreateOrderRequest.mk []) (connect catalog)
  = (inr (CreateOrderResponse.mk 1000%N PrimFloat.zero),
     mkSession
       (mkStore [salmon_treats; feather_wand]
          [OrderRow.mk 1000%N alice PrimFloat.zero "pending" 500 500] [])
       3 1 None).
Proof.
  apply (CreateOrder_empty_items (calm sample_ids 500) alice (connect catalog)).
  - apply calm_reliable.
  - apply calm_quiet.
Defined.

(** ** Wildcards in the search text *)

(** C10.  Search texts that contain [%] or [_] are not searched for
    literally.  The text goes between two [%] into the [ILIKE] pattern as it
    is, so that "sal%treats" finds the Salmon Treats and "w_nd" finds the
    Feather Wand, whose titles and descriptions contain neither text; and
    the search text "%" finds every product of every catalog. *)
Theorem GetProducts_wildcards_in_search_text :
  (exists (q : string) (p : Product.t) (rows : list Product.t),
     In "%"%char (chars q)
     /\ whereClauses (build_query (ProductFilter.mk q "" 0 0))
        = [TitleOrDescriptionILike (String.append "%" (String.append q "%"))]
     /\ returned (GetProducts (calm sample_ids 500) (ProductFilter.mk q "" 0 0)
                    (connect catalog))
        = Some rows
     /\ In p rows
     /\ contains_ci q (Product.Title p) = false
     /\ contains_ci q (Product.Description p) = false)
  /\ (exists (q : string) (p : Product.t) (rows : list Product.t),
        In "_"%char (chars q)
        /\ whereClauses (build_query (ProductFilter.mk q "" 0 0))
           = [TitleOrDescriptionILike (String.append "%" (String.append q "%"))]
        /\ returned (GetProducts (calm sample_ids 500) (ProductFilter.mk q "" 0 0)
                       (connect catalog))
           = Some rows
        /\ In p rows
        /\ contains_ci q (Product.Title p) = false
        /\ contains_ci q (Product.Description p) = false)
  /\ (forall (ids : nat -> UUID) (now : Time) (st : Store) (p : Product.t),
        In p (products st)
        <-> exists rows : list Product.t,
              returned (GetProducts (calm ids now) (ProductFilter.mk "%" "" 0 0) (connect st))
              = Some rows
              /\ In p rows).
Proof.
  split; [|split].
  - exists "sal%treats", salmon_treats, [salmon_treats].
    split; [cbn; tauto|]. repeat split; try (vm_compute; reflexivity). now left.
  - exists "w_nd", feather_wand, [feather_wand].
    split; [cbn; tauto|]. repeat split; try (vm_compute; reflexivity). now left.
  - intros ids now st p. unfold returned.
    rewrite (GetProducts_calm _ (calm_reliable ids now) (calm_quiet ids now)).
    cbn [fst connect committed]. rewrite select_products_paged.
    cbn [ProductFilter.Limit ProductFilter.Offset Z.gtb Z.compare].
    split.
    + intro Hp. eexists. split; [reflexivity|]. apply in_selected.
      split; [assumption|].
      change (forallb (clause_holds p)
                (whereClauses (build_query (ProductFilter.mk "%" "" 0 0))))
        with ((ilike (Product.Title p) "%%%" || ilike (Product.Description p) "%%%") && true).
      now rewrite ilike_percent_text.
    + intros (rows & E & Hp). inversion E; subst rows. now apply in_selected in Hp.
Qed.

(* ================================================================= *)
(** * Further properties of the order service *)

(** ** Every outcome of [CreateOrder] *)

Lemma priced_unique (st : Store) (items : list OrderItemRequest.t) (p1 p2 : list float64) :
  Forall2 (fun it pr => unit_price st (OrderItemRequest.ProductID it) = Some pr) items p1 ->
  Forall2 (fun it pr => unit_price st (OrderItemRequest.ProductID it) = Some pr) items p2 ->
  p1 = p2.
Proof.
  intro H. revert p2. induction H as [|it pr items p1 Hpr _ IH]; intros p2 H2.
  - now inversion H2.
  - inversion H2 as [|? pr' ? p2' Hpr' H2']; subst. f_equal; [congruence | now apply IH].
Qed.

Lemma priced_or_missing (st : Store) (items : list OrderItemRequest.t) :
  (exists prices,
     Forall2 (fun it pr => unit_price st (OrderItemRequest.ProductID it) = Some pr)
       items prices)
  \/ Exists (fun it => unit_price st (OrderItemRequest.ProductID it) = None) items.
Proof.
  induction items as [|it items [[prices IH]|IH]].
  - left. exists []. constructor.
  - destruct (unit_price st (OrderItemRequest.ProductID it)) as [pr|] eqn:E.
    + left. exists (pr :: prices). now constructor.
    + right. now apply Exists_cons_hd.
  - right. now apply Exists_cons_tl.
Qed.

Section Outcomes.
Variable env : Env.
Hypothesis Hquiet : quiet env.

(** The first loop, whatever the store layer does: if it ends well, every
    product was found and the total is the accumulated sum. *)
Lemma price_pass_outcome (st : Store) (items : list OrderItemRequest.t) :
  forall (acc : float64) (t m : nat) (log : option (list Write)),
  exists (r : error + float64) (t' : nat),
    for_range items acc
      (fun totalAmount item =>
         price <- round_trip env (select_price (OrderItemRequest.ProductID item)) ;;
         ret (PrimFloat.add totalAmount
                (PrimFloat.mul price (float64_of_int (OrderItemRequest.Qty item)))))
      (mkSession st t m log)
    = (r, mkSession st t' m log)
    /\ (forall total : float64,
          r = inr total ->
          exists prices,
            Forall2 (fun it pr => unit_price st (OrderItemRequest.ProductID it) = Some pr)
              items prices
            /\ total = fold_left add_line (lines_of prices items) acc).
Proof.
  induction items as [|it items IH]; intros acc t m log.
  - exists (inr acc), t. split; [reflexivity|]. intros total E. inversion E; subst.
    exists []. split; [constructor | reflexivity].
  - cbn [for_range]. unfold bind at 1. unfold bind at 1. quiet_trip.
    destruct (fault env t) as [f|].
    + exists (inl (ErrStore f)), (S t). split; [reflexivity | discriminate].
    + destruct (unit_price st (OrderItemRequest.ProductID it)) as [pr|] eqn:E.
      * rewrite (select_price_found _ _ _ E). unfold ret at 1.
        destruct (IH (PrimFloat.add acc
                        (PrimFloat.mul pr (float64_of_int (OrderItemRequest.Qty it))))
                     (S t) m log) as (r & t' & Hrun & Hok).
        exists r, t'. split; [exact Hrun|]. intros total Hr.
        destruct (Hok total Hr) as (prices & Hprices & Htotal).
        exists (pr :: prices). split; [now constructor | exact Htotal].
      * rewrite (select_price_missing _ _ E). exists (inl ErrNoRows), (S t).
        split; [reflexivity | discriminate].
Qed.

(** The second loop: if it ends well, one insert per item is pending. *)
Lemma item_pass_outcome (st : Store) (orderID : UUID) (now : Time)
  (items : list OrderItemRequest.t) :
  forall (t m : nat) (log : list Write),
  exists (r : error + unit) (t' m' : nat) (log' : list Write),
    for_range items tt
      (fun _ item =>
         price <- round_trip env (select_price (OrderItemRequest.ProductID item)) ;;
         itemID <- uuid_New env ;;
         tx_Exec env (InsertOrderItem
           (OrderItemRow.mk itemID orderID (OrderItemRequest.ProductID item)
              (OrderItemRequest.Qty item) price now)))
      (mkSession st t m (Some log))
    = (r, mkSession st t' m' (Some log'))
    /\ (r = inr tt ->
        exists prices,
          Forall2 (fun it pr => unit_price st (OrderItemRequest.ProductID it) = Some pr)
            items prices
          /\ log' = log ++ map InsertOrderItem
                             (item_rows (uuids env) m orderID now prices items)).
Proof.
  induction items as [|it items IH]; intros t m log.
  - exists (inr tt), t, m, log. split; [reflexivity|]. intros _.
    exists []. split; [constructor | cbn; now rewrite app_nil_r].
  - cbn [for_range]. unfold bind at 1. unfold bind at 1. quiet_trip.
    destruct (fault env t) as [f|].
    + exists (inl (ErrStore f)), (S t), m, log. split; [reflexivity | discriminate].
    + destruct (unit_price st (OrderItemRequest.ProductID it)) as [pr|] eqn:E.
      * rewrite (select_price_found _ _ _ E).
        unfold bind at 1. unfold uuid_New at 1. cbn [committed trips minted tx].
        unfold tx_Exec at 1. unfold bind at 1. quiet_trip.
        destruct (fault env (S t)) as [f|].
        -- exists (inl (ErrStore f)), (S (S t)), (S m), log.
           split; [reflexivity | discriminate].
        -- destruct (IH (S (S t)) (S m)
                       (log ++ [InsertOrderItem
                                  (OrderItemRow.mk (uuids env m) orderID
                                     (OrderItemRequest.ProductID it)
                                     (OrderItemRequest.Qty it) pr now)]))
             as (r & t' & m' & log' & Hrun & Hok).
           exists r, t', m', log'. split; [exact Hrun|]. intro Hr.
           destruct (Hok Hr) as (prices & Hprices & Hlog).
           exists (pr :: prices). split; [now constructor|].
           rewrite Hlog, <- app_assoc. reflexivity.
      * rewrite (select_price_missing _ _ E). exists (inl ErrNoRows), (S t), m, log.
        split; [reflexivity | discriminate].
Qed.

(** What a call that returns a response has committed. *)
Lemma CreateOrder_success_commits
  (userID : UUID) (req : CreateOrderRequest.t) (s s' : Session)
  (resp : CreateOrderResponse.t) :
  CreateOrder env userID req s = (inr resp, s') ->
  exists prices : list float64,
    Forall2 (fun it pr => unit_price (committed s) (OrderItemRequest.ProductID it) = Some pr)
      (CreateOrderRequest.Items req) prices
    /\ resp = CreateOrderResponse.mk (uuids env (minted s))
                (sum_lines (lines_of prices (CreateOrderRequest.Items req)))
    /\ committed s'
       = mkStore (products (committed s))
           (orders (committed s) ++
              [OrderRow.mk (uuids env (minted s)) userID
                 (numeric env (sum_lines (lines_of prices (CreateOrderRequest.Items req))))
                 "pending" (clock env) (clock env)])
           (order_items (committed s) ++
              item_rows (uuids env) (S (minted s)) (uuids env (minted s)) (clock env)
                (map (numeric env) prices) (CreateOrderRequest.Items req))
    /\ tx s' = None.
Proof.
  destruct s as [st t m log]. cbn [committed minted].
  unfold CreateOrder, BeginTx. unfold bind at 1. quiet_trip.
  destruct (fault env t) as [f|]; [discriminate|].
  unfold defer_Rollback. unfold bind at 1. unfold uuid_New at 1.
  cbn [committed trips minted tx]. unfold bind at 1.
  destruct (price_pass_outcome st (CreateOrderRequest.Items req) PrimFloat.zero (S t) (S m)
              (Some [])) as (r1 & t1 & Hrun1 & Hok1).
  unfold float64 in *. rewrite Hrun1. destruct r1 as [e1|total]; [discriminate|].
  destruct (Hok1 total eq_refl) as (prices & Hprices & Htotal).
  unfold bind at 1. unfold time_Now, ret at 1.
  unfold bind at 1. unfold tx_Exec at 1. unfold bind at 1. quiet_trip. cbn [app].
  destruct (fault env t1) as [f|]; [discriminate|].
  unfold bind at 1.
  destruct (item_pass_outcome st (uuids env m) (clock env) (CreateOrderRequest.Items req)
              (S t1) (S m)
              [InsertOrder (OrderRow.mk (uuids env m) userID total "pending"
                              (clock env) (clock env))])
    as (r2 & t2 & m2 & log2 & Hrun2 & Hok2).
  unfold float64 in *. rewrite Hrun2. destruct r2 as [e2|[]]; [discriminate|].
  destruct (Hok2 eq_refl) as (prices2 & Hprices2 & Hlog).
  rewrite (priced_unique _ _ _ _ Hprices2 Hprices) in Hlog. subst log2.
  unfold bind at 1. unfold tx_Commit. unfold bind at 1. quiet_trip.
  destruct (fault env t2) as [f|]; [discriminate|].
  unfold ret, tx_Rollback. cbn [committed trips minted tx app fold_left].
  rewrite commit_item_rows, stored_item_rows.
  cbn [products orders order_items apply_write].
  intro H. inversion H; subst. exists prices.
  split; [exact Hprices|]. repeat split.
Qed.

End Outcomes.

(** After the deferred rollback no transaction is open. *)
Lemma defer_Rollback_closes (A : Type) (env : Env) (body : M A) (s s' : Session)
  (r : error + A) :
  defer_Rollback env body s = (r, s') -> tx s' = None.
Proof.
  unfold defer_Rollback. destruct (body s) as [r0 s0]. intro H. inversion H; subst.
  unfold tx_Rollback. destruct (tx s0) eqn:E; [reflexivity | exact E].
Qed.

(** ** All or nothing *)

(** X1.  Whatever fails and wherever (BEGIN, a price lookup, an insert,
    COMMIT), when no other session writes during the call [CreateOrder]
    either returns an error and leaves the committed store as it was, or
    returns a response and has added exactly one [orders] row, with the
    returned identifier, status ["pending"] and, as its total, what the
    column keeps of the returned total, and one [order_items] row per
    requested item, each pointing to that order.  In both cases no
    transaction is left open. *)
Theorem CreateOrder_all_or_nothing
  (env : Env) (userID : UUID) (req : CreateOrderRequest.t) (s s' : Session)
  (r : error + CreateOrderResponse.t) :
  quiet env ->
  tx s = None ->
  CreateOrder env userID req s = (r, s') ->
  tx s' = None
  /\ ((exists e : error, r = inl e /\ committed s' = committed s)
      \/ (exists (resp : CreateOrderResponse.t) (rows : list OrderItemRow.t),
            r = inr resp
            /\ products (committed s') = products (committed s)
            /\ orders (committed s')
               = orders (committed s) ++
                   [OrderRow.mk (CreateOrderResponse.OrderID resp) userID
                      (numeric env (CreateOrderResponse.Total resp)) "pending"
                      (clock env) (clock env)]
            /\ order_items (committed s') = order_items (committed s) ++ rows
            /\ map OrderItemRow.product_id rows
               = map OrderItemRequest.ProductID (CreateOrderRequest.Items req)
            /\ map OrderItemRow.quantity rows
               = map OrderItemRequest.Qty (CreateOrderRequest.Items req)
            /\ Forall (fun row => OrderItemRow.order_id row = CreateOrderResponse.OrderID resp)
                 rows)).
Proof.
  intros Hq Htx Hrun. destruct r as [e|resp].
  - split.
    + revert Hrun. destruct s as [st t m log]. cbn [tx] in Htx. subst log.
      unfold CreateOrder, BeginTx. unfold bind at 1. quiet_trip.
      destruct (fault env t) as [f|].
      * intro H. now inversion H.
      * apply defer_Rollback_closes.
    + left. exists e. split; [reflexivity|].
      apply (CreateOrder_failure_is_atomic env Hq userID req s s' e Hrun).
  - destruct (CreateOrder_success_commits env Hq userID req s s' resp Hrun)
      as (prices & Hprices & -> & Hstore & Htx').
    split; [exact Htx'|]. right. eexists. eexists. split; [reflexivity|].
    rewrite Hstore. cbn [products orders order_items CreateOrderResponse.OrderID
                           CreateOrderResponse.Total].
    split; [reflexivity|]. split; [reflexivity|]. split; [reflexivity|].
    generalize (S (minted s)). clear Hrun Hstore Htx'.
    induction Hprices as [|it pr items prices _ _ IH]; intro k; cbn.
    + repeat split. constructor.
    + destruct (IH (S k)) as (H1 & H2 & H3). repeat split.
      * now f_equal.
      * now f_equal.
      * constructor; [reflexivity | exact H3].
Qed.

Lemma CreateOrder_all_or_nothing_witness :
  tx (mkSession catalog 7 2 None) = None
  /\ ((exists e : error,
         @inl error CreateOrderResponse.t (ErrStore ConstraintViolation) = inl e
         /\ committed (mkSession catalog 7 2 None) = committed (connect catalog))
      \/ (exists (resp : CreateOrderResponse.t) (rows : list OrderItemRow.t),
            @inl error CreateOrderResponse.t (ErrStore ConstraintViolation) = inr resp
            /\ products (committed (mkSession catalog 7 2 None))
               = products (committed (connect catalog))
            /\ orders (committed (mkSession catalog 7 2 None))
               = orders (committed (connect catalog)) ++
                   [OrderRow.mk (CreateOrderResponse.OrderID resp) alice
                      (double_precision (CreateOrderResponse.Total resp)) "pending" 500 500]
            /\ order_items (committed (mkSession catalog 7 2 None))
               = order_items (committed (connect catalog)) ++ rows
            /\ map OrderItemRow.product_id rows
               = map OrderItemRequest.ProductID
                   [OrderItemRequest.mk 1%N 2; OrderItemRequest.mk 2%N 1]
            /\ map OrderItemRow.quantity rows
               = map OrderItemRequest.Qty
                   [OrderItemRequest.mk 1%N 2; OrderItemRequest.mk 2%N 1]
            /\ Forall (fun row => OrderItemRow.order_id row = CreateOrderResponse.OrderID resp)
                 rows)).
Proof.
  apply (CreateOrder_all_or_nothing (failing 5 ConstraintViolation sample_ids 500) alice
           (CreateOrderRequest.mk [OrderItemRequest.mk 1%N 2; OrderItemRequest.mk 2%N 1])
           (connect catalog) (mkSession catalog 7 2 None)
           (inl (ErrStore ConstraintViolation))).
  - intros n st. reflexivity.
  - reflexivity.
  - vm_compute. reflexivity.
Defined.

(** X2.  Whenever [CreateOrder] returns a response, no other session wrote
    during the call and the prices of the catalog are values of the money
    column (handed back to it, they are kept as they are), the [order_items]
    rows it committed add up to the total it returned: the sum over the rows,
    in order, of price times quantity is the [Total] of the response.  The
    new [orders] row holds what the column keeps of that total. *)
Theorem CreateOrder_lines_add_up
  (env : Env) (userID : UUID) (req : CreateOrderRequest.t) (s s' : Session)
  (resp : CreateOrderResponse.t) :
  quiet env ->
  catalog_prices_kept env (committed s) ->
  CreateOrder env userID req s = (inr resp, s') ->
  exists (row : OrderRow.t) (rows : list OrderItemRow.t),
    orders (committed s') = orders (committed s) ++ [row]
    /\ order_items (committed s') = order_items (committed s) ++ rows
    /\ OrderRow.id row = CreateOrderResponse.OrderID resp
    /\ OrderRow.total_amount row = numeric env (CreateOrderResponse.Total resp)
    /\ sum_lines (map (fun r => (OrderItemRow.price r, OrderItemRow.quantity r)) rows)
       = CreateOrderResponse.Total resp.
Proof.
  intros Hq Hkept Hrun.
  destruct (CreateOrder_success_commits env Hq userID req s s' resp Hrun)
    as (prices & Hprices & -> & Hstore & _).
  rewrite Hstore. eexists. eexists. cbn [orders order_items].
  split; [reflexivity|]. split; [reflexivity|].
  cbn [OrderRow.id OrderRow.total_amount CreateOrderResponse.OrderID
         CreateOrderResponse.Total].
  split; [reflexivity|]. split; [reflexivity|].
  rewrite (priced_kept env _ _ _ Hkept Hprices).
  now rewrite (item_rows_lines _ _ _ _ _ _ Hprices).
Qed.

Lemma CreateOrder_lines_add_up_witness :
  exists (row : OrderRow.t) (rows : list OrderItemRow.t),
    orders (committed after_purchase) = orders (committed (connect catalog)) ++ [row]
    /\ order_items (committed after_purchase)
       = order_items (committed (connect catalog)) ++ rows
    /\ OrderRow.id row
       = CreateOrderResponse.OrderID (CreateOrderResponse.mk 1000%N 25%float)
    /\ OrderRow.total_amount row
       = two_decimals (CreateOrderResponse.Total (CreateOrderResponse.mk 1000%N 25%float))
    /\ sum_lines (map (fun r => (OrderItemRow.price r, OrderItemRow.quantity r)) rows)
       = CreateOrderResponse.Total (CreateOrderResponse.mk 1000%N 25%float).
Proof.
  apply (CreateOrder_lines_add_up decimal_store alice
           (CreateOrderRequest.mk [OrderItemRequest.mk 1%N 2; OrderItemRequest.mk 2%N 1])
           (connect catalog) after_purchase (CreateOrderResponse.mk 1000%N 25%float)).
  - intros n st. reflexivity.
  - repeat constructor.
  - vm_compute. reflexivity.
Defined.

(** ** Stock is not looked at *)

Lemma unit_price_restock (f : Product.t -> Z) (st : Store) (id : UUID) :
  unit_price (restock f st) id = unit_price st id.
Proof.
  unfold unit_price, lookup_product, restock. cbn [products].
  induction (products st) as [|p ps IH]; cbn [map find]; [reflexivity|].
  cbn [Product.ID]. destruct (N.eqb (Product.ID p) id); [reflexivity | exact IH].
Qed.

(** With a product missing the call fails with the error of the lookup. *)
Lemma CreateOrder_missing_fails
  (env : Env) (userID : UUID) (req : CreateOrderRequest.t) (s : Session) :
  reliable env -> quiet env ->
  Exists (fun it => unit_price (committed s) (OrderItemRequest.ProductID it) = None)
    (CreateOrderRequest.Items req) ->
  fst (CreateOrder env userID req s) = inl ErrNoRows.
Proof.
  intros Hr Hq Hmissing. destruct s as [st t m log]. cbn [committed] in Hmissing.
  unfold CreateOrder, BeginTx. unfold bind at 1. calm_trip.
  unfold defer_Rollback. unfold bind at 1. unfold uuid_New at 1.
  cbn [committed trips minted tx]. unfold bind at 1.
  destruct (price_pass_missing env Hr Hq st _ Hmissing PrimFloat.zero (S t) (S m) (Some []))
    as [t' Hloop].
  unfold float64 in *. now rewrite Hloop.
Qed.

(** X3.  [CreateOrder] never reads [stock_quantity]: when no round trip
    fails and no other session writes, the answer to a request is the same
    whatever the stock levels of the products are (in particular an order
    for more units than are in stock, or for a product out of stock, is
    accepted like any other), and the call, successful or not, leaves every
    product row, stock included, as it was. *)
Theorem CreateOrder_ignores_stock
  (env : Env) (userID : UUID) (req : CreateOrderRequest.t) (s : Session)
  (f : Product.t -> Z) :
  reliable env -> quiet env ->
  fst (CreateOrder env userID req (on_store (restock f (committed s)) s))
  = fst (CreateOrder env userID req s)
  /\ products (committed (snd (CreateOrder env userID req s))) = products (committed s).
Proof.
  intros Hr Hq. split.
  - destruct (priced_or_missing (committed s) (CreateOrderRequest.Items req))
      as [[prices Hprices]|Hmissing].
    + rewrite (CreateOrder_ok env userID req s prices Hr Hq Hprices).
      rewrite (CreateOrder_ok env userID req (on_store (restock f (committed s)) s) prices
                 Hr Hq).
      * reflexivity.
      * cbn [on_store committed].
        eapply Forall2_impl; [|exact Hprices]. intros it pr H. cbn beta.
        now rewrite unit_price_restock.
    + rewrite (CreateOrder_missing_fails env userID req s Hr Hq Hmissing).
      apply CreateOrder_missing_fails; [assumption..|].
      cbn [on_store committed]. eapply Exists_impl; [|exact Hmissing].
      intros it H. cbn beta. now rewrite unit_price_restock.
  - destruct (CreateOrder env userID req s) as [[e|resp] s'] eqn:Hrun; cbn [snd].
    + now rewrite (proj1 (CreateOrder_failure_is_atomic env Hq userID req s s' e Hrun)).
    + destruct (CreateOrder_success_commits env Hq userID req s s' resp Hrun)
        as (prices & _ & _ & Hstore & _).
      now rewrite Hstore.
Qed.

Lemma CreateOrder_ignores_stock_witness :
  fst (CreateOrder (calm sample_ids 500) alice
         (CreateOrderRequest.mk [OrderItemRequest.mk 1%N 2; OrderItemRequest.mk 2%N 1])
         (on_store (restock (fun _ => 0) (committed (connect catalog))) (connect catalog)))
  = fst (CreateOrder (calm sample_ids 500) alice
           (CreateOrderRequest.mk [OrderItemRequest.mk 1%N 2; OrderItemRequest.mk 2%N 1])
           (connect catalog))
  /\ products (committed (snd
       (CreateOrder (calm sample_ids 500) alice
          (CreateOrderRequest.mk [OrderItemRequest.mk 1%N 2; OrderItemRequest.mk 2%N 1])
          (connect catalog))))
     = products (committed (connect catalog)).
Proof.
  apply (CreateOrder_ignores_stock (calm sample_ids 500) alice
           (CreateOrderRequest.mk [OrderItemRequest.mk 1%N 2; OrderItemRequest.mk 2%N 1])
           (connect catalog) (fun _ => 0)).
  - apply calm_reliable.
  - apply calm_quiet.
Defined.

(** ** An order and the order history *)

Lemma item_rows_order_id (ids : nat -> UUID) (orderID : UUID) (now : Time)
  (prices : list float64) (items : list OrderItemRequest.t) :
  forall k : nat,
    Forall (fun r => OrderItemRow.order_id r = orderID)
      (item_rows ids k orderID now prices items).
Proof.
  revert items. induction prices as [|pr prices IH]; intros [|it items] k; cbn;
    constructor; [reflexivity | apply IH].
Qed.

Lemma filter_none (A : Type) (f : A -> bool) (l : list A) :
  Forall (fun x => f x = false) l -> List.filter f l = [].
Proof.
  induction 1 as [|x l Hx _ IH]; cbn; [reflexivity | now rewrite Hx].
Qed.

Lemma filter_all (A : Type) (f : A -> bool) (l : list A) :
  Forall (fun x => f x = true) l -> List.filter f l = l.
Proof.
  induction 1 as [|x l Hx _ IH]; cbn; [reflexivity | now rewrite Hx, IH].
Qed.

(** With distinct product identifiers, the join finds one product per item. *)
Lemma join_one_product (ps : list Product.t) (pid : UUID) (p : Product.t) :
  NoDup (map Product.ID ps) ->
  find (fun q => N.eqb (Product.ID q) pid) ps = Some p ->
  List.filter (fun q => N.eqb pid (Product.ID q)) ps = [p].
Proof.
  induction ps as [|q ps IH]; cbn [map find List.filter]; [discriminate|].
  intros Hnd Hfind. inversion Hnd as [|? ? Hq Hps]; subst.
  rewrite (N.eqb_sym pid). destruct (N.eqb (Product.ID q) pid) eqn:E.
  - inversion Hfind; subst. f_equal. apply filter_none.
    apply Forall_forall. intros x Hx. apply N.eqb_neq. intro Heq.
    apply N.eqb_eq in E. apply Hq. rewrite E, Heq. now apply in_map.
  - now apply IH.
Qed.

(** What the history shows of the rows of a fresh order. *)
Lemma lines_of_item_rows (st : Store) (ids : nat -> UUID) (orderID : UUID) (now : Time)
  (items : list OrderItemRequest.t) (prices : list float64) (col : Column) :
  NoDup (map Product.ID (products st)) ->
  Forall2 (fun it pr => unit_price st (OrderItemRequest.ProductID it) = Some pr)
    items prices ->
  forall k : nat,
    map (fun i => (OrderItem.ProductID i, OrderItem.Quantity i, OrderItem.Price i))
      (map scan_order_item
         (flat_map
            (fun oi =>
               map (fun p => (oi, p))
                 (List.filter (fun p => N.eqb (OrderItemRow.product_id oi) (Product.ID p))
                    (products st)))
            (item_rows ids k orderID now (map col prices) items)))
    = lines_asked items (map col prices).
Proof.
  intros Hnd. induction 1 as [|it pr items prices Hpr _ IH]; intro k; [reflexivity|].
  cbn [map item_rows flat_map]. rewrite !map_app, IH.
  unfold unit_price, lookup_product in Hpr.
  destruct (find _ (products st)) as [p|] eqn:Hfind; [|discriminate].
  cbn [OrderItemRow.product_id].
  rewrite (join_one_product _ _ _ Hnd Hfind). reflexivity.
Qed.

(** X4.  The round trip of an order.  When no round trip fails, no other
    session writes, product identifiers are distinct and the identifier
    drawn for the order is not yet that of any item row, a [CreateOrder] on
    items that all exist followed by [GetUserOrders] for the same user shows
    one order more than before, among them the new order: with the returned
    identifier, status ["pending"], as its total what the column kept of
    the returned total, and exactly the requested lines, in whatever order
    (the query for the items of an order asks for none), each with its
    product, its quantity and what the column kept of the price read at the
    call. *)
Theorem CreateOrder_then_GetUserOrders
  (env : Env) (userID : UUID) (req : CreateOrderRequest.t) (s : Session)
  (prices : list float64) :
  reliable env -> quiet env ->
  NoDup (map Product.ID (products (committed s))) ->
  Forall (fun row => OrderItemRow.order_id row <> uuids env (minted s))
    (order_items (committed s)) ->
  Forall2 (fun it pr => unit_price (committed s) (OrderItemRequest.ProductID it) = Some pr)
    (CreateOrderRequest.Items req) prices ->
  exists (resp : CreateOrderResponse.t) (s' : Session) (before after : list Order.t)
         (o : Order.t),
    CreateOrder env userID req s = (inr resp, s')
    /\ fst (GetUserOrders env userID s) = inr before
    /\ fst (GetUserOrders env userID s') = inr after
    /\ List.length after = S (List.length before)
    /\ In o after
    /\ Order.ID o = CreateOrderResponse.OrderID resp
    /\ Order.TotalAmount o = numeric env (CreateOrderResponse.Total resp)
    /\ Order.Status o = "pending"
    /\ Permutation (lines_shown o)
         (lines_asked (CreateOrderRequest.Items req) (map (numeric env) prices)).
Proof.
  intros Hr Hq Hnd Hfresh Hprices.
  eexists. eexists. eexists. eexists. eexists.
  split; [apply (CreateOrder_ok env userID req s prices Hr Hq Hprices)|].
  rewrite !(GetUserOrders_calm env Hr Hq). cbn [fst committed].
  split; [reflexivity|]. split; [reflexivity|].
  split.
  - unfold user_orders, select_orders. rewrite !length_map.
    rewrite !(Permutation_length (order_by_desc_perm _ _ _)).
    cbn [orders]. rewrite filter_app, length_app. cbn [List.filter OrderRow.user_id].
    rewrite N.eqb_refl. cbn [List.length]. lia.
  - split.
    + unfold user_orders. apply in_map. apply in_select_orders. split.
      * cbn [orders]. apply in_or_app. right. now left.
      * reflexivity.
    + cbn [order_of Order.ID Order.TotalAmount Order.Status OrderRow.id
             OrderRow.total_amount OrderRow.status CreateOrderResponse.OrderID
             CreateOrderResponse.Total].
      split; [reflexivity|]. split; [reflexivity|]. split; [reflexivity|].
      unfold lines_shown, order_of. cbn [Order.Items OrderRow.id].
      unfold order_items_of, select_order_items.
      cbn [order_items products]. rewrite filter_app.
      rewrite (filter_none _ _ (order_items (committed s))).
      * cbn [app]. rewrite filter_all.
        -- rewrite (lines_of_item_rows _ _ _ _ _ _ (numeric env) Hnd Hprices).
           reflexivity.
        -- eapply Forall_impl; [|apply item_rows_order_id]. intros r Hrow. cbn beta.
           rewrite Hrow. apply N.eqb_refl.
      * eapply Forall_impl; [|exact Hfresh]. intros r Hrow. cbn beta.
        now apply N.eqb_neq.
Qed.

Lemma CreateOrder_then_GetUserOrders_witness :
  exists (resp : CreateOrderResponse.t) (s' : Session) (before after : list Order.t)
         (o : Order.t),
    CreateOrder decimal_store alice
      (CreateOrderRequest.mk [OrderItemRequest.mk 1%N 2; OrderItemRequest.mk 2%N 1])
      (connect catalog)
    = (inr resp, s')
    /\ fst (GetUserOrders decimal_store alice
              (connect catalog))
       = inr before
    /\ fst (GetUserOrders decimal_store alice s')
       = inr after
    /\ List.length after = S (List.length before)
    /\ In o after
    /\ Order.ID o = CreateOrderResponse.OrderID resp
    /\ Order.TotalAmount o = two_decimals (CreateOrderResponse.Total resp)
    /\ Order.Status o = "pending"
    /\ Permutation (lines_shown o)
         (lines_asked [OrderItemRequest.mk 1%N 2; OrderItemRequest.mk 2%N 1]
            (map two_decimals [10%float; 5%float])).
Proof.
  apply (CreateOrder_then_GetUserOrders decimal_store alice
           (CreateOrderRequest.mk [OrderItemRequest.mk 1%N 2; OrderItemRequest.mk 2%N 1])
           (connect catalog) [10%float; 5%float]).
  - intro n. reflexivity.
  - intros n st. reflexivity.
  - cbn. repeat constructor; cbn; intuition discriminate.
  - constructor.
  - repeat constructor.
Defined.

(** X5.  An order belongs to its user only.  When no round trip fails, no
    other session writes and the identifier drawn for the order is not that
    of an existing order, a [CreateOrder] by one user, successful or not,
    changes nothing in what [GetUserOrders] answers to any other user. *)
Theorem CreateOrder_keeps_other_histories
  (env : Env) (userID other : UUID) (req : CreateOrderRequest.t) (s : Session) :
  reliable env -> quiet env ->
  other <> userID ->
  ~ In (uuids env (minted s)) (map OrderRow.id (orders (committed s))) ->
  fst (GetUserOrders env other (snd (CreateOrder env userID req s)))
  = fst (GetUserOrders env other s).
Proof.
  intros Hr Hq Hother Hfresh. rewrite !(GetUserOrders_calm env Hr Hq). cbn [fst].
  f_equal.
  destruct (CreateOrder env userID req s) as [[e|resp] s'] eqn:Hrun; cbn [snd].
  - now rewrite (proj1 (CreateOrder_failure_is_atomic env Hq userID req s s' e Hrun)).
  - destruct (CreateOrder_success_commits env Hq userID req s s' resp Hrun)
      as (prices & _ & _ & -> & _).
    unfold user_orders.
    assert (Hsel : select_orders other
                     (mkStore (products (committed s))
                        (orders (committed s) ++
                           [OrderRow.mk (uuids env (minted s)) userID
                              (numeric env
                                 (sum_lines (lines_of prices (CreateOrderRequest.Items req))))
                              "pending" (clock env) (clock env)])
                        (order_items (committed s) ++
                           item_rows (uuids env) (S (minted s)) (uuids env (minted s))
                             (clock env) (map (numeric env) prices)
                             (CreateOrderRequest.Items req)))
                   = select_orders other (committed s)).
    { unfold select_orders. cbn [orders]. rewrite filter_app.
      cbn [List.filter OrderRow.user_id].
      assert (E : N.eqb userID other = false) by (apply N.eqb_neq; congruence).
      rewrite E. now rewrite app_nil_r. }
    rewrite Hsel. apply map_ext_in. intros row Hrow.
    apply in_select_orders in Hrow. destruct Hrow as [Hrow _].
    unfold order_of. f_equal. unfold order_items_of, select_order_items.
    cbn [order_items products]. rewrite filter_app.
    rewrite (filter_none _ _ (item_rows _ _ _ _ _ _)); [now rewrite app_nil_r|].
    eapply Forall_impl; [|apply item_rows_order_id]. intros r Hr'. cbn beta.
    rewrite Hr'. apply N.eqb_neq. intro Heq. apply Hfresh. rewrite Heq.
    now apply in_map.
Qed.

Lemma CreateOrder_keeps_other_histories_witness :
  fst (GetUserOrders (calm sample_ids 500) alice
         (snd (CreateOrder (calm sample_ids 500) 8%N
                 (CreateOrderRequest.mk [OrderItemRequest.mk 2%N 3]) after_purchase)))
  = fst (GetUserOrders (calm sample_ids 500) alice after_purchase).
Proof.
  apply (CreateOrder_keeps_other_histories (calm sample_ids 500) 8%N alice
           (CreateOrderRequest.mk [OrderItemRequest.mk 2%N 3]) after_purchase).
  - apply calm_reliable.
  - apply calm_quiet.
  - discriminate.
  - vm_compute. intuition discriminate.
Defined.

(* ================================================================= *)
(** * Further properties of the catalog service *)

(** ** Pages *)

Lemma firstn_app_skipn (A : Type) (a b : nat) :
  forall l : list A, firstn a l ++ firstn b (skipn a l) = firstn (a + b) l.
Proof.
  induction a as [|a IH]; intro l; [reflexivity|].
  destruct l as [|x l]; cbn.
  - now rewrite firstn_nil.
  - now rewrite IH.
Qed.

(** X8.  Consecutive pages tile the result.  When no round trip fails, no
    other session writes and creation times are distinct (the order of
    products created at the same time is the store's choice), the page of
    [l1] products at offset [o] followed by the page of [l2] products at
    offset [o + l1] is the page of [l1 + l2] products at offset [o]: no
    product is skipped or repeated between two pages. *)
Theorem GetProducts_pages_tile
  (env : Env) (q category : string) (l1 l2 o : Z) (s : Session) :
  reliable env -> quiet env ->
  NoDup (map Product.CreatedAt (products (committed s))) ->
  0 < l1 -> 0 < l2 -> 0 <= o ->
  exists page1 page2 both : list Product.t,
    fst (GetProducts env (ProductFilter.mk q category l1 o) s) = inr page1
    /\ fst (GetProducts env (ProductFilter.mk q category l2 (o + l1)) s) = inr page2
    /\ fst (GetProducts env (ProductFilter.mk q category (l1 + l2) o) s) = inr both
    /\ page1 ++ page2 = both.
Proof.
  intros Hr Hq _ H1 H2 Ho. rewrite !(GetProducts_calm env Hr Hq). cbn [fst].
  eexists. eexists. eexists. split; [reflexivity|]. split; [reflexivity|].
  split; [reflexivity|]. rewrite !select_products_paged.
  cbn [ProductFilter.Limit ProductFilter.Offset].
  change (selected (ProductFilter.mk q category l2 (o + l1)) (committed s))
    with (selected (ProductFilter.mk q category l1 o) (committed s)).
  change (selected (ProductFilter.mk q category (l1 + l2) o) (committed s))
    with (selected (ProductFilter.mk q category l1 o) (committed s)).
  set (all := selected (ProductFilter.mk q category l1 o) (committed s)).
  assert (E1 : (l1 >? 0) = true) by (apply Z.gtb_lt; lia).
  assert (E2 : (l2 >? 0) = true) by (apply Z.gtb_lt; lia).
  assert (E3 : (l1 + l2 >? 0) = true) by (apply Z.gtb_lt; lia).
  assert (E4 : (o + l1 >? 0) = true) by (apply Z.gtb_lt; lia).
  rewrite E1, E2, E3, E4.
  assert (Hskip : (if o >? 0 then skipn (Z.to_nat o) else fun l => l) all
                  = skipn (Z.to_nat o) all).
  { destruct (o >? 0) eqn:E; [reflexivity|].
    assert (o = 0) by (rewrite Z.gtb_ltb in E; apply Z.ltb_ge in E; lia). now subst. }
  rewrite Hskip.
  replace (Z.to_nat (o + l1)) with (Z.to_nat l1 + Z.to_nat o)%nat by lia.
  rewrite <- skipn_skipn.
  replace (Z.to_nat (l1 + l2)) with (Z.to_nat l1 + Z.to_nat l2)%nat by lia.
  apply firstn_app_skipn.
Qed.

Lemma GetProducts_pages_tile_witness :
  exists page1 page2 both : list Product.t,
    fst (GetProducts (calm sample_ids 500) (ProductFilter.mk "a" "" 1 0) (connect catalog))
    = inr page1
    /\ fst (GetProducts (calm sample_ids 500) (ProductFilter.mk "a" "" 1 (0 + 1))
              (connect catalog))
       = inr page2
    /\ fst (GetProducts (calm sample_ids 500) (ProductFilter.mk "a" "" (1 + 1) 0)
              (connect catalog))
       = inr both
    /\ page1 ++ page2 = both.
Proof.
  apply (GetProducts_pages_tile (calm sample_ids 500) "a" "" 1 1 0 (connect catalog)).
  - apply calm_reliable.
  - apply calm_quiet.
  - cbn. repeat constructor; cbn; intuition discriminate.
  - lia.
  - lia.
  - lia.
Defined.

(** X9.  The size of a page.  When no round trip fails and no other session
    writes, a call with a positive limit and a non-negative offset returns
    as many products as the limit allows and the selection still has after
    the offset: never more than the limit, and none at all, without any
    error, when the offset is at or past the end. *)
Theorem GetProducts_page_length
  (env : Env) (filter : ProductFilter.t) (s : Session) :
  reliable env -> quiet env ->
  0 < ProductFilter.Limit filter -> 0 <= ProductFilter.Offset filter ->
  exists rows : list Product.t,
    fst (GetProducts env filter s) = inr rows
    /\ List.length rows
       = Nat.min (Z.to_nat (ProductFilter.Limit filter))
           (List.length (selected filter (committed s))
            - Z.to_nat (ProductFilter.Offset filter))
    /\ (List.length (selected filter (committed s))
        <= Z.to_nat (ProductFilter.Offset filter) -> rows = [])%nat.
Proof.
  intros Hr Hq Hl Ho. rewrite (GetProducts_calm env Hr Hq). cbn [fst].
  eexists. split; [reflexivity|]. rewrite select_products_paged.
  assert (E1 : (ProductFilter.Limit filter >? 0) = true) by (apply Z.gtb_lt; lia).
  rewrite E1.
  assert (Hskip : (if ProductFilter.Offset filter >? 0
                   then skipn (Z.to_nat (ProductFilter.Offset filter))
                   else fun l => l) (selected filter (committed s))
                  = skipn (Z.to_nat (ProductFilter.Offset filter))
                      (selected filter (committed s))).
  { destruct (ProductFilter.Offset filter >? 0) eqn:E; [reflexivity|].
    assert (E0 : ProductFilter.Offset filter = 0)
      by (rewrite Z.gtb_ltb in E; apply Z.ltb_ge in E; lia).
    now rewrite E0. }
  rewrite Hskip. split.
  - now rewrite length_firstn, length_skipn.
  - intro Hpast. rewrite skipn_all2 by exact Hpast. apply firstn_nil.
Qed.

Lemma GetProducts_page_length_witness :
  exists rows : list Product.t,
    fst (GetProducts (calm sample_ids 500) (ProductFilter.mk "" "" 5 2) (connect catalog))
    = inr rows
    /\ List.length rows
       = Nat.min (Z.to_nat 5)
           (List.length (selected (ProductFilter.mk "" "" 5 2) catalog) - Z.to_nat 2)
    /\ (List.length (selected (ProductFilter.mk "" "" 5 2) catalog) <= Z.to_nat 2
        -> rows = [])%nat.
Proof.
  apply (GetProducts_page_length (calm sample_ids 500) (ProductFilter.mk "" "" 5 2)
           (connect catalog)).
  - apply calm_reliable.
  - apply calm_quiet.
  - cbn. lia.
  - cbn. lia.
Defined.

(** ** Looking a product up *)

(** X10.  When the round trip does not fail and no other session writes,
    [GetProduct] returns a product exactly when the catalog has one with the
    identifier asked for, and then a row of the catalog with that
    identifier; [ProductHandler.GetProduct] answers 200 in that case and 404
    in the other. *)
Theorem GetProduct_finds_by_id (env : Env) (id : UUID) (s : Session) :
  reliable env -> quiet env ->
  (forall p : Product.t,
     fst (GetProduct env id s) = inr p ->
     In p (products (committed s)) /\ Product.ID p = id)
  /\ ((exists p : Product.t, fst (GetProduct env id s) = inr p)
      <-> exists p : Product.t, In p (products (committed s)) /\ Product.ID p = id)
  /\ (ProductHandler_GetProduct env (Some id) s = 200
      <-> exists p : Product.t, In p (products (committed s)) /\ Product.ID p = id)
  /\ (ProductHandler_GetProduct env (Some id) s = 404
      <-> forall p : Product.t, In p (products (committed s)) -> Product.ID p <> id).
Proof.
  intros Hr Hq. unfold ProductHandler_GetProduct, GetProduct. calm_trip.
  unfold select_product.
  destruct (find (fun p => N.eqb (Product.ID p) id) (products (committed s))) as [p0|] eqn:E;
    cbn [fst].
  - apply find_some in E. destruct E as [Hin Hid]. apply N.eqb_eq in Hid.
    split; [|split; [|split]].
    + intros p H. inversion H; subst. now split.
    + split; [intros _; now exists p0 | intros _; now exists p0].
    + split; [intros _; now exists p0 | reflexivity].
    + split; [discriminate|]. intro H. exfalso. now apply (H p0 Hin).
  - assert (Hnone : forall p, In p (products (committed s)) -> Product.ID p <> id).
    { intros p Hin. apply N.eqb_neq. exact (find_none _ _ E p Hin). }
    split; [|split; [|split]].
    + discriminate.
    + split; [intros [p H]; discriminate | intros (p & Hin & Hid); now apply Hnone in Hin].
    + cbn. split; [discriminate | intros (p & Hin & Hid); now apply Hnone in Hin].
    + cbn. split; [intros _; exact Hnone | reflexivity].
Qed.

Lemma GetProduct_finds_by_id_witness :
  (forall p : Product.t,
     fst (GetProduct (calm sample_ids 500) 2%N (connect catalog)) = inr p ->
     In p (products (committed (connect catalog))) /\ Product.ID p = 2%N)
  /\ ((exists p : Product.t,
         fst (GetProduct (calm sample_ids 500) 2%N (connect catalog)) = inr p)
      <-> exists p : Product.t,
            In p (products (committed (connect catalog))) /\ Product.ID p = 2%N)
  /\ (ProductHandler_GetProduct (calm sample_ids 500) (Some 2%N) (connect catalog) = 200
      <-> exists p : Product.t,
            In p (products (committed (connect catalog))) /\ Product.ID p = 2%N)
  /\ (ProductHandler_GetProduct (calm sample_ids 500) (Some 2%N) (connect catalog) = 404
      <-> forall p : Product.t,
            In p (products (committed (connect catalog))) -> Product.ID p <> 2%N).
Proof.
  apply (GetProduct_finds_by_id (calm sample_ids 500) 2%N (connect catalog)).
  - apply calm_reliable.
  - apply calm_quiet.
Defined.

(* ================================================================= *)
(** * Properties of the web client's stores *)

(** ** The lines of the cart *)

Lemma find_id_none (id : string) (l : list Cart.CartItem.t) :
  find (fun item => String.eqb (Cart.CartItem.id item) id) l = None ->
  ~ In id (map Cart.CartItem.id l).
Proof.
  intros Hfind Hin. apply in_map_iff in Hin. destruct Hin as [item [Hid Hitem]].
  pose proof (find_none _ _ Hfind item Hitem) as H. cbn beta in H.
  rewrite Hid, String.eqb_refl in H. discriminate.
Qed.

Lemma find_id_some (id : string) (l : list Cart.CartItem.t) (item : Cart.CartItem.t) :
  find (fun item => String.eqb (Cart.CartItem.id item) id) l = Some item ->
  In id (map Cart.CartItem.id l).
Proof.
  intro Hfind. apply find_some in Hfind. destruct Hfind as [Hin Hid].
  apply String.eqb_eq in Hid. rewrite <- Hid. now apply in_map.
Qed.

Lemma ids_of_requantified (id : string) (q : Cart.CartItem.t -> float64)
  (l : list Cart.CartItem.t) :
  map Cart.CartItem.id
    (map (fun item =>
            if String.eqb (Cart.CartItem.id item) id
            then Cart.CartItem.mk (Cart.CartItem.id item) (Cart.CartItem.title item)
                   (Cart.CartItem.price item) (q item) (Cart.CartItem.image item)
            else item) l)
  = map Cart.CartItem.id l.
Proof.
  rewrite map_map. apply map_ext. intro item.
  now destruct (String.eqb (Cart.CartItem.id item) id).
Qed.

Lemma ids_of_filtered (f : Cart.CartItem.t -> bool) (l : list Cart.CartItem.t) :
  NoDup (map Cart.CartItem.id l) -> NoDup (map Cart.CartItem.id (List.filter f l)).
Proof.
  induction l as [|item l IH]; cbn [map List.filter]; [trivial|].
  intro Hnd. inversion Hnd as [|? ? Hnotin Hrest]; subst.
  destruct (f item); cbn [map]; [|now apply IH].
  constructor; [|now apply IH]. intro Hin. apply Hnotin.
  apply in_map_iff in Hin. destruct Hin as [x [Hx Hin]]. apply filter_In in Hin.
  rewrite <- Hx. apply in_map. now destruct Hin.
Qed.

Lemma step_keeps_ids_distinct (state : Cart.State) (a : Cart.Action) :
  NoDup (cart_ids state) -> NoDup (cart_ids (Cart.step state a)).
Proof.
  unfold cart_ids. intro Hnd. destruct a as [product|id|id quantity|]; cbn [Cart.step].
  - unfold Cart.addItem.
    destruct (find _ (Cart.items state)) as [item|] eqn:Hfind; cbn [Cart.items].
    + now rewrite (ids_of_requantified _
                     (fun item => PrimFloat.add (Cart.CartItem.quantity item) PrimFloat.one)).
    + rewrite map_app. cbn [map Cart.CartItem.id].
      apply NoDup_app; [exact Hnd | repeat constructor; intros [] |].
      intros x Hx [<-|[]]. exact (find_id_none _ _ Hfind Hx).
  - now apply ids_of_filtered.
  - unfold Cart.updateQuantity. destruct (PrimFloat.leb quantity PrimFloat.zero);
      cbn [Cart.items].
    + now apply ids_of_filtered.
    + now rewrite (ids_of_requantified _ (fun _ => quantity)).
  - constructor.
Qed.

Lemma run_snoc (actions : list Cart.Action) (a : Cart.Action) :
  Cart.run (actions ++ [a]) = Cart.step (Cart.run actions) a.
Proof. unfold Cart.run. now rewrite fold_left_app. Qed.

(** X11.  The cart never holds two lines for one product: after any run of
    [addItem], [removeItem], [updateQuantity] and [clearCart] from the
    empty cart, the identifiers of the lines are pairwise distinct; so the
    order the cart page posts at checkout names every product at most
    once. *)
Theorem cart_lines_are_distinct (actions : list Cart.Action) :
  NoDup (cart_ids (Cart.run actions))
  /\ forall (auth : Cart.AuthState) (orderData : list (string * float64)) (tok : string),
       Cart.handleCheckout auth (Cart.run actions) = Cart.PostOrder orderData tok ->
       NoDup (map fst orderData).
Proof.
  assert (Hnd : NoDup (cart_ids (Cart.run actions))).
  { induction actions as [|a actions IH] using rev_ind.
    - constructor.
    - rewrite run_snoc. now apply step_keeps_ids_distinct. }
  split; [exact Hnd|]. intros auth orderData tok. unfold Cart.handleCheckout.
  destruct (negb _ || negb _); [discriminate|].
  destruct (Nat.eqb _ 0); [discriminate|].
  destruct (Cart.token auth); [|discriminate].
  intro H. inversion H; subst. now rewrite map_map.
Qed.

(** X12.  The [total] field of the cart store is dead: no action of the
    store ever recomputes it, so after any run from the empty cart it is
    still 0 whatever the cart holds; the amount is only available through
    [getTotal]. *)
Theorem cart_total_field_is_never_updated (actions : list Cart.Action) :
  Cart.total (Cart.run actions) = PrimFloat.zero.
Proof.
  induction actions as [|a actions IH] using rev_ind; [reflexivity|].
  rewrite run_snoc. destruct a as [product|id|id quantity|]; cbn [Cart.step].
  - unfold Cart.addItem. now destruct (find _ _).
  - exact IH.
  - unfold Cart.updateQuantity. now destruct (PrimFloat.leb _ _).
  - reflexivity.
Qed.

Example cart_total_field_differs_from_getTotal :
  Cart.total (Cart.run [Cart.AddItem (Cart.CartProduct.mk "p1" "Salmon Treats" 10%float "s.png")])
  = 0%float
  /\ Cart.getTotal
       (Cart.run [Cart.AddItem (Cart.CartProduct.mk "p1" "Salmon Treats" 10%float "s.png")])
     = 10%float.
Proof. split; vm_compute; reflexivity. Qed.

(** X13.  What [addItem] does to the lines.  For a product not yet in the
    cart it appends one line with quantity 1 and the title, price and image
    passed.  For a product already in the cart it adds no line and changes
    nothing but quantities: every line keeps the title, price and image it
    was first added with, whatever is passed now, and only the lines of that
    product get their quantity increased by 1. *)
Theorem addItem_lines (product : Cart.CartProduct.t) (state : Cart.State) :
  (~ In (Cart.CartProduct.id product) (cart_ids state) ->
   Cart.items (Cart.addItem product state)
   = Cart.items state ++
       [Cart.CartItem.mk (Cart.CartProduct.id product) (Cart.CartProduct.title product)
          (Cart.CartProduct.price product) PrimFloat.one (Cart.CartProduct.image product)])
  /\ (In (Cart.CartProduct.id product) (cart_ids state) ->
      map (fun item => (Cart.CartItem.id item, Cart.CartItem.title item,
                        Cart.CartItem.price item, Cart.CartItem.image item))
        (Cart.items (Cart.addItem product state))
      = map (fun item => (Cart.CartItem.id item, Cart.CartItem.title item,
                          Cart.CartItem.price item, Cart.CartItem.image item))
          (Cart.items state)
      /\ map Cart.CartItem.quantity (Cart.items (Cart.addItem product state))
         = map (fun item =>
                  if String.eqb (Cart.CartItem.id item) (Cart.CartProduct.id product)
                  then PrimFloat.add (Cart.CartItem.quantity item) PrimFloat.one
                  else Cart.CartItem.quantity item)
             (Cart.items state)).
Proof.
  unfold Cart.addItem, cart_ids.
  destruct (find _ (Cart.items state)) as [item|] eqn:Hfind; cbn [Cart.items]; split.
  - intro Habsent. exfalso. apply Habsent. exact (find_id_some _ _ _ Hfind).
  - intros _. split; rewrite map_map; apply map_ext; intro x;
      now destruct (String.eqb (Cart.CartItem.id x) (Cart.CartProduct.id product)).
  - reflexivity.
  - intro Hin. exfalso. exact (find_id_none _ _ Hfind Hin).
Qed.

(** X14.  [updateQuantity] never adds a line.  With a quantity that is zero
    or negative it is [removeItem]; with any other quantity it sets that
    quantity on the lines of the product and touches nothing else; and for a
    product that is not in the cart it changes nothing, whatever the
    quantity. *)
Theorem updateQuantity_lines (id : string) (quantity : float64) (state : Cart.State) :
  (PrimFloat.leb quantity PrimFloat.zero = true ->
   Cart.updateQuantity id quantity state = Cart.removeItem id state)
  /\ (PrimFloat.leb quantity PrimFloat.zero = false ->
      Cart.items (Cart.updateQuantity id quantity state)
      = map (fun item =>
               if String.eqb (Cart.CartItem.id item) id
               then Cart.CartItem.mk (Cart.CartItem.id item) (Cart.CartItem.title item)
                      (Cart.CartItem.price item) quantity (Cart.CartItem.image item)
               else item)
          (Cart.items state))
  /\ (~ In id (cart_ids state) ->
      Cart.items (Cart.updateQuantity id quantity state) = Cart.items state)
  /\ (List.length (Cart.items (Cart.updateQuantity id quantity state))
      <= List.length (Cart.items state))%nat.
Proof.
  unfold Cart.updateQuantity, Cart.removeItem, cart_ids.
  assert (Hother : ~ In id (map Cart.CartItem.id (Cart.items state)) ->
                   Forall (fun item => String.eqb (Cart.CartItem.id item) id = false)
                     (Cart.items state)).
  { intro Habsent. apply Forall_forall. intros item Hitem. apply String.eqb_neq.
    intro Hid. apply Habsent. rewrite <- Hid. now apply in_map. }
  destruct (PrimFloat.leb quantity PrimFloat.zero); cbn [Cart.items];
    (split; [|split; [|split]]); try discriminate; try reflexivity.
  - intro Habsent. apply filter_all.
    eapply Forall_impl; [|exact (Hother Habsent)]. intros item H. cbn beta. now rewrite H.
  - apply filter_length_le.
  - intro Habsent. rewrite <- (map_id (Cart.items state)) at 2.
    apply map_ext_Forall. eapply Forall_impl; [|exact (Hother Habsent)].
    intros item H. cbn beta. now rewrite H.
  - now rewrite length_map.
Qed.

(** X15.  The cart page posts an order only for a signed-in user and a cart
    that is not empty: after any run of [login] and [logout] on the session
    store, [handleCheckout] posts only if the store says the user is
    authenticated, with the token of the last [login], which is not empty,
    and with exactly one entry per cart line, at least one.  (The service
    accepts an order without items; this client never sends one.) *)
Theorem checkout_needs_login_and_items
  (logins : list AuthAction) (state : Cart.State)
  (orderData : list (string * float64)) (tok : string) :
  Cart.handleCheckout (auth_run logins) state = Cart.PostOrder orderData tok ->
  Cart.isAuthenticated (auth_run logins) = true
  /\ Cart.token (auth_run logins) = Some tok
  /\ tok <> ""
  /\ orderData <> []
  /\ orderData
     = map (fun item => (Cart.CartItem.id item, Cart.CartItem.quantity item))
         (Cart.items state).
Proof.
  assert (Hinv : Cart.isAuthenticated (auth_run logins) = true
                 <-> Cart.token (auth_run logins) <> None).
  { induction logins as [|a logins IH] using rev_ind.
    - cbn. split; [discriminate | congruence].
    - unfold auth_run. rewrite fold_left_app. cbn [fold_left].
      destruct a; cbn; split; congruence. }
  unfold Cart.handleCheckout.
  destruct (Cart.token (auth_run logins)) as [t|] eqn:Htok; cbn [Cart.truthy_string].
  - destruct (negb (Cart.truthy_user _) || negb (negb (String.eqb t ""))) eqn:Hguard;
      [discriminate|].
    apply orb_false_iff in Hguard. destruct Hguard as [_ Hnonempty].
    rewrite negb_involutive in Hnonempty. apply String.eqb_neq in Hnonempty.
    destruct (Cart.items state) as [|item rest] eqn:Hitems; cbn [List.length Nat.eqb];
      [discriminate|].
    intro H. inversion H; subst. split; [apply Hinv; discriminate|].
    repeat split; try assumption. discriminate.
  - rewrite orb_true_r. discriminate.
Qed.

Lemma checkout_needs_login_and_items_witness :
  Cart.isAuthenticated
    (auth_run [Logout; Login "t0k3n" (Cart.mkUser "u1" "cat@example.com" "2024")])
  = true
  /\ Cart.token
       (auth_run [Logout; Login "t0k3n" (Cart.mkUser "u1" "cat@example.com" "2024")])
     = Some "t0k3n"
  /\ "t0k3n" <> ""
  /\ [("p1", 1%float)] <> []
  /\ [("p1", 1%float)]
     = map (fun item => (Cart.CartItem.id item, Cart.CartItem.quantity item))
         (Cart.items
            (Cart.run [Cart.AddItem (Cart.CartProduct.mk "p1" "Wand" 5%float "w.png")])).
Proof.
  apply (checkout_needs_login_and_items
           [Logout; Login "t0k3n" (Cart.mkUser "u1" "cat@example.com" "2024")]
           (Cart.run [Cart.AddItem (Cart.CartProduct.mk "p1" "Wand" 5%float "w.png")])
           [("p1", 1%float)] "t0k3n").
  vm_compute. reflexivity.
Defined.

(* ================================================================= *)
(** * Properties of registration and login *)

Lemma auth_trip_calm (A : Type) (w : Auth.World)
  (stmt : list Auth.User -> (error + A) * list Auth.User) (s : Auth.Session) :
  Auth.reliable w -> Auth.quiet w ->
  Auth.trip w stmt s
  = (fst (stmt (Auth.users s)),
     Auth.mkSession (snd (stmt (Auth.users s))) (S (Auth.trips s)) (Auth.minted s)
       (Auth.ticks s) (Auth.salted s)).
Proof.
  intros Hr Hq. unfold Auth.trip. rewrite Hr, Hq. now destruct (stmt (Auth.users s)).
Qed.

Lemma auth_trip_quiet (A : Type) (w : Auth.World)
  (stmt : list Auth.User -> (error + A) * list Auth.User) (s : Auth.Session) :
  Auth.quiet w ->
  Auth.trip w stmt s
  = (match Auth.fault w (Auth.trips s) with
     | Some f => inl (ErrStore f)
     | None => fst (stmt (Auth.users s))
     end,
     Auth.mkSession
       (match Auth.fault w (Auth.trips s) with
        | Some _ => Auth.users s
        | None => snd (stmt (Auth.users s))
        end)
       (S (Auth.trips s)) (Auth.minted s) (Auth.ticks s) (Auth.salted s)).
Proof.
  intro Hq. unfold Auth.trip. rewrite Hq.
  destruct (Auth.fault w (Auth.trips s)); [reflexivity|].
  now destruct (stmt (Auth.users s)).
Qed.

Lemma existsb_email (email : string) (us : list Auth.User) :
  existsb (fun u => String.eqb (Auth.Email u) email) us = true
  <-> In email (map Auth.Email us).
Proof.
  rewrite existsb_exists, in_map_iff. split.
  - intros [u [Hin Heq]]. apply String.eqb_eq in Heq. now exists u.
  - intros [u [Heq Hin]]. exists u. split; [assumption|]. now apply String.eqb_eq.
Qed.

Lemma find_new_user (email : string) (us : list Auth.User) (u : Auth.User) :
  ~ In email (map Auth.Email us) -> Auth.Email u = email ->
  find (fun x => String.eqb (Auth.Email x) email) (us ++ [u]) = Some u.
Proof.
  intros Hnew Hu. induction us as [|x us IH]; cbn [app find].
  - now rewrite Hu, String.eqb_refl.
  - destruct (String.eqb (Auth.Email x) email) eqn:E.
    + exfalso. apply Hnew. apply String.eqb_eq in E. left. exact E.
    + apply IH. intro Hin. apply Hnew. now right.
Qed.

(** X16.  Registering, then logging in.  When no round trip fails, nobody
    else writes, the email is not registered yet, [bcrypt] produces a hash
    that it accepts for the same password, and the token can be signed:
    [RegisterUser] adds one user carrying the email and that hash (never the
    password itself unless [bcrypt] returns it), and a [LoginUser] with the
    same email and password then succeeds and returns that very user with
    the token signed over its identifier, its email and an expiry seven days
    after the login. *)
Theorem register_then_login
  (w : Auth.World) (jwtSecret : string) (req : Auth.Credentials) (s : Auth.Session)
  (hash tok : string) :
  Auth.reliable w -> Auth.quiet w ->
  ~ In (Auth.req_Email req) (map Auth.Email (Auth.users s)) ->
  Auth.GenerateFromPassword w (Auth.salted s) (Auth.req_Password req) = inr hash ->
  Auth.CompareHashAndPassword w hash (Auth.req_Password req) = true ->
  Auth.SignedString w jwtSecret
    (Auth.mkClaims (Auth.uuids w (Auth.minted s)) (Auth.req_Email req)
       (Auth.now w (S (S (Auth.ticks s))) + 604800))
  = inr tok ->
  exists (u : Auth.User) (s1 s2 : Auth.Session),
    Auth.RegisterUser w req s = (inr u, s1)
    /\ u = Auth.mkUser (Auth.uuids w (Auth.minted s)) (Auth.req_Email req) hash
             (Auth.now w (Auth.ticks s)) (Auth.now w (S (Auth.ticks s)))
    /\ Auth.users s1 = Auth.users s ++ [u]
    /\ Auth.LoginUser w jwtSecret req s1 = (inr (Auth.mkAuthResponse tok u), s2)
    /\ Auth.users s2 = Auth.users s1.
Proof.
  intros Hr Hq Hnew Hhash Hcheck Hsign.
  assert (Hex : existsb (fun u => String.eqb (Auth.Email u) (Auth.req_Email req))
                  (Auth.users s) = false).
  { apply not_true_is_false. intro H. apply Hnew. now apply existsb_email. }
  eexists. eexists. eexists.
  split.
  { unfold Auth.RegisterUser. rewrite (auth_trip_calm _ _ _ _ Hr Hq).
    cbn [Auth.select_exists fst snd]. rewrite Hex.
    cbn [Auth.salted Auth.users Auth.trips Auth.minted Auth.ticks]. rewrite Hhash.
    rewrite (auth_trip_calm _ _ _ _ Hr Hq). cbn [Auth.insert_user fst snd Auth.users].
    reflexivity. }
  split; [reflexivity|]. split; [reflexivity|].
  unfold Auth.LoginUser. rewrite (auth_trip_calm _ _ _ _ Hr Hq).
  cbn [Auth.select_user fst snd Auth.users].
  rewrite (find_new_user (Auth.req_Email req) (Auth.users s)
             (Auth.mkUser (Auth.uuids w (Auth.minted s)) (Auth.req_Email req) hash
                (Auth.now w (Auth.ticks s)) (Auth.now w (S (Auth.ticks s))))
             Hnew eq_refl).
  cbn [Auth.PasswordHash Auth.ID Auth.Email Auth.ticks Auth.users]. rewrite Hcheck.
  cbn [negb]. change (3600 * 24 * 7) with 604800. rewrite Hsign. split; reflexivity.
Qed.

Lemma register_then_login_witness :
  exists (u : Auth.User) (s1 s2 : Auth.Session),
    Auth.RegisterUser Auth.toy (Auth.mkCredentials "cat@example.com" "purr")
      (Auth.connect [])
    = (inr u, s1)
    /\ u = Auth.mkUser 500%N "cat@example.com" "hash:purr" 1000 1001
    /\ Auth.users s1 = [] ++ [u]
    /\ Auth.LoginUser Auth.toy "devsecret" (Auth.mkCredentials "cat@example.com" "purr") s1
       = (inr (Auth.mkAuthResponse "devsecret.cat@example.com" u), s2)
    /\ Auth.users s2 = Auth.users s1.
Proof.
  apply (register_then_login Auth.toy "devsecret"
           (Auth.mkCredentials "cat@example.com" "purr") (Auth.connect [])
           "hash:purr" "devsecret.cat@example.com").
  - intro n. reflexivity.
  - intros n us. reflexivity.
  - intros [].
  - reflexivity.
  - reflexivity.
  - reflexivity.
Defined.

(** X17.  One account per email.  While nobody else writes to [users],
    whatever round trips fail and whatever [bcrypt] answers: [RegisterUser]
    keeps the emails of the table pairwise distinct; when it returns a user,
    the email was not registered before, the user carries it, and the table
    has grown by exactly that user; when it returns an error, the table is
    as it was. *)
Theorem RegisterUser_one_account_per_email
  (w : Auth.World) (req : Auth.Credentials) (s : Auth.Session) :
  Auth.quiet w ->
  NoDup (map Auth.Email (Auth.users s)) ->
  NoDup (map Auth.Email (Auth.users (snd (Auth.RegisterUser w req s))))
  /\ (forall u : Auth.User,
        fst (Auth.RegisterUser w req s) = inr u ->
        ~ In (Auth.req_Email req) (map Auth.Email (Auth.users s))
        /\ Auth.Email u = Auth.req_Email req
        /\ Auth.users (snd (Auth.RegisterUser w req s)) = Auth.users s ++ [u])
  /\ (forall e : error,
        fst (Auth.RegisterUser w req s) = inl e ->
        Auth.users (snd (Auth.RegisterUser w req s)) = Auth.users s).
Proof.
  intros Hq Hnodup. unfold Auth.RegisterUser.
  rewrite (auth_trip_quiet _ _ _ _ Hq).
  destruct (Auth.fault w (Auth.trips s)) as [f|] eqn:Hf1; cbn [fst snd Auth.users].
  { split; [assumption|]. split; [discriminate | reflexivity]. }
  cbn [Auth.select_exists fst snd].
  destruct (existsb _ (Auth.users s)) eqn:Hex; cbn [fst snd Auth.users].
  { split; [assumption|]. split; [discriminate | reflexivity]. }
  assert (Hnew : ~ In (Auth.req_Email req) (map Auth.Email (Auth.users s))).
  { intro Hin. apply existsb_email in Hin. congruence. }
  cbn [Auth.salted Auth.trips Auth.minted Auth.ticks].
  destruct (Auth.GenerateFromPassword w (Auth.salted s) (Auth.req_Password req))
    as [err|hashedPassword]; cbn [fst snd Auth.users].
  { split; [assumption|]. split; [discriminate | reflexivity]. }
  rewrite (auth_trip_quiet _ _ _ _ Hq). cbn [Auth.trips Auth.users Auth.insert_user fst snd].
  destruct (Auth.fault w (S (Auth.trips s))) as [f|] eqn:Hf2; cbn [fst snd Auth.users].
  { split; [assumption|]. split; [discriminate | reflexivity]. }
  split.
  - rewrite map_app. cbn [map Auth.Email].
    apply NoDup_app; [assumption | repeat constructor; intros [] |].
    intros e Hin [He|[]]. subst e. now apply Hnew.
  - split; [|discriminate]. intros u Hu. inversion Hu; subst u. now repeat split.
Qed.

Lemma RegisterUser_one_account_per_email_witness :
  NoDup
    (map Auth.Email
       (Auth.users
          (snd (Auth.RegisterUser Auth.toy (Auth.mkCredentials "cat@example.com" "purr")
                  (Auth.connect [Auth.mkUser 7%N "dog@example.com" "hash:woof" 1 1])))))
  /\ (forall u : Auth.User,
        fst (Auth.RegisterUser Auth.toy (Auth.mkCredentials "cat@example.com" "purr")
               (Auth.connect [Auth.mkUser 7%N "dog@example.com" "hash:woof" 1 1]))
        = inr u ->
        ~ In "cat@example.com"
            (map Auth.Email
               (Auth.users (Auth.connect [Auth.mkUser 7%N "dog@example.com" "hash:woof" 1 1])))
        /\ Auth.Email u = "cat@example.com"
        /\ Auth.users
             (snd (Auth.RegisterUser Auth.toy (Auth.mkCredentials "cat@example.com" "purr")
                     (Auth.connect [Auth.mkUser 7%N "dog@example.com" "hash:woof" 1 1])))
           = Auth.users (Auth.connect [Auth.mkUser 7%N "dog@example.com" "hash:woof" 1 1])
             ++ [u])
  /\ (forall e : error,
        fst (Auth.RegisterUser Auth.toy (Auth.mkCredentials "cat@example.com" "purr")
               (Auth.connect [Auth.mkUser 7%N "dog@example.com" "hash:woof" 1 1]))
        = inl e ->
        Auth.users
          (snd (Auth.RegisterUser Auth.toy (Auth.mkCredentials "cat@example.com" "purr")
                  (Auth.connect [Auth.mkUser 7%N "dog@example.com" "hash:woof" 1 1])))
        = Auth.users (Auth.connect [Auth.mkUser 7%N "dog@example.com" "hash:woof" 1 1])).
Proof.
  apply (RegisterUser_one_account_per_email Auth.toy
           (Auth.mkCredentials "cat@example.com" "purr")
           (Auth.connect [Auth.mkUser 7%N "dog@example.com" "hash:woof" 1 1])).
  - intros n us. reflexivity.
  - cbn. repeat constructor. intros [].
Defined.

(** X18.  A registered email is refused before anything else happens: when
    the email of the request is already in [users] and the existence query
    goes through, [RegisterUser] returns the error [user already exists]
    after that single round trip, without hashing the password, drawing an
    identifier or reading the clock, the table is as it was, and
    [AuthHandler.Register] answers 409, whatever the password. *)
Theorem RegisterUser_known_email_conflict
  (w : Auth.World) (req : Auth.Credentials) (s : Auth.Session) :
  Auth.quiet w ->
  Auth.fault w (Auth.trips s) = None ->
  In (Auth.req_Email req) (map Auth.Email (Auth.users s)) ->
  Auth.RegisterUser w req s
  = (inl (ErrNew "user already exists"),
     Auth.mkSession (Auth.users s) (S (Auth.trips s)) (Auth.minted s) (Auth.ticks s)
       (Auth.salted s))
  /\ Auth.Register_status w (Some req) s = 409.
Proof.
  intros Hq Hf Hin. apply existsb_email in Hin.
  assert (H : Auth.RegisterUser w req s
              = (inl (ErrNew "user already exists"),
                 Auth.mkSession (Auth.users s) (S (Auth.trips s)) (Auth.minted s)
                   (Auth.ticks s) (Auth.salted s))).
  { unfold Auth.RegisterUser. rewrite (auth_trip_quiet _ _ _ _ Hq), Hf.
    cbn [Auth.select_exists fst snd]. now rewrite Hin. }
  split; [exact H|]. unfold Auth.Register_status. rewrite H. reflexivity.
Qed.

Lemma RegisterUser_known_email_conflict_witness :
  Auth.RegisterUser Auth.toy (Auth.mkCredentials "dog@example.com" "other")
    (Auth.connect [Auth.mkUser 7%N "dog@example.com" "hash:woof" 1 1])
  = (inl (ErrNew "user already exists"),
     Auth.mkSession
       (Auth.users (Auth.connect [Auth.mkUser 7%N "dog@example.com" "hash:woof" 1 1]))
       (S (Auth.trips (Auth.connect [Auth.mkUser 7%N "dog@example.com" "hash:woof" 1 1])))
       (Auth.minted (Auth.connect [Auth.mkUser 7%N "dog@example.com" "hash:woof" 1 1]))
       (Auth.ticks (Auth.connect [Auth.mkUser 7%N "dog@example.com" "hash:woof" 1 1]))
       (Auth.salted (Auth.connect [Auth.mkUser 7%N "dog@example.com" "hash:woof" 1 1])))
  /\ Auth.Register_status Auth.toy (Some (Auth.mkCredentials "dog@example.com" "other"))
       (Auth.connect [Auth.mkUser 7%N "dog@example.com" "hash:woof" 1 1])
     = 409.
Proof.
  apply (RegisterUser_known_email_conflict Auth.toy
           (Auth.mkCredentials "dog@example.com" "other")
           (Auth.connect [Auth.mkUser 7%N "dog@example.com" "hash:woof" 1 1])).
  - intros n us. reflexivity.
  - reflexivity.
  - cbn. left. reflexivity.
Defined.

(** X19.  Login.  While nobody else writes to [users]: [LoginUser] never
    changes the table; a successful login returns a user of the table with
    the email of the request whose stored hash [bcrypt] accepts for the
    password of the request; and an unknown email, a password the stored
    hashes of that email do not accept, and a failure of the query itself
    (a lost connection, a cancelled context) all give the same error,
    [invalid credentials], which [AuthHandler.Login] answers with 401. *)
Theorem LoginUser_failures_look_alike
  (w : Auth.World) (jwtSecret : string) (req : Auth.Credentials) (s : Auth.Session) :
  Auth.quiet w ->
  Auth.users (snd (Auth.LoginUser w jwtSecret req s)) = Auth.users s
  /\ (forall resp : Auth.AuthResponse,
        fst (Auth.LoginUser w jwtSecret req s) = inr resp ->
        In (Auth.AuthUser resp) (Auth.users s)
        /\ Auth.Email (Auth.AuthUser resp) = Auth.req_Email req
        /\ Auth.CompareHashAndPassword w (Auth.PasswordHash (Auth.AuthUser resp))
             (Auth.req_Password req) = true)
  /\ (Auth.fault w (Auth.trips s) <> None
      \/ ~ In (Auth.req_Email req) (map Auth.Email (Auth.users s))
      \/ (forall u : Auth.User,
            In u (Auth.users s) -> Auth.Email u = Auth.req_Email req ->
            Auth.CompareHashAndPassword w (Auth.PasswordHash u) (Auth.req_Password req)
            = false) ->
      fst (Auth.LoginUser w jwtSecret req s) = inl (ErrNew "invalid credentials")
      /\ Auth.Login_status w jwtSecret (Some req) s = 401).
Proof.
  intro Hq. unfold Auth.Login_status, Auth.LoginUser.
  rewrite (auth_trip_quiet _ _ _ _ Hq).
  destruct (Auth.fault w (Auth.trips s)) as [f|] eqn:Hf; cbn [fst snd Auth.users].
  { split; [reflexivity|]. split; [discriminate|]. intros _. now split. }
  cbn [Auth.select_user fst snd].
  destruct (find (fun u => String.eqb (Auth.Email u) (Auth.req_Email req)) (Auth.users s))
    as [user|] eqn:Hfind; cbn [fst snd Auth.users].
  - apply find_some in Hfind. destruct Hfind as [Hin Hemail]. apply String.eqb_eq in Hemail.
    destruct (Auth.CompareHashAndPassword w (Auth.PasswordHash user) (Auth.req_Password req))
      eqn:Hcmp; cbn [negb fst snd Auth.users].
    + destruct (Auth.SignedString w jwtSecret _) as [err|tokenString];
        cbn [fst snd Auth.users].
      * split; [reflexivity|]. split; [discriminate|].
        intros [H|[H|H]]; [congruence | | ].
        -- exfalso. apply H. rewrite <- Hemail. now apply in_map.
        -- rewrite (H user Hin Hemail) in Hcmp. discriminate.
      * split; [reflexivity|]. split.
        -- intros resp Hresp. inversion Hresp; subst resp. cbn [Auth.AuthUser].
           now repeat split.
        -- intros [H|[H|H]]; [congruence | | ].
           ++ exfalso. apply H. rewrite <- Hemail. now apply in_map.
           ++ rewrite (H user Hin Hemail) in Hcmp. discriminate.
    + split; [reflexivity|]. split; [discriminate|]. intros _. now split.
  - split; [reflexivity|]. split; [discriminate|]. intros _. now split.
Qed.

Lemma LoginUser_failures_look_alike_witness :
  Auth.users
    (snd (Auth.LoginUser
            (Auth.mkWorld (fun _ => Some ConnLost) (fun _ us => us) (fun _ => 0%N)
               (fun _ => 0) (fun _ pw => inr pw) String.eqb (fun _ _ => inr "jwt"))
            "devsecret" (Auth.mkCredentials "dog@example.com" "woof")
            (Auth.connect [Auth.mkUser 7%N "dog@example.com" "woof" 1 1])))
  = Auth.users (Auth.connect [Auth.mkUser 7%N "dog@example.com" "woof" 1 1])
  /\ (forall resp : Auth.AuthResponse,
        fst (Auth.LoginUser
               (Auth.mkWorld (fun _ => Some ConnLost) (fun _ us => us) (fun _ => 0%N)
                  (fun _ => 0) (fun _ pw => inr pw) String.eqb (fun _ _ => inr "jwt"))
               "devsecret" (Auth.mkCredentials "dog@example.com" "woof")
               (Auth.connect [Auth.mkUser 7%N "dog@example.com" "woof" 1 1]))
        = inr resp ->
        In (Auth.AuthUser resp)
          (Auth.users (Auth.connect [Auth.mkUser 7%N "dog@example.com" "woof" 1 1]))
        /\ Auth.Email (Auth.AuthUser resp) = "dog@example.com"
        /\ String.eqb (Auth.PasswordHash (Auth.AuthUser resp)) "woof" = true)
  /\ (Some ConnLost <> None
      \/ ~ In "dog@example.com"
             (map Auth.Email
                (Auth.users (Auth.connect [Auth.mkUser 7%N "dog@example.com" "woof" 1 1])))
      \/ (forall u : Auth.User,
            In u (Auth.users (Auth.connect [Auth.mkUser 7%N "dog@example.com" "woof" 1 1])) ->
            Auth.Email u = "dog@example.com" ->
            String.eqb (Auth.PasswordHash u) "woof" = false) ->
      fst (Auth.LoginUser
             (Auth.mkWorld (fun _ => Some ConnLost) (fun _ us => us) (fun _ => 0%N)
                (fun _ => 0) (fun _ pw => inr pw) String.eqb (fun _ _ => inr "jwt"))
             "devsecret" (Auth.mkCredentials "dog@example.com" "woof")
             (Auth.connect [Auth.mkUser 7%N "dog@example.com" "woof" 1 1]))
      = inl (ErrNew "invalid credentials")
      /\ Auth.Login_status
           (Auth.mkWorld (fun _ => Some ConnLost) (fun _ us => us) (fun _ => 0%N)
              (fun _ => 0) (fun _ pw => inr pw) String.eqb (fun _ _ => inr "jwt"))
           "devsecret" (Some (Auth.mkCredentials "dog@example.com" "woof"))
           (Auth.connect [Auth.mkUser 7%N "dog@example.com" "woof" 1 1])
         = 401).
Proof.
  apply (LoginUser_failures_look_alike
           (Auth.mkWorld (fun _ => Some ConnLost) (fun _ us => us) (fun _ => 0%N)
              (fun _ => 0) (fun _ pw => inr pw) String.eqb (fun _ _ => inr "jwt"))
           "devsecret" (Auth.mkCredentials "dog@example.com" "woof")
           (Auth.connect [Auth.mkUser 7%N "dog@example.com" "woof" 1 1])).
  intros n us. reflexivity.
Defined.

(** With the right password and a lost connection, the answer is 401, as
    for a wrong password; with the connection up it is 200. *)
Example Login_store_failure_is_401 :
  Auth.Login_status
    (Auth.mkWorld (fun _ => Some ConnLost) (fun _ us => us) (fun _ => 0%N)
       (fun _ => 0) (fun _ pw => inr pw) String.eqb (fun _ _ => inr "jwt"))
    "devsecret" (Some (Auth.mkCredentials "dog@example.com" "woof"))
    (Auth.connect [Auth.mkUser 7%N "dog@example.com" "woof" 1 1]) = 401
  /\ Auth.Login_status
       (Auth.mkWorld (fun _ => None) (fun _ us => us) (fun _ => 0%N)
          (fun _ => 0) (fun _ pw => inr pw) String.eqb (fun _ _ => inr "jwt"))
       "devsecret" (Some (Auth.mkCredentials "dog@example.com" "woof"))
       (Auth.connect [Auth.mkUser 7%N "dog@example.com" "woof" 1 1]) = 200.
Proof. split; vm_compute; reflexivity. Qed.

(* ================================================================= *)
(** * Properties of the seeding of the catalog *)

Lemma read_seed_first (host : Seed.Host) (pre post : list string) (path data : string)
  (seedData : string) (err : option error) :
  Forall (fun p => exists e, Seed.ReadFile host p = inl e) pre ->
  Seed.ReadFile host path = inr data ->
  Seed.read_seed host (pre ++ path :: post) seedData err = (data, None).
Proof.
  intros Hpre Hpath. revert seedData err.
  induction Hpre as [|p pre [e He] _ IH]; intros seedData err; cbn [app Seed.read_seed].
  - now rewrite Hpath.
  - rewrite He. apply IH.
Qed.

Lemma insert_all_quiet (env : Env) (host : Seed.Host) (ps : list Seed.Product) (s : Session) :
  quiet env ->
  (forall i, (i < List.length ps)%nat -> fault env (trips s + i)%nat = None) ->
  Seed.insert_all env host ps s
  = (None,
     mkSession
       (mkStore (products (committed s) ++ Seed.rows (numeric env) host (trips s) ps)
          (orders (committed s)) (order_items (committed s)))
       (trips s + List.length ps)%nat (minted s) (tx s)).
Proof.
  intro Hq. revert s. induction ps as [|p ps IH]; intros s Hok; cbn [Seed.insert_all Seed.rows].
  - destruct s as [[ps0 os0 is0] n m t]. cbn. now rewrite app_nil_r, Nat.add_0_r.
  - unfold Seed.db_Exec. rewrite Hq.
    pose proof (Hok 0%nat ltac:(cbn; lia)) as H0. rewrite Nat.add_0_r in H0. rewrite H0.
    rewrite IH.
    + cbn [committed trips minted tx products orders order_items List.length].
      rewrite <- app_assoc.
      replace (S (trips s) + List.length ps)%nat with (trips s + S (List.length ps))%nat
        by lia.
      reflexivity.
    + intros i Hi. cbn [trips].
      replace (S (trips s) + i)%nat with (trips s + S i)%nat by lia.
      apply Hok. cbn. lia.
Qed.

Lemma insert_all_fault (env : Env) (host : Seed.Host) (ps : list Seed.Product) (s : Session)
  (k : nat) (product : Seed.Product) (f : StoreFault) :
  quiet env ->
  nth_error ps k = Some product ->
  (forall i, (i < k)%nat -> fault env (trips s + i)%nat = None) ->
  fault env (trips s + k)%nat = Some f ->
  Seed.insert_all env host ps s
  = (Some (Seed.InsertProduct (Seed.Title product) (ErrStore f)),
     mkSession
       (mkStore (products (committed s) ++ Seed.rows (numeric env) host (trips s) (firstn k ps))
          (orders (committed s)) (order_items (committed s)))
       (S (trips s + k)) (minted s) (tx s)).
Proof.
  intro Hq. revert s k. induction ps as [|p ps IH]; intros s k Hnth Hok Hf.
  - destruct k; discriminate.
  - destruct k as [|k]; cbn [nth_error] in Hnth; cbn [Seed.insert_all firstn Seed.rows].
    + inversion Hnth; subst p. unfold Seed.db_Exec. rewrite Hq.
      rewrite Nat.add_0_r in *. rewrite Hf.
      destruct s as [[ps0 os0 is0] n m t]. cbn. now rewrite app_nil_r.
    + unfold Seed.db_Exec. rewrite Hq.
      pose proof (Hok 0%nat ltac:(lia)) as H0. rewrite Nat.add_0_r in H0. rewrite H0.
      rewrite (IH _ k Hnth).
      * cbn [committed trips minted tx products orders order_items].
        rewrite <- app_assoc.
        replace (S (trips s) + k)%nat with (trips s + S k)%nat by lia.
        reflexivity.
      * intros i Hi. cbn [trips].
        replace (S (trips s) + i)%nat with (trips s + S i)%nat by lia.
        apply Hok. lia.
      * cbn [trips].
        replace (S (trips s) + k)%nat with (trips s + S k)%nat by lia.
        exact Hf.
Qed.

Lemma rows_titles (col : Column) (host : Seed.Host) (n : nat) (ps : list Seed.Product) :
  map Product.Title (Seed.rows col host n ps) = map Seed.Title ps
  /\ map Product.Price (Seed.rows col host n ps) = map (fun p => col (Seed.Price p)) ps
  /\ map Product.StockQuantity (Seed.rows col host n ps) = map Seed.StockQuantity ps.
Proof.
  revert n. induction ps as [|p ps IH]; intro n; cbn [Seed.rows map].
  - now repeat split.
  - destruct (IH (S n)) as (-> & -> & ->). unfold Seed.row.
    destruct (Seed.defaults host n) as [[id c] u]. cbn. now repeat split.
Qed.

Lemma rows_length (col : Column) (host : Seed.Host) (n : nat) (ps : list Seed.Product) :
  List.length (Seed.rows col host n ps) = List.length ps.
Proof.
  revert n. induction ps as [|p ps IH]; intro n; cbn; [reflexivity | now rewrite IH].
Qed.

Lemma SeedProducts_skips (env : Env) (host : Seed.Host) (s : Session) :
  quiet env -> fault env (trips s) = None -> products (committed s) <> [] ->
  Seed.SeedProducts env host s
  = (None, mkSession (committed s) (S (trips s)) (minted s) (tx s)).
Proof.
  intros Hq Hf Hne. unfold Seed.SeedProducts, round_trip. rewrite Hq, Hf.
  unfold Seed.select_count.
  destruct (products (committed s)) as [|p ps]; [congruence|].
  replace (Z.of_nat (List.length (p :: ps)) >? 0) with true; [reflexivity|].
  symmetry. apply Z.gtb_lt. cbn [List.length]. lia.
Qed.

(** X20.  Seeding an empty catalog, once.  When no round trip fails, nobody
    else writes, the catalog is empty and the first readable file among the
    three seed paths, in their order, holds the products [ps]:
    [SeedProducts] returns no error and the catalog then holds exactly one
    row per product of the file, in the order of the file, with its title,
    its stock and, as its price, what the column keeps of the price of the
    file; orders and order items are untouched; and running [SeedProducts]
    again on the result returns no error and changes nothing. *)
Theorem SeedProducts_fills_empty_catalog_once
  (env : Env) (host : Seed.Host) (s : Session)
  (pre post : list string) (path data : string) (ps : list Seed.Product) :
  reliable env -> quiet env ->
  products (committed s) = [] ->
  Seed.seedPaths = pre ++ path :: post ->
  Forall (fun p => exists e, Seed.ReadFile host p = inl e) pre ->
  Seed.ReadFile host path = inr data ->
  Seed.Unmarshal host data = inr ps ->
  fst (Seed.SeedProducts env host s) = None
  /\ List.length (products (committed (snd (Seed.SeedProducts env host s)))) = List.length ps
  /\ map Product.Title (products (committed (snd (Seed.SeedProducts env host s))))
     = map Seed.Title ps
  /\ map Product.Price (products (committed (snd (Seed.SeedProducts env host s))))
     = map (fun p => numeric env (Seed.Price p)) ps
  /\ map Product.StockQuantity (products (committed (snd (Seed.SeedProducts env host s))))
     = map Seed.StockQuantity ps
  /\ orders (committed (snd (Seed.SeedProducts env host s))) = orders (committed s)
  /\ order_items (committed (snd (Seed.SeedProducts env host s))) = order_items (committed s)
  /\ fst (Seed.SeedProducts env host (snd (Seed.SeedProducts env host s))) = None
  /\ committed (snd (Seed.SeedProducts env host (snd (Seed.SeedProducts env host s))))
     = committed (snd (Seed.SeedProducts env host s)).
Proof.
  intros Hr Hq Hempty Hpaths Hpre Hpath Hjson.
  assert (Hrun : forall s0, products (committed s0) = [] ->
            Seed.SeedProducts env host s0
            = (None,
               mkSession
                 (mkStore (Seed.rows (numeric env) host (S (trips s0)) ps) (orders (committed s0))
                    (order_items (committed s0)))
                 (S (trips s0) + List.length ps)%nat (minted s0) (tx s0))).
  { intros s0 H0. unfold Seed.SeedProducts, round_trip. rewrite Hq, Hr.
    unfold Seed.select_count. rewrite H0. cbn [List.length Z.of_nat Z.gtb Z.compare].
    rewrite Hpaths, (read_seed_first _ _ _ _ _ _ _ Hpre Hpath), Hjson.
    rewrite insert_all_quiet; [|exact Hq | intros; apply Hr].
    cbn [committed trips minted tx]. now rewrite H0. }
  rewrite (Hrun s Hempty). cbn [fst snd committed products orders order_items].
  destruct (rows_titles (numeric env) host (S (trips s)) ps) as (Ht & Hp & Hs).
  split; [reflexivity|]. split; [apply rows_length|].
  split; [exact Ht|]. split; [exact Hp|]. split; [exact Hs|].
  split; [reflexivity|]. split; [reflexivity|].
  destruct ps as [|p ps'].
  - cbn [Seed.rows]. rewrite Hrun by reflexivity. now split.
  - rewrite SeedProducts_skips; [now split | exact Hq | apply Hr | discriminate].
Qed.

Lemma SeedProducts_fills_empty_catalog_once_witness :
  fst (Seed.SeedProducts decimal_store Seed.demo (connect (mkStore [] [] []))) = None
  /\ List.length
       (products
          (committed
             (snd (Seed.SeedProducts decimal_store Seed.demo
                     (connect (mkStore [] [] []))))))
     = List.length
         [Seed.mk "Salmon Treats" 10%float "food" "s.png" "Tasty" 5;
          Seed.mk "Feather Wand" 5%float "toys" "w.png" "Fun" 3]
  /\ map Product.Title
       (products
          (committed
             (snd (Seed.SeedProducts decimal_store Seed.demo
                     (connect (mkStore [] [] []))))))
     = map Seed.Title
         [Seed.mk "Salmon Treats" 10%float "food" "s.png" "Tasty" 5;
          Seed.mk "Feather Wand" 5%float "toys" "w.png" "Fun" 3]
  /\ map Product.Price
       (products
          (committed
             (snd (Seed.SeedProducts decimal_store Seed.demo
                     (connect (mkStore [] [] []))))))
     = map (fun p => two_decimals (Seed.Price p))
         [Seed.mk "Salmon Treats" 10%float "food" "s.png" "Tasty" 5;
          Seed.mk "Feather Wand" 5%float "toys" "w.png" "Fun" 3]
  /\ map Product.StockQuantity
       (products
          (committed
             (snd (Seed.SeedProducts decimal_store Seed.demo
                     (connect (mkStore [] [] []))))))
     = map Seed.StockQuantity
         [Seed.mk "Salmon Treats" 10%float "food" "s.png" "Tasty" 5;
          Seed.mk "Feather Wand" 5%float "toys" "w.png" "Fun" 3]
  /\ orders
       (committed
          (snd (Seed.SeedProducts decimal_store Seed.demo (connect (mkStore [] [] [])))))
     = orders (committed (connect (mkStore [] [] [])))
  /\ order_items
       (committed
          (snd (Seed.SeedProducts decimal_store Seed.demo (connect (mkStore [] [] [])))))
     = order_items (committed (connect (mkStore [] [] [])))
  /\ fst (Seed.SeedProducts decimal_store Seed.demo
            (snd (Seed.SeedProducts decimal_store Seed.demo
                    (connect (mkStore [] [] [])))))
     = None
  /\ committed
       (snd (Seed.SeedProducts decimal_store Seed.demo
               (snd (Seed.SeedProducts decimal_store Seed.demo
                       (connect (mkStore [] [] []))))))
     = committed
         (snd (Seed.SeedProducts decimal_store Seed.demo (connect (mkStore [] [] [])))).
Proof.
  apply (SeedProducts_fills_empty_catalog_once decimal_store Seed.demo
           (connect (mkStore [] [] []))
           ["/app/seed/seed_products.json"] ["../../infra/seed/seed_products.json"]
           "./seed/seed_products.json" "[...]"
           [Seed.mk "Salmon Treats" 10%float "food" "s.png" "Tasty" 5;
            Seed.mk "Feather Wand" 5%float "toys" "w.png" "Fun" 3]).
  - intro n. reflexivity.
  - intros n st. reflexivity.
  - reflexivity.
  - reflexivity.
  - constructor; [|constructor]. exists (ErrNew "no such file or directory"). reflexivity.
  - reflexivity.
  - reflexivity.
Defined.

(** X21.  A seeding that fails half-way is never repaired.  While nobody
    else writes: when the catalog is empty, the seed file holds [ps], the
    count and the first [k] inserts go through and the insert of the next
    product fails, [SeedProducts] returns the error naming that product and
    leaves the [k] products before it committed (each insert is its own
    statement, there is no transaction); and if [k] is not zero, every later
    run whose count query goes through returns no error and adds nothing,
    whatever the seed files then hold: the rest of the file never reaches
    the catalog. *)
Theorem SeedProducts_partial_seeding_stays
  (env : Env) (host : Seed.Host) (s : Session)
  (pre post : list string) (path data : string) (ps : list Seed.Product)
  (k : nat) (product : Seed.Product) (f : StoreFault) :
  quiet env ->
  products (committed s) = [] ->
  Seed.seedPaths = pre ++ path :: post ->
  Forall (fun p => exists e, Seed.ReadFile host p = inl e) pre ->
  Seed.ReadFile host path = inr data ->
  Seed.Unmarshal host data = inr ps ->
  nth_error ps k = Some product ->
  (forall i, (i <= k)%nat -> fault env (trips s + i)%nat = None) ->
  fault env (S (trips s + k)) = Some f ->
  fst (Seed.SeedProducts env host s)
  = Some (Seed.InsertProduct (Seed.Title product) (ErrStore f))
  /\ map Product.Title (products (committed (snd (Seed.SeedProducts env host s))))
     = map Seed.Title (firstn k ps)
  /\ List.length (products (committed (snd (Seed.SeedProducts env host s)))) = k
  /\ (k < List.length ps)%nat
  /\ ((0 < k)%nat ->
      forall (env' : Env) (host' : Seed.Host),
        quiet env' ->
        fault env' (trips (snd (Seed.SeedProducts env host s))) = None ->
        fst (Seed.SeedProducts env' host' (snd (Seed.SeedProducts env host s))) = None
        /\ committed (snd (Seed.SeedProducts env' host' (snd (Seed.SeedProducts env host s))))
           = committed (snd (Seed.SeedProducts env host s))).
Proof.
  intros Hq Hempty Hpaths Hpre Hpath Hjson Hnth Hok Hf.
  assert (Hk : (k < List.length ps)%nat) by (apply nth_error_Some; congruence).
  assert (Hrun : Seed.SeedProducts env host s
            = (Some (Seed.InsertProduct (Seed.Title product) (ErrStore f)),
               mkSession
                 (mkStore (Seed.rows (numeric env) host (S (trips s)) (firstn k ps)) (orders (committed s))
                    (order_items (committed s)))
                 (S (S (trips s) + k)) (minted s) (tx s))).
  { unfold Seed.SeedProducts, round_trip. rewrite Hq.
    pose proof (Hok 0%nat ltac:(lia)) as H0. rewrite Nat.add_0_r in H0. rewrite H0.
    unfold Seed.select_count. rewrite Hempty. cbn [List.length Z.of_nat Z.gtb Z.compare].
    rewrite Hpaths, (read_seed_first _ _ _ _ _ _ _ Hpre Hpath), Hjson.
    rewrite (insert_all_fault env host ps _ k product f Hq Hnth).
    - cbn [committed trips minted tx]. now rewrite Hempty.
    - intros i Hi. cbn [trips].
      replace (S (trips s) + i)%nat with (trips s + S i)%nat by lia.
      apply Hok. lia.
    - cbn [trips]. exact Hf. }
  rewrite Hrun. cbn [fst snd committed products trips].
  destruct (rows_titles (numeric env) host (S (trips s)) (firstn k ps)) as (Ht & _ & _).
  split; [reflexivity|]. split; [exact Ht|].
  split; [rewrite rows_length, length_firstn; lia|]. split; [exact Hk|].
  intros Hpos env' host' Hq' Hf'.
  rewrite SeedProducts_skips; [now split | exact Hq' | exact Hf' |].
  cbn [committed products]. intro Hnil.
  apply (f_equal (@List.length _)) in Hnil.
  rewrite rows_length, length_firstn in Hnil. cbn in Hnil. lia.
Qed.

Lemma SeedProducts_partial_seeding_stays_witness :
  fst (Seed.SeedProducts (failing 2 ConnLost sample_ids 500) Seed.demo
         (connect (mkStore [] [] [])))
  = Some (Seed.InsertProduct
            (Seed.Title (Seed.mk "Feather Wand" 5%float "toys" "w.png" "Fun" 3))
            (ErrStore ConnLost))
  /\ map Product.Title
       (products
          (committed
             (snd (Seed.SeedProducts (failing 2 ConnLost sample_ids 500) Seed.demo
                     (connect (mkStore [] [] []))))))
     = map Seed.Title
         (firstn 1
            [Seed.mk "Salmon Treats" 10%float "food" "s.png" "Tasty" 5;
             Seed.mk "Feather Wand" 5%float "toys" "w.png" "Fun" 3])
  /\ List.length
       (products
          (committed
             (snd (Seed.SeedProducts (failing 2 ConnLost sample_ids 500) Seed.demo
                     (connect (mkStore [] [] []))))))
     = 1%nat
  /\ (1 < List.length
            [Seed.mk "Salmon Treats" 10%float "food" "s.png" "Tasty" 5;
             Seed.mk "Feather Wand" 5%float "toys" "w.png" "Fun" 3])%nat
  /\ ((0 < 1)%nat ->
      forall (env' : Env) (host' : Seed.Host),
        quiet env' ->
        fault env'
          (trips
             (snd (Seed.SeedProducts (failing 2 ConnLost sample_ids 500) Seed.demo
                     (connect (mkStore [] [] [])))))
        = None ->
        fst (Seed.SeedProducts env' host'
               (snd (Seed.SeedProducts (failing 2 ConnLost sample_ids 500) Seed.demo
                       (connect (mkStore [] [] [])))))
        = None
        /\ committed
             (snd (Seed.SeedProducts env' host'
                     (snd (Seed.SeedProducts (failing 2 ConnLost sample_ids 500) Seed.demo
                             (connect (mkStore [] [] []))))))
           = committed
               (snd (Seed.SeedProducts (failing 2 ConnLost sample_ids 500) Seed.demo
                       (connect (mkStore [] [] []))))).
Proof.
  apply (SeedProducts_partial_seeding_stays (failing 2 ConnLost sample_ids 500) Seed.demo
           (connect (mkStore [] [] []))
           ["/app/seed/seed_products.json"] ["../../infra/seed/seed_products.json"]
           "./seed/seed_products.json" "[...]"
           [Seed.mk "Salmon Treats" 10%float "food" "s.png" "Tasty" 5;
            Seed.mk "Feather Wand" 5%float "toys" "w.png" "Fun" 3]
           1%nat (Seed.mk "Feather Wand" 5%float "toys" "w.png" "Fun" 3) ConnLost).
  - intros n st. reflexivity.
  - reflexivity.
  - reflexivity.
  - constructor; [|constructor]. exists (ErrNew "no such file or directory"). reflexivity.
  - reflexivity.
  - reflexivity.
  - reflexivity.
  - intros i Hi. destruct i as [|[|i]]; [reflexivity | reflexivity | lia].
  - reflexivity.
Defined.
